(** * tgdailybot: the reminder and time-zone engine of the mini app (webapp/app.js)

    A shallow embedding of the reminder engine of [src/app.js] (the variant
    with local notifications, lines 188-786) and of the pieces of the
    JavaScript platform it calls ([Number.parseInt], [String.prototype.split],
    [Date.UTC], [Intl.DateTimeFormat.prototype.formatToParts]).

    Conventions of the embedding.
    - A JavaScript string is a [string]; each character stands for one UTF-16
      code unit below 256.
    - A JavaScript number holding an integer is [Fin z] with [z : Z]; the
      arithmetic on [Z] is the arithmetic of IEEE doubles as long as the values
      stay within the safe range (magnitude below 2^53), which is where epoch
      milliseconds live.  [NaN] and the infinities are separate constructors.
      [Date.UTC] and [Number.parseInt] are computed on [Z]: they are those of
      the platform on components that keep every intermediate value a double
      ([App.plainComponents]); the theorems that give the value of the
      conversion of a typed date take components within these bounds.
    - Code that can throw returns an [outcome]; every throw of the modelled
      handlers happens before their first assignment to the state.
    - [String(v)] throws on some stored values.  [Js.toString] is the string
      it returns when it returns, and the functions of [App] and [Storage]
      built on it are the results of the code when it returns; [Strict] has
      the conversion and [loadSettings] with the exception.
    - [App.Action] lists the handlers of one visit of the page; [Session]
      adds the storage they write and [init] reading it back on the next
      visit.
    - A handler returns the state after it and the list of what it did to the
      page, to [localStorage] and to the notification sink, as events;
      [emitReminder], [showToast], [saveTasks] and [render] are such events
      and are not looked into.
    - The time-zone database of the platform is a parameter ([TimeZones]). *)

From Stdlib Require Import ZArith List String Ascii Bool Lia.
Import ListNotations.

Local Open Scope string_scope.
Local Open Scope Z_scope.

(** ** JavaScript numbers *)

Module Js.

Inductive number : Type :=
| Fin (z : Z)
| NaN
| Inf (negative : bool).

(** [Number.isFinite]. *)
Definition isFinite (n : number) : bool :=
  match n with Fin _ => true | _ => false end.

(** The binary [-] of two numbers. *)
Definition sub (a b : number) : number :=
  match a, b with
  | NaN, _ | _, NaN => NaN
  | Fin x, Fin y => Fin (x - y)
  | Fin _, Inf s => Inf (negb s)
  | Inf s, Fin _ => Inf s
  | Inf s, Inf s' => if Bool.eqb s s' then NaN else Inf s
  end.

(** The double nearest to an integer: magnitudes from 2^1024 - 2^970 on round
    to an infinity. *)
Definition ofInteger (z : Z) : number :=
  if Z.abs z <? 2 ^ 1024 - 2 ^ 970 then Fin z else Inf (z <? 0).

(** Thrown values: the [RangeError] of the date formatter and the [TypeError]
    of a conversion to a string. *)
Inductive exn : Type := RangeError | TypeError.

Inductive outcome (A : Type) : Type :=
| Return (a : A)
| Throw (e : exn).
Arguments Return {A} a.
Arguments Throw {A} e.

Definition bind {A B : Type} (m : outcome A) (k : A -> outcome B) : outcome B :=
  match m with
  | Return a => k a
  | Throw e => Throw e
  end.

(** *** Strings *)

(** WhiteSpace and LineTerminator code units below 256: TAB, LF, VT, FF, CR,
    SP and NBSP. *)
Definition isWhiteSpace (c : ascii) : bool :=
  let n := nat_of_ascii c in
  ((9 <=? n)%nat && (n <=? 13)%nat) || (n =? 32)%nat || (n =? 160)%nat.

Fixpoint trimStart (s : string) : string :=
  match s with
  | String c rest => if isWhiteSpace c then trimStart rest else s
  | EmptyString => EmptyString
  end.

Fixpoint rev_string (s acc : string) : string :=
  match s with
  | EmptyString => acc
  | String c rest => rev_string rest (String c acc)
  end.

Definition trimEnd (s : string) : string :=
  rev_string (trimStart (rev_string s "")) "".

(** [String.prototype.trim]. *)
Definition trim (s : string) : string := trimEnd (trimStart s).

(** [s.split(sep)] for a separator of one code unit. *)
Fixpoint split (sep : ascii) (s : string) : list string :=
  match s with
  | EmptyString => [""]
  | String c rest =>
      if Ascii.eqb c sep then "" :: split sep rest
      else match split sep rest with
           | hd :: tl => String c hd :: tl
           | [] => [String c ""]
           end
  end.

(** [s.includes(c)] for one code unit. *)
Fixpoint includes (c : ascii) (s : string) : bool :=
  match s with
  | EmptyString => false
  | String d rest => Ascii.eqb d c || includes c rest
  end.

(** [s.replace(a, b)] for patterns of one code unit: the first occurrence
    only. *)
Fixpoint replace (a b : ascii) (s : string) : string :=
  match s with
  | EmptyString => EmptyString
  | String c rest => if Ascii.eqb c a then String b rest else String c (replace a b rest)
  end.

Definition isEmpty (s : string) : bool :=
  match s with EmptyString => true | _ => false end.

(** [s.slice(0, n)]. *)
Definition slice0 (n : nat) (s : string) : string := substring 0 n s.

Definition digitValue (c : ascii) : option Z :=
  let n := nat_of_ascii c in
  if ((48 <=? n)%nat && (n <=? 57)%nat)%bool then Some (Z.of_nat n - 48) else None.

Fixpoint digitsPrefix (s : string) : list Z :=
  match s with
  | String c rest =>
      match digitValue c with
      | Some d => d :: digitsPrefix rest
      | None => []
      end
  | EmptyString => []
  end.

Definition mathInt (ds : list Z) : Z :=
  fold_left (fun acc d => 10 * acc + d) ds 0.

(** [Number.parseInt(s, 10)]: leading white space is skipped, one sign is
    read, then the longest prefix of decimal digits; no digit gives [NaN].
    The integer read is kept as it is; the platform rounds it to a double,
    which is the same number up to 2^53. *)
Definition parseInt (s : string) : number :=
  let t := trimStart s in
  let '(neg, body) :=
    match t with
    | String "-" rest => (true, rest)
    | String "+" rest => (false, rest)
    | _ => (false, t)
    end in
  match digitsPrefix body with
  | [] => NaN
  | ds => ofInteger (if neg then - mathInt ds else mathInt ds)
  end.

(** *** Decimal output *)

Definition digitChar (d : Z) : ascii := ascii_of_nat (Z.to_nat (48 + d)).

Fixpoint decimalAux (fuel : nat) (n : Z) (acc : string) : string :=
  match fuel with
  | O => acc
  | S fuel' =>
      let acc' := String (digitChar (n mod 10)) acc in
      if n <? 10 then acc' else decimalAux fuel' (n / 10) acc'
  end.

(** The decimal digits of a non-negative integer, most significant first. *)
Definition decimal (n : Z) : string :=
  decimalAux (S (Z.to_nat (Z.log2 n))) n "".

Fixpoint dropTrailingZeros (s : string) : string :=
  match s with
  | EmptyString => EmptyString
  | String c rest =>
      match dropTrailingZeros rest with
      | EmptyString => if Ascii.eqb c "0" then EmptyString else String c EmptyString
      | rest' => String c rest'
      end
  end.

(** [String(n)] for an integer [n] (Number::toString, radix 10): plain digits
    below 10^21, exponent notation from there on.  The digits of the exponent
    form are those of the integer itself, which are the ones JavaScript prints
    when the integer is a double with at most 17 significant digits. *)
Definition numberToString (n : Z) : string :=
  let sign := if n <? 0 then "-" else "" in
  let m := Z.abs n in
  if m <? 10 ^ 21 then sign ++ decimal m
  else
    let ds := decimal m in
    let e := Z.of_nat (String.length ds) - 1 in
    match dropTrailingZeros ds with
    | String c EmptyString => sign ++ String c ("e+" ++ decimal e)
    | String c rest => sign ++ String c ("." ++ rest ++ "e+" ++ decimal e)
    | EmptyString => sign ++ ds
    end.

Fixpoint repeatChar (c : ascii) (n : nat) : string :=
  match n with
  | O => EmptyString
  | S k => String c (repeatChar c k)
  end.

(** [s.padStart(n, c)] for a filler of one code unit. *)
Definition padStart (n : nat) (c : ascii) (s : string) : string :=
  repeatChar c (n - String.length s) ++ s.


(** *** Values read from storage and from the page *)

(** The values [JSON.parse] produces, and [undefined] for a missing
    property; numbers are integers. *)
#[warnings="-register-all"]
Inductive value : Type :=
| Undefined
| Null
| Bool (b : bool)
| Num (n : Z)
| Str (s : string)
| Arr (items : list value)
| Obj (fields : list (string * value)).

Fixpoint joinWith (sep : string) (l : list string) : string :=
  match l with
  | [] => ""
  | [x] => x
  | x :: rest => x ++ sep ++ joinWith sep rest
  end.

(** [String(v)], when it returns ([Strict.ToString] has the exception). *)
Fixpoint toString (v : value) : string :=
  match v with
  | Undefined => "undefined"
  | Null => "null"
  | Bool true => "true"
  | Bool false => "false"
  | Num n => numberToString n
  | Str s => s
  | Arr items =>
      joinWith ","
        (map (fun item => match item with
                          | Undefined | Null => ""
                          | _ => toString item
                          end) items)
  | Obj _ => "[object Object]"
  end.

(** [Boolean(v)]. *)
Definition toBoolean (v : value) : bool :=
  match v with
  | Undefined | Null => false
  | Bool b => b
  | Num n => negb (n =? 0)
  | Str s => negb (isEmpty s)
  | Arr _ | Obj _ => true
  end.

Fixpoint lookupField (key : string) (fields : list (string * value)) : value :=
  match fields with
  | [] => Undefined
  | (k, v) :: rest => if String.eqb k key then v else lookupField key rest
  end.

(** [v?.key] for the keys the application reads (none of them is a property
    of a string or of an array). *)
Definition getProp (v : value) (key : string) : value :=
  match v with
  | Obj fields => lookupField key fields
  | _ => Undefined
  end.

(** *** Notions used to reason about digit strings *)

Definition isDigit (c : ascii) : bool :=
  match digitValue c with Some _ => true | None => false end.

(** The string of a list of digits. *)
Fixpoint fromDigits (ds : list Z) : string :=
  match ds with
  | [] => EmptyString
  | d :: rest => String (digitChar d) (fromDigits rest)
  end.

(** The digits that [decimalAux] writes, as numbers. *)
Fixpoint digitsAux (fuel : nat) (n : Z) (acc : list Z) : list Z :=
  match fuel with
  | O => acc
  | S fuel' =>
      let acc' := (n mod 10) :: acc in
      if n <? 10 then acc' else digitsAux fuel' (n / 10) acc'
  end.

(** No digit at the head of the string. *)
Definition noLeadingDigit (s : string) : bool :=
  match s with
  | EmptyString => true
  | String c _ => negb (isDigit c)
  end.

(** The last code unit, if any, is not white space. *)
Fixpoint endsNonWs (s : string) : bool :=
  match s with
  | EmptyString => true
  | String c EmptyString => negb (isWhiteSpace c)
  | String _ rest => endsNonWs rest
  end.

Definition startsNonWs (s : string) : bool :=
  match s with
  | EmptyString => true
  | String c _ => negb (isWhiteSpace c)
  end.

Definition digitList (ds : list Z) : Prop := Forall (fun d => 0 <= d <= 9) ds.

(** The digits of a non-negative integer, as numbers. *)
Definition digitsOf (n : Z) : list Z :=
  digitsAux (S (Z.to_nat (Z.log2 n))) n [].

End Js.

(** ** Time values (ECMA-262, Date objects) *)

Module Date.
Import Js.

Definition msPerSecond : Z := 1000.
Definition msPerMinute : Z := 60000.
Definition msPerHour : Z := 3600000.
Definition msPerDay : Z := 86400000.

(** The largest magnitude of a time value: 100,000,000 days around the epoch. *)
Definition maxTime : Z := 8640000000000000.

Definition validTime (t : Z) : bool := Z.abs t <=? maxTime.

Definition TimeClip (t : Z) : number :=
  if validTime t then Fin t else NaN.

Definition Day (t : Z) : Z := t / msPerDay.
Definition TimeWithinDay (t : Z) : Z := t mod msPerDay.

Definition isLeapYear (y : Z) : bool :=
  if negb (y mod 4 =? 0) then false
  else if negb (y mod 100 =? 0) then true
  else if negb (y mod 400 =? 0) then false
  else true.

Definition DaysInYear (y : Z) : Z := if isLeapYear y then 366 else 365.

Definition DayFromYear (y : Z) : Z :=
  365 * (y - 1970) + (y - 1969) / 4 - (y - 1901) / 100 + (y - 1601) / 400.

(** The year of a day number: the largest [y] with [DayFromYear y <= d]
    (lemma [YearFromDay_spec]), found from the mean length of a year and one
    correction step. *)
Definition YearFromDay (d : Z) : Z :=
  let y0 := 1970 + (400 * d) / 146097 in
  if DayFromYear (y0 + 1) <=? d then y0 + 1
  else if DayFromYear y0 <=? d then y0
  else y0 - 1.

Definition YearFromTime (t : Z) : Z := YearFromDay (Day t).

Definition DayWithinYear (t : Z) : Z := Day t - DayFromYear (YearFromTime t).

(** The number of days of the year before month [m] (0 for January). *)
Definition monthStart (leap : bool) (m : Z) : Z :=
  let l := if leap then 1 else 0 in
  if m <=? 0 then 0
  else if m =? 1 then 31
  else if m =? 2 then 59 + l
  else if m =? 3 then 90 + l
  else if m =? 4 then 120 + l
  else if m =? 5 then 151 + l
  else if m =? 6 then 181 + l
  else if m =? 7 then 212 + l
  else if m =? 8 then 243 + l
  else if m =? 9 then 273 + l
  else if m =? 10 then 304 + l
  else if m =? 11 then 334 + l
  else 365 + l.

(** The length of month [m] (0 for January). *)
Definition DaysInMonth (leap : bool) (m : Z) : Z :=
  monthStart leap (m + 1) - monthStart leap m.

Definition monthOfDay (leap : bool) (d : Z) : Z :=
  if d <? monthStart leap 1 then 0
  else if d <? monthStart leap 2 then 1
  else if d <? monthStart leap 3 then 2
  else if d <? monthStart leap 4 then 3
  else if d <? monthStart leap 5 then 4
  else if d <? monthStart leap 6 then 5
  else if d <? monthStart leap 7 then 6
  else if d <? monthStart leap 8 then 7
  else if d <? monthStart leap 9 then 8
  else if d <? monthStart leap 10 then 9
  else if d <? monthStart leap 11 then 10
  else 11.

Definition MonthFromTime (t : Z) : Z :=
  monthOfDay (isLeapYear (YearFromTime t)) (DayWithinYear t).

Definition DateFromTime (t : Z) : Z :=
  DayWithinYear t - monthStart (isLeapYear (YearFromTime t)) (MonthFromTime t) + 1.

Definition HourFromTime (t : Z) : Z := (t / msPerHour) mod 24.
Definition MinFromTime (t : Z) : Z := (t / msPerMinute) mod 60.
Definition SecFromTime (t : Z) : Z := (t / msPerSecond) mod 60.

Definition MakeTime (hour min sec ms : Z) : Z :=
  hour * msPerHour + min * msPerMinute + sec * msPerSecond + ms.

(** [MakeDay(year, month, date)]: months outside 0..11 carry into the year,
    the date counts on from the first of the month. *)
Definition MakeDay (year month date : Z) : Z :=
  let ym := year + month / 12 in
  let mn := month mod 12 in
  DayFromYear ym + monthStart (isLeapYear ym) mn + date - 1.

Definition MakeDate (day time : Z) : Z := day * msPerDay + time.

(** [Date.UTC(year, month, date, hours, minutes, seconds, ms)] on integers:
    years 0..99 mean 1900..1999, the result is clipped to the valid range.
    The sums and products are those of the integers; the platform rounds
    each of them to a double, which changes nothing as long as they stay
    doubles. *)
Definition UTC (year month date hours minutes seconds ms : Z) : number :=
  let yr := if (0 <=? year) && (year <=? 99) then 1900 + year else year in
  TimeClip (MakeDate (MakeDay yr month date) (MakeTime hours minutes seconds ms)).

End Date.

(** ** The platform's time-zone database *)

(** [utcOffset zone] is [None] for an identifier that [Intl.DateTimeFormat]
    rejects, and otherwise the offset of the zone's wall clock from UTC, in
    milliseconds, at each instant. *)
Class TimeZones : Type := { utcOffset : string -> option (Z -> Z) }.

(** ** The application *)

Module App.
Import Js.

Definition MAX_TEXT_LENGTH : nat := 300.

Record Zone : Type := { zoneId : string; zoneLabel : string }.

(** The labels keep their offset; the city names (Cyrillic) are left out. *)
Definition RU_TIMEZONES : list Zone :=
  [ {| zoneId := "Europe/Kaliningrad"; zoneLabel := "UTC+2" |};
    {| zoneId := "Europe/Moscow"; zoneLabel := "UTC+3" |};
    {| zoneId := "Europe/Samara"; zoneLabel := "UTC+4" |};
    {| zoneId := "Asia/Yekaterinburg"; zoneLabel := "UTC+5" |};
    {| zoneId := "Asia/Omsk"; zoneLabel := "UTC+6" |};
    {| zoneId := "Asia/Krasnoyarsk"; zoneLabel := "UTC+7" |};
    {| zoneId := "Asia/Irkutsk"; zoneLabel := "UTC+8" |};
    {| zoneId := "Asia/Yakutsk"; zoneLabel := "UTC+9" |};
    {| zoneId := "Asia/Vladivostok"; zoneLabel := "UTC+10" |};
    {| zoneId := "Asia/Magadan"; zoneLabel := "UTC+11" |};
    {| zoneId := "Asia/Kamchatka"; zoneLabel := "UTC+12" |} ].

(** [timezoneMap.has(id)] for a string [id]. *)
Definition timezoneMap_has (id : string) : bool :=
  existsb (fun zone => String.eqb (zoneId zone) id) RU_TIMEZONES.


Record ZoneParts : Type := {
  year : Z; month : Z; day : Z; hour : Z; minute : Z; second : Z
}.

(** *** The data model *)

Record Task : Type := {
  id : string;
  text : string;
  done : bool;
  createdAt : Z;
  reminderAt : option Z;     (* [None] is [null] *)
  notifiedFor : option Z     (* [None] is [null] *)
}.

Record Settings : Type := {
  timezone : string;
  notificationsEnabled : bool;
  notifyBeforeMinutes : Z
}.

(** [state], without the filter and the toast timer. *)
Record State : Type := {
  tasks : list Task;
  settings : Settings
}.

(** The toasts of the application, named by what their text says. *)
Inductive Message : Type :=
| MsgEnterText          (* the task text is missing *)
| MsgBadReminderDate    (* the reminder date is not valid *)
| MsgBadTimeFormat      (* the time format is wrong *)
| MsgReminderInPast     (* the reminder cannot be in the past *)
| MsgEmptyText          (* the task text cannot be empty *)
| MsgEnableHint.        (* press the button to allow notifications *)

(** What a handler does to the page, the storage and the notification sink,
    in the order of the calls. *)
Inductive Event : Type :=
| ShowToast (message : Message) (isError : bool)
| EmitReminder (task : Task)
| SaveTasks
| SaveSettings
| Render
| UpdateClock
| ClearInputs
| SetNotifyBeforeInput (minutes : Z).

(** The [{ ok, value }] and [{ ok, message }] results of the two parsers. *)
Inductive Parsed : Type :=
| Ok (value : option Z)
| NotOk (message : Message).

(** The truth value of a nullable number: [null] and [0] are falsy. *)
Definition truthy (v : option Z) : bool :=
  match v with
  | Some z => negb (z =? 0)
  | None => false
  end.

(** [v < now]; [null] compares as [0]. *)
Definition before (v : option Z) (now : Z) : bool :=
  match v with
  | Some z => z <? now
  | None => 0 <? now
  end.

Definition hasId (taskId : string) (item : Task) : bool := String.eqb (id item) taskId.

(** The assignments to the object that [state.tasks.find] returned: the
    first task with the identifier is replaced by [f] of it. *)
Fixpoint updateFound (taskId : string) (f : Task -> Task) (l : list Task) : list Task :=
  match l with
  | [] => []
  | item :: rest =>
      if hasId taskId item then f item :: rest
      else item :: updateFound taskId f rest
  end.

Definition setNotifiedFor (v : option Z) (task : Task) : Task :=
  {| id := id task; text := text task; done := done task;
     createdAt := createdAt task; reminderAt := reminderAt task;
     notifiedFor := v |}.

Definition setDone (d : bool) (task : Task) : Task :=
  {| id := id task; text := text task; done := d;
     createdAt := createdAt task; reminderAt := reminderAt task;
     notifiedFor := notifiedFor task |}.

Definition setTasks (l : list Task) (st : State) : State :=
  {| tasks := l; settings := settings st |}.

(** [clampInt]. *)
Definition clampInt (v : value) (min max fallback : Z) : Z :=
  match parseInt (toString v) with
  | Fin num =>
      if num <? min then min
      else if max <? num then max
      else num
  | _ => fallback
  end.

Definition settingsValue (s : Settings) : value :=
  Obj [ ("timezone", Str (timezone s));
        ("notificationsEnabled", Bool (notificationsEnabled s));
        ("notifyBeforeMinutes", Num (notifyBeforeMinutes s)) ].

(** [loadJson]: [parsed] is what [JSON.parse] made of the stored text, [None]
    when the key is absent or empty or the text does not parse. *)
Definition loadJson (parsed : option value) (fallback : value) : value :=
  match parsed with
  | None | Some Null | Some Undefined => fallback
  | Some v => v
  end.

(** [loadSettings], reading the stored value [parsed]. *)
Definition loadSettings (parsed : option value) (st : State) : Settings :=
  let raw := loadJson parsed (settingsValue (settings st)) in
  let timezone :=
    match getProp raw "timezone" with
    | Str s => if timezoneMap_has s then s else "Europe/Moscow"
    | _ => "Europe/Moscow"
    end in
  let notifyBeforeMinutes := clampInt (getProp raw "notifyBeforeMinutes") 0 120 0 in
  {| timezone := timezone;
     notificationsEnabled := toBoolean (getProp raw "notificationsEnabled");
     notifyBeforeMinutes := notifyBeforeMinutes |}.

(** The initial [state]. *)
Definition initialState : State :=
  {| tasks := [];
     settings := {| timezone := "Europe/Moscow";
                    notificationsEnabled := false;
                    notifyBeforeMinutes := 0 |} |}.

(** *** The reminder check *)

(** One turn of the loop of [checkReminders]: the task after it and whether
    [emitReminder] was called on it. *)
Definition checkTask (now leadMs : Z) (task : Task) : Task * bool :=
  if done task || negb (truthy (reminderAt task)) then (task, false)
  else
    match reminderAt task with
    | None => (task, false)
    | Some r =>
        let triggerAt := r - leadMs in
        if now <? triggerAt then (task, false)
        else if match notifiedFor task with
                | Some n => n =? triggerAt
                | None => false
                end then (task, false)
        else (setNotifiedFor (Some triggerAt) task, true)
    end.

(** The loop of [checkReminders] over [state.tasks]: the tasks after it, the
    reminders emitted, and the flag [changed]. *)
Fixpoint checkLoop (now leadMs : Z) (l : list Task) : list Task * list Event * bool :=
  match l with
  | [] => ([], [], false)
  | task :: rest =>
      let '(task', fired) := checkTask now leadMs task in
      let '(rest', events, changed) := checkLoop now leadMs rest in
      if fired then (task' :: rest', EmitReminder task :: events, true)
      else (task' :: rest', events, changed)
  end.

Definition checkReminders (now : Z) (st : State) : State * list Event :=
  if negb (notificationsEnabled (settings st)) then (st, [])
  else
    let leadMs := notifyBeforeMinutes (settings st) * 60000 in
    let '(tasks', events, changed) := checkLoop now leadMs (tasks st) in
    (setTasks tasks' st, (events ++ (if changed then [SaveTasks; Render] else []))%list).

(** *** Handlers that do not convert times *)

Definition toggleTask (taskId : string) (d : bool) (st : State) : State * list Event :=
  match find (hasId taskId) (tasks st) with
  | None => (st, [])
  | Some _ =>
      let assign task :=
        let task1 := setDone d task in
        if d then setNotifiedFor None task1 else task1 in
      (setTasks (updateFound taskId assign (tasks st)) st, [SaveTasks; Render])
  end.

Definition deleteTask (taskId : string) (st : State) : State * list Event :=
  (setTasks (filter (fun item => negb (hasId taskId item)) (tasks st)) st,
   [SaveTasks; Render]).

Definition clearDone (st : State) : State * list Event :=
  (setTasks (filter (fun task => negb (done task)) (tasks st)) st, [SaveTasks; Render]).

(** The [change] handler of the lead-time input. *)
Definition onNotifyBeforeChange (inputValue : string) (now : Z) (st : State)
  : State * list Event :=
  let minutes := clampInt (Str inputValue) 0 120 0 in
  let st1 := {| tasks := tasks st;
                settings := {| timezone := timezone (settings st);
                               notificationsEnabled := notificationsEnabled (settings st);
                               notifyBeforeMinutes := minutes |} |} in
  let '(st2, events) := checkReminders now st1 in
  (st2, ([SetNotifyBeforeInput minutes; SaveSettings] ++ events ++ [Render])%list).

(** The [change] handler of the time-zone select. *)
Definition onTimezoneChange (selected : string) (st : State) : State * list Event :=
  if negb (timezoneMap_has selected) then (st, [])
  else
    ({| tasks := tasks st;
        settings := {| timezone := selected;
                       notificationsEnabled := notificationsEnabled (settings st);
                       notifyBeforeMinutes := notifyBeforeMinutes (settings st) |} |},
     [SaveSettings; UpdateClock; Render]).

(** The [change] handler of the notifications check box; [permissionDefault]
    says that the page may still ask for the permission. *)
Definition onNotificationsEnabledChange (checked permissionDefault : bool) (st : State)
  : State * list Event :=
  ({| tasks := tasks st;
      settings := {| timezone := timezone (settings st);
                     notificationsEnabled := checked;
                     notifyBeforeMinutes := notifyBeforeMinutes (settings st) |} |},
   SaveSettings :: (if checked && permissionDefault then [ShowToast MsgEnableHint false] else [])).

(** Any number of reminder checks in a row, at the instants [nows], with
    nothing else touching the state in between. *)
Fixpoint polls (nows : list Z) (st : State) : State * list Event :=
  match nows with
  | [] => (st, [])
  | now :: later =>
      let '(st1, events1) := checkReminders now st in
      let '(st2, events2) := polls later st1 in
      (st2, (events1 ++ events2)%list)
  end.

(** The trigger instant of a reminder under a lead time in minutes. *)
Definition computeTrigger (reminder leadMinutes : Z) : Z := reminder - leadMinutes * 60000.

(** When the reminder check fires for a task: the reminder is set and not 0
    (the code tests its truthiness), the task is open, the trigger instant is
    reached, and the stored key is not that trigger. *)
Definition shouldFire (task : Task) (now leadMinutes : Z) : Prop :=
  exists r, reminderAt task = Some r /\ r <> 0 /\ done task = false /\
            computeTrigger r leadMinutes <= now /\
            notifiedFor task <> Some (computeTrigger r leadMinutes).

(** The same with any set reminder, 0 included. *)
Definition shouldFireAnyReminder (task : Task) (now leadMinutes : Z) : Prop :=
  exists r, reminderAt task = Some r /\ done task = false /\
            computeTrigger r leadMinutes <= now /\
            notifiedFor task <> Some (computeTrigger r leadMinutes).

(** The de-duplication key of a task is in order: [notifiedFor] is [null] or
    the trigger instant of the task's reminder under a lead time of 0..120
    minutes. *)
Definition keyOk (task : Task) : Prop :=
  match notifiedFor task with
  | None => True
  | Some n => exists r lead, reminderAt task = Some r /\ 0 <= lead <= 120 /\
                             n = computeTrigger r lead
  end.

Definition wellKeyed (st : State) : Prop :=
  Forall keyOk (tasks st) /\ 0 <= notifyBeforeMinutes (settings st) <= 120.

(** The same, or the key is 0: what [normalizeTask] makes of a [null] key
    when the tasks are loaded. *)
Definition keyOrZero (task : Task) : Prop :=
  match notifiedFor task with
  | None => True
  | Some n => n = 0 \/ exists r lead, reminderAt task = Some r /\ 0 <= lead <= 120 /\
                                      n = computeTrigger r lead
  end.

Definition ordered (st : State) : Prop :=
  Forall keyOrZero (tasks st) /\ 0 <= notifyBeforeMinutes (settings st) <= 120.

(** *** Decomposition of a date-time string *)

(** Piece [i] of [part] cut at [sep], read as an integer, when it is there
    and finite. *)
Definition component (sep : ascii) (part : string) (i : nat) : option Z :=
  match nth_error (split sep part) i with
  | Some piece =>
      match parseInt piece with
      | Fin z => Some z
      | _ => None
      end
  | None => None
  end.

(** The five finite integer components (year, month, day, hour, minute) of a
    string with a non-empty date part and a non-empty time part around its
    first T. *)
Definition components (s : string) : option (Z * Z * Z * Z * Z) :=
  match nth_error (split "T" s) 0, nth_error (split "T" s) 1 with
  | Some datePart, Some timePart =>
      if isEmpty datePart || isEmpty timePart then None
      else
        match component "-" datePart 0, component "-" datePart 1, component "-" datePart 2,
              component ":" timePart 0, component ":" timePart 1 with
        | Some y, Some m, Some d, Some h, Some mi => Some (y, m, d, h, mi)
        | _, _, _, _, _ => None
        end
  | _, _ => None
  end.

(** The components read as a UTC date and time. *)
Definition naiveUTC (c : Z * Z * Z * Z * Z) : number :=
  let '(y, m, d, h, mi) := c in Date.UTC y (m - 1) d h mi 0 0.

(** Calendar ranges of the five components. *)
Definition validCalendar (c : Z * Z * Z * Z * Z) : Prop :=
  let '(y, m, d, h, mi) := c in
  1 <= m <= 12 /\ 1 <= d <= Date.DaysInMonth (Date.isLeapYear y) (m - 1) /\
  0 <= h < 24 /\ 0 <= mi < 60.

(** Components on which the arithmetic of [Date.UTC] is that of the
    integers: every product and sum of the computation is a double, and the
    month stays within the years of the time values. *)
Definition plainComponents (c : Z * Z * Z * Z * Z) : Prop :=
  let '(y, m, d, h, mi) := c in
  0 <= y <= 275000 /\ Z.abs m <= 1200 /\ Z.abs d <= 1000000 /\
  Z.abs h <= 1000000000 /\ Z.abs mi <= 1000000000.

(** *** Notions used to state the behaviour of the refinement *)

(** The start of the year 100, the first year that [Date.UTC] takes as
    written. *)
Definition year100 : Z := -59011459200000.

(** The offset that [zoneOffsetMs] computes at [t] in a zone of offset
    function [off]: the local time without its milliseconds, minus [t]. *)
Definition seenOffset (off : Z -> Z) (t : Z) : Z :=
  let local := t + off t in local - local mod 1000 - t.

(** The guess after [n] refinements from the guess [r]. *)
Fixpoint refined (off : Z -> Z) (utcGuess : Z) (n : nat) (r : Z) : Z :=
  match n with
  | O => r
  | S k => refined off utcGuess k (utcGuess - seenOffset off r)
  end.

(** The offsets of a zone stay within a day of UTC. *)
Definition boundedOffsets (off : Z -> Z) : Prop :=
  forall t, Z.abs (off t) <= Date.msPerDay.

(** The naive UTC times on which the refinement is followed: from the year
    100 to the end of the time values, three days off either end. *)
Definition refinable (utcGuess : Z) : Prop :=
  year100 + 3 * Date.msPerDay <= utcGuess <= Date.maxTime - 3 * Date.msPerDay.

(** The offsets of a zone stay within a day of UTC at the instants within a
    day and a second of [utcGuess]. *)
Definition locallyBounded (off : Z -> Z) (utcGuess : Z) : Prop :=
  forall t, Z.abs (t - utcGuess) <= Date.msPerDay + 999 -> Z.abs (off t) <= Date.msPerDay.

(** Within two days of the wall-clock time [wall] the zone changes its offset
    at most once: it is [a] before the instant [change] and [b] from it on,
    both whole seconds and within a day. *)
Definition singleTransition (off : Z -> Z) (wall : Z) : Prop :=
  exists change a b,
    Z.abs a <= Date.msPerDay /\ Z.abs b <= Date.msPerDay /\
    a mod 1000 = 0 /\ b mod 1000 = 0 /\
    forall t, Z.abs (t - wall) <= 2 * Date.msPerDay ->
              off t = if t <? change then a else b.

(** Some instant shows [wall] on the clock of the zone: [wall] is not inside
    a gap of the zone. *)
Definition shownOnClock (off : Z -> Z) (wall : Z) : Prop :=
  exists t, Z.abs (t - wall) <= Date.msPerDay /\ t + off t = wall.

(** *** Conversions between wall-clock times and instants *)

Section WithTimeZones.
Context {tz : TimeZones}.

(** [getZoneParts]: the formatter is built for [timeZone] (a [RangeError] for
    an unknown zone), [new Date(timestamp)] clips the time value, and
    [formatToParts] throws a [RangeError] on an invalid date.  The parts are
    the fields of the local time [t + offset]; the numeric year of a year
    before 1 is printed as [1 - year]; the hour runs over 0..23. *)
Definition getZoneParts (timestamp : number) (timeZone : string) : outcome ZoneParts :=
  match utcOffset timeZone with
  | None => Throw RangeError
  | Some offset =>
      match timestamp with
      | Fin t =>
          if Date.validTime t then
            let local := t + offset t in
            let y := Date.YearFromTime local in
            Return {| year := if y <=? 0 then 1 - y else y;
                      month := Date.MonthFromTime local + 1;
                      day := Date.DateFromTime local;
                      hour := Date.HourFromTime local;
                      minute := Date.MinFromTime local;
                      second := Date.SecFromTime local |}
          else Throw RangeError
      | _ => Throw RangeError
      end
  end.

Definition zoneOffsetMs (timeZone : string) (timestamp : number) : outcome number :=
  bind (getZoneParts timestamp timeZone) (fun p =>
  let asUtc := Date.UTC (year p) (month p - 1) (day p) (hour p) (minute p) (second p) 0 in
  Return (sub asUtc timestamp)).

(** The body of the loop of [zonedLocalToUtcMs], run [n] times. *)
Fixpoint refineLoop (n : nat) (timeZone : string) (utcGuess result : number) : outcome number :=
  match n with
  | O => Return result
  | S k =>
      bind (zoneOffsetMs timeZone result) (fun off =>
      refineLoop k timeZone utcGuess (sub utcGuess off))
  end.

(** [zonedLocalToUtcMs]; [Return None] is the [null] result. *)
Definition zonedLocalToUtcMs (datetimeValue timeZone : string) : outcome (option number) :=
  match split "T" datetimeValue with
  | datePart :: timePart :: _ =>
      if isEmpty datePart || isEmpty timePart then Return None
      else
        match map parseInt (split "-" datePart), map parseInt (split ":" timePart) with
        | Fin year :: Fin month :: Fin day :: _, Fin hour :: Fin minute :: _ =>
            let utcGuess := Date.UTC year (month - 1) day hour minute 0 0 in
            bind (refineLoop 3 timeZone utcGuess utcGuess) (fun result =>
            Return (Some result))
        | _, _ => Return None
        end
  | _ => Return None
  end.

(** The string that [formatForReminderPrompt] builds from the parts. *)
Definition formatParts (p : ZoneParts) : string :=
  let y := numberToString (year p) in
  let m := padStart 2 "0" (numberToString (month p)) in
  let d := padStart 2 "0" (numberToString (day p)) in
  let h := padStart 2 "0" (numberToString (hour p)) in
  let min := padStart 2 "0" (numberToString (minute p)) in
  y ++ "-" ++ m ++ "-" ++ d ++ " " ++ h ++ ":" ++ min.

Definition formatForReminderPrompt (timezone : string) (timestamp : Z) : outcome string :=
  bind (getZoneParts (Fin timestamp) timezone) (fun p => Return (formatParts p)).

(** [Number.isFinite(timestamp)] on the result of [zonedLocalToUtcMs]. *)
Definition finiteResult (r : option number) : option Z :=
  match r with
  | Some (Fin z) => Some z
  | _ => None
  end.

Definition parseReminderPromptValue (timezone value : string) : outcome Parsed :=
  let trimmed := trim value in
  if isEmpty trimmed then Return (Ok None)
  else
    let normalized := if includes "T" trimmed then trimmed else replace " " "T" trimmed in
    bind (zonedLocalToUtcMs normalized timezone) (fun timestamp =>
    match finiteResult timestamp with
    | None => Return (NotOk MsgBadTimeFormat)
    | Some z => Return (Ok (Some z))
    end).

Definition currentReminderInputToUtc (timezone reminderInput : string) : outcome Parsed :=
  let raw := trim reminderInput in
  if isEmpty raw then Return (Ok None)
  else
    bind (zonedLocalToUtcMs raw timezone) (fun timestamp =>
    match finiteResult timestamp with
    | None => Return (NotOk MsgBadReminderDate)
    | Some z => Return (Ok (Some z))
    end).

(** [addTask]: the two inputs of the page, the two readings of the clock and
    the fresh identifier are arguments. *)
Definition addTask (taskInput reminderInput : string) (now created : Z) (uuid : string)
    (st : State) : outcome (State * list Event) :=
  let text := trim taskInput in
  if isEmpty text then Return (st, [ShowToast MsgEnterText true])
  else
    bind (currentReminderInputToUtc (timezone (settings st)) reminderInput) (fun reminder =>
    match reminder with
    | NotOk message => Return (st, [ShowToast message true])
    | Ok value =>
        if truthy value && before value now
        then Return (st, [ShowToast MsgReminderInPast true])
        else
          let task := {| id := uuid;
                         text := slice0 MAX_TEXT_LENGTH text;
                         done := false;
                         createdAt := created;
                         reminderAt := value;
                         notifiedFor := None |} in
          Return (setTasks (task :: tasks st) st, [SaveTasks; ClearInputs; Render])
    end).

(** [editTask]: the two prompts are functions from the text they propose to
    the answer of the user, [None] when the prompt is cancelled. *)
Definition editTask (taskId : string) (promptText promptReminder : string -> option string)
    (now : Z) (st : State) : outcome (State * list Event) :=
  match find (hasId taskId) (tasks st) with
  | None => Return (st, [])
  | Some task =>
      match promptText (text task) with
      | None => Return (st, [])
      | Some nextText =>
          let trimmedText := trim nextText in
          if isEmpty trimmedText then Return (st, [ShowToast MsgEmptyText true])
          else
            bind (match reminderAt task with
                  | Some r => if truthy (Some r)
                              then formatForReminderPrompt (timezone (settings st)) r
                              else Return ""
                  | None => Return ""
                  end) (fun currentReminder =>
            let commit nextReminder :=
              let assign t := {| id := id t;
                                 text := slice0 MAX_TEXT_LENGTH trimmedText;
                                 done := done t;
                                 createdAt := createdAt t;
                                 reminderAt := nextReminder;
                                 notifiedFor := None |} in
              Return (setTasks (updateFound taskId assign (tasks st)) st, [SaveTasks; Render]) in
            match promptReminder currentReminder with
            | None => commit (reminderAt task)
            | Some rawReminder =>
                bind (parseReminderPromptValue (timezone (settings st)) rawReminder) (fun parsed =>
                match parsed with
                | NotOk message => Return (st, [ShowToast message true])
                | Ok value =>
                    if truthy value && before value now
                    then Return (st, [ShowToast MsgReminderInPast true])
                    else commit value
                end)
            end)
      end
  end.

(** *** The conversion as the specification words it *)

(** The wall-clock components of the instant [t] in a zone with the offsets
    [off]: the calendar fields of the local time [t + off t]. *)
Definition wallClock (off : Z -> Z) (t : Z) : ZoneParts :=
  let local := t + off t in
  {| year := Date.YearFromTime local;
     month := Date.MonthFromTime local + 1;
     day := Date.DateFromTime local;
     hour := Date.HourFromTime local;
     minute := Date.MinFromTime local;
     second := Date.SecFromTime local |}.

(** Components read as a date and a time of UTC: the day number of the date
    and the time of day, in milliseconds.  No year is special and nothing is
    clipped. *)
Definition asUtc (p : ZoneParts) : Z :=
  Date.MakeDate (Date.MakeDay (year p) (month p - 1) (day p))
                (Date.MakeTime (hour p) (minute p) (second p) 0).

(** [offsetMs(zoneId, t)]: the wall-clock components of [t] in the zone
    reinterpreted as UTC, minus [t]. *)
Definition offsetMs (off : Z -> Z) (t : Z) : Z := asUtc (wallClock off t) - t.

(** [naiveUTC(components)] of the specification. *)
Definition naiveUTCSpec (c : Z * Z * Z * Z * Z) : Z :=
  let '(y, m, d, h, mi) := c in
  asUtc {| year := y; month := m; day := d; hour := h; minute := mi; second := 0 |}.

(** [guess = naiveUTC(components)], then exactly three times
    [guess = naiveUTC(components) - offsetMs(zoneId, guess)]. *)
Definition toUtcSpec (off : Z -> Z) (c : Z * Z * Z * Z * Z) : Z :=
  Nat.iter 3 (fun guess => naiveUTCSpec c - offsetMs off guess) (naiveUTCSpec c).

(** The components as the edit prompt prints them, converted to an instant
    and that instant formatted back into parts of the zone. *)
Definition roundTrip (zone : string) (c : Z * Z * Z * Z * Z) : outcome (option ZoneParts) :=
  let '(y, m, d, h, mi) := c in
  let shown := formatParts {| year := y; month := m; day := d;
                              hour := h; minute := mi; second := 0 |} in
  bind (parseReminderPromptValue zone shown) (fun parsed =>
  match parsed with
  | Ok (Some t) => bind (getZoneParts (Fin t) zone) (fun p => Return (Some p))
  | _ => Return None
  end).

(** *** The operations of the application as one step function *)

(** The handlers of one visit of the page, and a load of the settings from
    any stored value; the tasks that [init] loads are in [Session]. *)
Inductive Action : Type :=
| DoLoadSettings (parsed : option value)
| DoAddTask (taskInput reminderInput : string) (now created : Z) (uuid : string)
| DoToggleTask (taskId : string) (d : bool)
| DoDeleteTask (taskId : string)
| DoEditTask (taskId : string) (promptText promptReminder : string -> option string) (now : Z)
| DoClearDone
| DoCheckReminders (now : Z)
| DoNotifyBeforeChange (inputValue : string) (now : Z)
| DoTimezoneChange (selected : string)
| DoNotificationsEnabledChange (checked permissionDefault : bool).

(** An exception leaves the handler before any assignment: the state stays. *)
Definition settle (st : State) (r : outcome (State * list Event)) : State :=
  match r with
  | Return (st', _) => st'
  | Throw _ => st
  end.

Definition perform (a : Action) (st : State) : State :=
  match a with
  | DoLoadSettings parsed => {| tasks := tasks st; settings := loadSettings parsed st |}
  | DoAddTask taskInput reminderInput now created uuid =>
      settle st (addTask taskInput reminderInput now created uuid st)
  | DoToggleTask taskId d => fst (toggleTask taskId d st)
  | DoDeleteTask taskId => fst (deleteTask taskId st)
  | DoEditTask taskId promptText promptReminder now =>
      settle st (editTask taskId promptText promptReminder now st)
  | DoClearDone => fst (clearDone st)
  | DoCheckReminders now => fst (checkReminders now st)
  | DoNotifyBeforeChange inputValue now => fst (onNotifyBeforeChange inputValue now st)
  | DoTimezoneChange selected => fst (onTimezoneChange selected st)
  | DoNotificationsEnabledChange checked permissionDefault =>
      fst (onNotificationsEnabledChange checked permissionDefault st)
  end.

Definition run (actions : list Action) (st : State) : State :=
  fold_left (fun s a => perform a s) actions st.

(** *** The reminder parser of the backend variant (src/unnamed/part_000) *)

(** [parseReminderFromInput] of the variant that talks to the backend: the
    check against the clock is inside the parser and compares every finite
    result. *)
Definition parseReminderFromInput (timezone reminderInput : string) (now : Z)
  : outcome Parsed :=
  let raw := trim reminderInput in
  if isEmpty raw then Return (Ok None)
  else
    bind (zonedLocalToUtcMs raw timezone) (fun ms =>
    match finiteResult ms with
    | None => Return (NotOk MsgBadReminderDate)
    | Some z => if z <? now then Return (NotOk MsgReminderInPast) else Return (Ok (Some z))
    end).

End WithTimeZones.

(** *** A platform with the fixed offsets of the zone labels *)

Definition labelOffsetHours (zone : string) : option Z :=
  if String.eqb zone "Europe/Kaliningrad" then Some 2
  else if String.eqb zone "Europe/Moscow" then Some 3
  else if String.eqb zone "Europe/Samara" then Some 4
  else if String.eqb zone "Asia/Yekaterinburg" then Some 5
  else if String.eqb zone "Asia/Omsk" then Some 6
  else if String.eqb zone "Asia/Krasnoyarsk" then Some 7
  else if String.eqb zone "Asia/Irkutsk" then Some 8
  else if String.eqb zone "Asia/Yakutsk" then Some 9
  else if String.eqb zone "Asia/Vladivostok" then Some 10
  else if String.eqb zone "Asia/Magadan" then Some 11
  else if String.eqb zone "Asia/Kamchatka" then Some 12
  else None.

(** Every zone of [RU_TIMEZONES] at the offset its label states, at every
    instant; no other zone is known. *)
Definition fixedOffsets : TimeZones :=
  {| utcOffset := fun zone =>
       match labelOffsetHours zone with
       | Some h => Some (fun _ => h * Date.msPerHour)
       | None => None
       end |}.


(** A zone that springs forward, to try the refinement on: one hour ahead of
    UTC until 2025-03-30 01:00 UTC, two hours from then on (02:00 on its wall
    clock is followed by 03:00). *)
Definition springChange : Z := 1743296400000.

Definition springOffset (t : Z) : Z :=
  if t <? springChange then Date.msPerHour else 2 * Date.msPerHour.

(** The wall-clock time 01:30 of 2025-03-30, half an hour before the gap of
    that zone. *)
Definition springWall : Z := 1743298200000.

Definition springForward : TimeZones :=
  {| utcOffset := fun zone =>
       if String.eqb zone "Test/Spring" then Some springOffset else None |}.

(** *** Sample data for the examples *)

(** The reminder of 2025-06-01 09:30 Moscow time, 06:30 UTC. *)
Definition juneReminder : Z := 1748759400000.

Definition sampleTask (reminder notified : option Z) : Task :=
  {| id := "7f9c"; text := "call the bank"; done := false; createdAt := 1748000000000;
     reminderAt := reminder; notifiedFor := notified |}.

Definition sampleState (leadMinutes : Z) (l : list Task) : State :=
  {| tasks := l;
     settings := {| timezone := "Europe/Moscow";
                    notificationsEnabled := true;
                    notifyBeforeMinutes := leadMinutes |} |}.

End App.

(** ** The page: escaping and the visible tasks *)

Module Page.
Import Js App.

(** The code unit of the double quote. *)
Definition dquote : ascii := "034".

(** [s.replaceAll(c, r)] for a pattern of one code unit: every occurrence is
    replaced, and the replacement is not searched again. *)
Fixpoint replaceAll (c : ascii) (r : string) (s : string) : string :=
  match s with
  | EmptyString => EmptyString
  | String d rest =>
      if Ascii.eqb d c then r ++ replaceAll c r rest
      else String d (replaceAll c r rest)
  end.

(** [escapeHtml]: five replacements in a row, the ampersand first. *)
Definition escapeHtml (value : string) : string :=
  replaceAll "'" "&#039;"
    (replaceAll dquote "&quot;"
       (replaceAll ">" "&gt;"
          (replaceAll "<" "&lt;"
             (replaceAll "&" "&amp;" value)))).

(** What [escapeHtml] makes of one code unit (lemma [escapeHtml_by_char]). *)
Definition escapeChar (c : ascii) : string :=
  if Ascii.eqb c "&" then "&amp;"
  else if Ascii.eqb c "<" then "&lt;"
  else if Ascii.eqb c ">" then "&gt;"
  else if Ascii.eqb c dquote then "&quot;"
  else if Ascii.eqb c "'" then "&#039;"
  else String c "".

Fixpoint escapeEach (s : string) : string :=
  match s with
  | EmptyString => EmptyString
  | String c rest => escapeChar c ++ escapeEach rest
  end.

(** The code units that [escapeHtml] replaces. *)
Definition isMarkup (c : ascii) : bool :=
  Ascii.eqb c "&" || Ascii.eqb c "<" || Ascii.eqb c ">" || Ascii.eqb c dquote
  || Ascii.eqb c "'".

(** [getVisibleTasks], the filter of the state being an argument. *)
Definition getVisibleTasks (filter : string) (l : list Task) : list Task :=
  if String.eqb filter "active" then List.filter (fun task => negb (done task)) l
  else if String.eqb filter "done" then List.filter (fun task => done task) l
  else l.

(** The two numbers of the statistics line of [render]: the open tasks and
    all the tasks. *)
Definition stats (l : list Task) : nat * nat :=
  (List.length (List.filter (fun task => negb (done task)) l), List.length l).

End Page.

(** ** The stored tasks *)

Module Storage.
Import Js App.

(** A task as [normalizeTask] returns it: [createdAt] is any number that is
    not 0 or NaN. *)
Record StoredTask : Type := {
  sId : string;
  sText : string;
  sDone : bool;
  sCreatedAt : number;
  sReminderAt : option Z;
  sNotifiedFor : option Z
}.

(** A task of the state as a stored task. *)
Definition storedOf (task : Task) : StoredTask :=
  {| sId := id task; sText := text task; sDone := done task;
     sCreatedAt := Fin (createdAt task);
     sReminderAt := reminderAt task; sNotifiedFor := notifiedFor task |}.

(** What [JSON.parse] reads back from the text that [JSON.stringify] writes
    for a task. *)
Definition nullable (v : option Z) : value :=
  match v with
  | Some z => Num z
  | None => Null
  end.

Definition taskValue (task : Task) : value :=
  Obj [ ("id", Str (id task));
        ("text", Str (text task));
        ("done", Bool (done task));
        ("createdAt", Num (createdAt task));
        ("reminderAt", nullable (reminderAt task));
        ("notifiedFor", nullable (notifiedFor task)) ].

(** What [saveTasks] stores, read back. *)
Definition tasksValue (l : list Task) : value := Arr (map taskValue l).

Section WithStringToNumber.

(** The platform's conversion of a string to a number (StringToNumber). *)
Variable stringToNumber : string -> number.

(** [Number(v)]: an array or an object goes through its string. *)
Definition toNumber (v : value) : number :=
  match v with
  | Undefined => NaN
  | Null => Fin 0
  | Bool b => Fin (if b then 1 else 0)
  | Num n => Fin n
  | Str s => stringToNumber s
  | Arr _ | Obj _ => stringToNumber (toString v)
  end.

(** [Number.isFinite(Number(v)) ? Number(v) : null]. *)
Definition finiteOrNull (v : value) : option Z :=
  match toNumber v with
  | Fin z => Some z
  | _ => None
  end.

(** [normalizeTask]; [uuid] and [now] are what [crypto.randomUUID()] and
    [Date.now()] give when they are called. *)
Definition normalizeTask (raw : value) (uuid : string) (now : Z) : option StoredTask :=
  let text :=
    match getProp raw "text" with
    | Str s => slice0 MAX_TEXT_LENGTH (trim s)
    | _ => ""
    end in
  if isEmpty text then None
  else
    Some {| sId := match getProp raw "id" with
                   | Str s => if isEmpty s then uuid else s
                   | _ => uuid
                   end;
            sText := text;
            sDone := toBoolean (getProp raw "done");
            sCreatedAt := match toNumber (getProp raw "createdAt") with
                          | Fin z => if z =? 0 then Fin now else Fin z
                          | NaN => Fin now
                          | Inf s => Inf s
                          end;
            sReminderAt := finiteOrNull (getProp raw "reminderAt");
            sNotifiedFor := finiteOrNull (getProp raw "notifiedFor") |}.

(** [rawTasks.map(normalizeTask).filter(Boolean)], the element at place [i]
    being given the identifier [uuid i] and the clock [clock i]. *)
Fixpoint normalizeFrom (uuid : nat -> string) (clock : nat -> Z) (i : nat)
    (items : list value) : list StoredTask :=
  match items with
  | [] => []
  | raw :: rest =>
      match normalizeTask raw (uuid i) (clock i) with
      | Some task => task :: normalizeFrom uuid clock (S i) rest
      | None => normalizeFrom uuid clock (S i) rest
      end
  end.

(** [loadTasks], reading the stored value [parsed]. *)
Definition loadTasks (parsed : option value) (uuid : nat -> string) (clock : nat -> Z)
  : list StoredTask :=
  match loadJson parsed (Arr []) with
  | Arr items => normalizeFrom uuid clock 0 items
  | _ => []
  end.

End WithStringToNumber.

(** A task of the state after it was saved and loaded again: a [null]
    reminder and a [null] key come back as 0. *)
Definition reloaded (task : Task) : Task :=
  {| id := id task; text := text task; done := done task; createdAt := createdAt task;
     reminderAt := Some (match reminderAt task with Some z => z | None => 0 end);
     notifiedFor := Some (match notifiedFor task with Some z => z | None => 0 end) |}.

(** [normalizeTask] on what [saveTasks] wrote for a task of the state
    (lemma [normalizeTask_saved]): the text is trimmed and cut again, an empty
    identifier and a creation time of 0 are replaced, and a [null] reminder or
    key becomes 0. *)
Definition normalizeSaved (task : Task) (uuid : string) (now : Z) : option Task :=
  let text := slice0 MAX_TEXT_LENGTH (trim (text task)) in
  if isEmpty text then None
  else
    Some {| id := if isEmpty (id task) then uuid else id task;
            text := text;
            done := done task;
            createdAt := if createdAt task =? 0 then now else createdAt task;
            reminderAt := Some (match reminderAt task with Some z => z | None => 0 end);
            notifiedFor := Some (match notifiedFor task with Some z => z | None => 0 end) |}.

(** [loadTasks] on the tasks that [saveTasks] wrote. *)
Fixpoint loadSaved (uuid : nat -> string) (clock : nat -> Z) (i : nat) (l : list Task)
  : list Task :=
  match l with
  | [] => []
  | saved :: rest =>
      match normalizeSaved saved (uuid i) (clock i) with
      | Some task => task :: loadSaved uuid clock (S i) rest
      | None => loadSaved uuid clock (S i) rest
      end
  end.

(** A task that comes back from the storage as it went in, up to [reloaded]:
    its text is trimmed, not empty and of at most [MAX_TEXT_LENGTH] code
    units, its identifier is not empty and its creation time is not 0. *)
Definition storable (task : Task) : bool :=
  String.eqb (trim (text task)) (text task) && negb (isEmpty (text task))
  && (String.length (text task) <=? MAX_TEXT_LENGTH)%nat
  && negb (isEmpty (id task)) && negb (createdAt task =? 0).

(** A task text as the application makes it: not empty, of at most
    [MAX_TEXT_LENGTH] code units, and without white space at its head. *)
Definition textShape (t : string) : Prop :=
  t <> "" /\ (String.length t <= MAX_TEXT_LENGTH)%nat /\ startsNonWs t = true.

Definition textOk (task : Task) : Prop := textShape (text task).

End Storage.

(** ** The variant that talks to the backend (src/unnamed/part_000) *)

Module Backend.
Import Js App.

Record Settings : Type := {
  timezone : string;
  notifyBeforeMinutes : Z;
  chatNotificationsEnabled : bool
}.

(** [a ?? b]. *)
Definition coalesce (a b : value) : value :=
  match a with
  | Undefined | Null => b
  | _ => a
  end.

(** [normalizeSettings]: the keys of the backend first, those of the page
    second. *)
Definition normalizeSettings (raw : value) : Settings :=
  {| timezone := match getProp raw "timezone" with
                 | Str s => if timezoneMap_has s then s else "Europe/Moscow"
                 | _ => "Europe/Moscow"
                 end;
     notifyBeforeMinutes :=
       clampInt (coalesce (getProp raw "notify_before_minutes")
                          (getProp raw "notifyBeforeMinutes")) 0 120 0;
     chatNotificationsEnabled :=
       toBoolean (coalesce (getProp raw "chat_notifications_enabled")
                           (coalesce (getProp raw "chatNotificationsEnabled") (Bool true))) |}.

(** The messages of [parsePromptReminder]: the one for a wrong format is this
    variant's own, the other one is the message of the page. *)
Inductive PromptMessage : Type :=
| MsgBadDateFormat                  (* the date format is wrong *)
| MsgOfPage (message : Message).

Inductive PromptParsed : Type :=
| PromptOk (value : option Z)
| PromptNotOk (message : PromptMessage).

(** What [parsePromptReminder] makes of a result of the parser of the page:
    it has its own message for a wrong format, and compares an instant with
    the clock. *)
Definition checkClock (now : Z) (parsed : Parsed) : outcome PromptParsed :=
  match parsed with
  | Ok None => Return (PromptOk None)
  | Ok (Some z) =>
      if z <? now then Return (PromptNotOk (MsgOfPage MsgReminderInPast))
      else Return (PromptOk (Some z))
  | NotOk _ => Return (PromptNotOk MsgBadDateFormat)
  end.

Section WithTimeZones.
Context {tz : TimeZones}.

(** [parsePromptReminder]: the parser of the edit prompt, with the check
    against the clock inside. *)
Definition parsePromptReminder (timezone text : string) (now : Z) : outcome PromptParsed :=
  let trimmed := trim text in
  if isEmpty trimmed then Return (PromptOk None)
  else
    let normalized := if includes "T" trimmed then trimmed else replace " " "T" trimmed in
    bind (zonedLocalToUtcMs normalized timezone) (fun ms =>
    match finiteResult ms with
    | None => Return (PromptNotOk MsgBadDateFormat)
    | Some z =>
        if z <? now then Return (PromptNotOk (MsgOfPage MsgReminderInPast))
        else Return (PromptOk (Some z))
    end).

End WithTimeZones.

End Backend.

(** ** The page over several visits *)

Module Session.
Import Js App.

(** What [localStorage] holds under the two keys of the user, when only the
    application wrote there: the tasks and the settings it saved last, [None]
    as long as it saved none. *)
Record Store : Type := {
  savedTasks : option (list Task);
  savedSettings : option Settings
}.

Record World : Type := { state : State; store : Store }.

Definition isSaveTasks (e : Event) : bool :=
  match e with SaveTasks => true | _ => false end.

Definition isSaveSettings (e : Event) : bool :=
  match e with SaveSettings => true | _ => false end.

(** The storage after a handler with the effects [events] left the state
    [st]: every handler calls [saveTasks] after its last assignment to the
    tasks, and [saveSettings] after its last assignment to the settings. *)
Definition saveAll (events : list Event) (st : State) (s : Store) : Store :=
  {| savedTasks := if existsb isSaveTasks events then Some (tasks st) else savedTasks s;
     savedSettings :=
       if existsb isSaveSettings events then Some (settings st) else savedSettings s |}.

(** [init] on a page that was opened again: the settings and the tasks are
    read from the storage, the page is drawn and the reminders are checked. *)
Definition reopen (uuid : nat -> string) (clock : nat -> Z) (now : Z) (s : Store)
  : State * list Event :=
  let st0 :=
    {| tasks := match savedTasks s with
                | Some l => Storage.loadSaved uuid clock 0 l
                | None => []
                end;
       settings := loadSettings (option_map settingsValue (savedSettings s)) initialState |} in
  let '(st1, events) := checkReminders now st0 in
  (st1, Render :: UpdateClock :: events).

Inductive Step : Type :=
| Act (a : Action)
| Reopen (uuid : nat -> string) (clock : nat -> Z) (now : Z).

(** The first visit: the initial state and nothing stored. *)
Definition start : World :=
  {| state := initialState; store := {| savedTasks := None; savedSettings := None |} |}.

Section WithTimeZones.
Context {tz : TimeZones}.

(** An operation with its effects; an exception leaves the handler before
    any assignment and any effect. *)
Definition handle (a : Action) (st : State) : State * list Event :=
  match a with
  | DoLoadSettings parsed => (perform a st, [])
  | DoAddTask taskInput reminderInput now created uuid =>
      match addTask taskInput reminderInput now created uuid st with
      | Return r => r
      | Throw _ => (st, [])
      end
  | DoToggleTask taskId d => toggleTask taskId d st
  | DoDeleteTask taskId => deleteTask taskId st
  | DoEditTask taskId promptText promptReminder now =>
      match editTask taskId promptText promptReminder now st with
      | Return r => r
      | Throw _ => (st, [])
      end
  | DoClearDone => clearDone st
  | DoCheckReminders now => checkReminders now st
  | DoNotifyBeforeChange inputValue now => onNotifyBeforeChange inputValue now st
  | DoTimezoneChange selected => onTimezoneChange selected st
  | DoNotificationsEnabledChange checked permissionDefault =>
      onNotificationsEnabledChange checked permissionDefault st
  end.

Definition step (x : Step) (w : World) : World :=
  let '(st, events) :=
    match x with
    | Act a => handle a (state w)
    | Reopen uuid clock now => reopen uuid clock now (store w)
    end in
  {| state := st; store := saveAll events st (store w) |}.

Definition run (steps : list Step) (w : World) : World :=
  fold_left (fun v x => step x v) steps w.

End WithTimeZones.

(** The invariant of the visits: every key of the state and of the stored
    tasks is [null], 0 or a trigger instant, and the lead time is 0..120. *)
Definition keysInOrder (w : World) : Prop :=
  Forall keyOrZero (tasks (state w)) /\
  0 <= notifyBeforeMinutes (settings (state w)) <= 120 /\
  match savedTasks (store w) with
  | Some l => Forall keyOrZero l
  | None => True
  end.

End Session.

(** ** The conversions that can throw a TypeError *)

Module Strict.
Import Js App.

(** An object has a property of its own under the key. *)
Definition hasOwn (key : string) (fields : list (string * value)) : bool :=
  existsb (fun field => String.eqb (fst field) key) fields.

(** [String(v)] with its exception.  An object is converted through its
    [toString] method; one read from JSON that has a property [toString] of
    its own has no function there, and the inherited [valueOf] returns the
    object itself: a TypeError.  An array joins the strings of its
    elements. *)
Fixpoint ToString (v : value) : outcome string :=
  match v with
  | Arr items =>
      bind ((fix pieces (l : list value) : outcome (list string) :=
               match l with
               | [] => Return []
               | item :: rest =>
                   bind (match item with
                         | Undefined | Null => Return ""
                         | _ => ToString item
                         end) (fun piece =>
                   bind (pieces rest) (fun others => Return (piece :: others)))
               end) items) (fun strings => Return (joinWith "," strings))
  | Obj fields => if hasOwn "toString" fields then Throw TypeError
                  else Return "[object Object]"
  | _ => Return (toString v)
  end.

(** [clampInt]. *)
Definition clampInt (v : value) (min max fallback : Z) : outcome Z :=
  bind (ToString v) (fun text =>
  match parseInt text with
  | Fin num =>
      if num <? min then Return min
      else if max <? num then Return max
      else Return num
  | _ => Return fallback
  end).

(** [loadSettings], reading the stored value [parsed]. *)
Definition loadSettings (parsed : option value) (st : State) : outcome Settings :=
  let raw := loadJson parsed (settingsValue (settings st)) in
  let timezone :=
    match getProp raw "timezone" with
    | Str s => if timezoneMap_has s then s else "Europe/Moscow"
    | _ => "Europe/Moscow"
    end in
  bind (clampInt (getProp raw "notifyBeforeMinutes") 0 120 0) (fun notifyBeforeMinutes =>
  Return {| timezone := timezone;
            notificationsEnabled := toBoolean (getProp raw "notificationsEnabled");
            notifyBeforeMinutes := notifyBeforeMinutes |}).

End Strict.

(** * Facts about the platform functions *)

Module JsFacts.
Import Js.

Lemma append_nil_r (s : string) : s ++ "" = s.
Proof. induction s; simpl; congruence. Qed.

Lemma append_assoc (a b c : string) : (a ++ b) ++ c = a ++ (b ++ c).
Proof. induction a; simpl; congruence. Qed.

(** **** Digits *)

Lemma digit_cases (d : Z) :
  0 <= d <= 9 ->
  d = 0 \/ d = 1 \/ d = 2 \/ d = 3 \/ d = 4 \/ d = 5 \/ d = 6 \/ d = 7 \/ d = 8 \/ d = 9.
Proof. lia. Qed.

Ltac each_digit d H :=
  destruct (digit_cases d H) as [->|[->|[->|[->|[->|[->|[->|[->|[->| ->]]]]]]]]].

Lemma digitValue_digitChar (d : Z) : 0 <= d <= 9 -> digitValue (digitChar d) = Some d.
Proof. intros H. each_digit d H; reflexivity. Qed.

Lemma isDigit_digitChar (d : Z) : 0 <= d <= 9 -> isDigit (digitChar d) = true.
Proof. intros H. unfold isDigit. now rewrite digitValue_digitChar. Qed.

Lemma isDigit_not_ws (c : ascii) : isDigit c = true -> isWhiteSpace c = false.
Proof.
  unfold isDigit, digitValue, isWhiteSpace.
  destruct (48 <=? nat_of_ascii c)%nat eqn:E1; [|discriminate].
  destruct (nat_of_ascii c <=? 57)%nat eqn:E2; [|discriminate].
  intros _. apply Nat.leb_le in E1, E2.
  destruct (nat_of_ascii c <=? 13)%nat eqn:E3; [apply Nat.leb_le in E3; lia|].
  destruct (nat_of_ascii c =? 32)%nat eqn:E4; [apply Nat.eqb_eq in E4; lia|].
  destruct (nat_of_ascii c =? 160)%nat eqn:E5; [apply Nat.eqb_eq in E5; lia|].
  now rewrite andb_false_r.
Qed.

Lemma digitsPrefix_fromDigits (ds : list Z) (rest : string) :
  digitList ds -> noLeadingDigit rest = true ->
  digitsPrefix (fromDigits ds ++ rest) = ds.
Proof.
  intros Hds Hrest. induction Hds as [|d ds Hd _ IH]; simpl.
  - destruct rest as [|c r]; [reflexivity|]. simpl in Hrest. unfold isDigit in Hrest.
    simpl. destruct (digitValue c); [discriminate|reflexivity].
  - rewrite digitValue_digitChar by assumption. now rewrite IH.
Qed.

Lemma includes_fromDigits (c : ascii) (ds : list Z) :
  digitList ds -> isDigit c = false -> includes c (fromDigits ds) = false.
Proof.
  intros Hds Hc. induction Hds as [|d ds Hd _ IH]; simpl; [reflexivity|].
  rewrite IH, orb_false_r. destruct (Ascii.eqb_spec (digitChar d) c) as [<-|]; [|reflexivity].
  now rewrite isDigit_digitChar in Hc.
Qed.

Lemma digitsAux_digitList (fuel : nat) : forall (n : Z) (l : list Z),
  digitList l -> digitList (digitsAux fuel n l).
Proof.
  induction fuel as [|k IH]; intros n l Hl; simpl; [assumption|].
  assert (Hd : 0 <= n mod 10 <= 9) by (pose proof (Z.mod_pos_bound n 10); lia).
  destruct (n <? 10); [|apply IH]; constructor; assumption.
Qed.

Lemma digitsAux_cons_nonempty (fuel : nat) : forall (n x : Z) (l : list Z),
  digitsAux fuel n (x :: l) <> [].
Proof.
  induction fuel as [|k IH]; intros n x l; simpl; [discriminate|].
  destruct (n <? 10); [discriminate|apply IH].
Qed.

Lemma digitsAux_value (fuel : nat) : forall (n : Z) (l : list Z),
  0 <= n < 10 ^ Z.of_nat fuel ->
  fold_left (fun acc d => 10 * acc + d) (digitsAux fuel n l) 0 =
  fold_left (fun acc d => 10 * acc + d) l n.
Proof.
  induction fuel as [|k IH]; intros n l Hn.
  - simpl in Hn. assert (n = 0) by lia. subst n. reflexivity.
  - cbn [digitsAux]. destruct (Z.ltb_spec n 10) as [Hlt|Hge].
    + cbn [fold_left]. f_equal. rewrite Z.mod_small by lia. lia.
    + rewrite IH.
      * cbn [fold_left]. f_equal. pose proof (Z.div_mod n 10). lia.
      * rewrite Nat2Z.inj_succ, Z.pow_succ_r in Hn by lia.
        split; [apply Z.div_pos; lia|apply Z.div_lt_upper_bound; lia].
Qed.

Lemma decimalAux_fromDigits (fuel : nat) : forall (n : Z) (l : list Z) (acc : string),
  decimalAux fuel n (fromDigits l ++ acc) = fromDigits (digitsAux fuel n l) ++ acc.
Proof.
  induction fuel as [|k IH]; intros n l acc; simpl; [reflexivity|].
  destruct (n <? 10); [reflexivity|].
  apply (IH (n / 10) (n mod 10 :: l) acc).
Qed.

Lemma decimal_fromDigits (n : Z) : decimal n = fromDigits (digitsOf n).
Proof.
  unfold decimal, digitsOf.
  rewrite <- (append_nil_r (fromDigits _)).
  now rewrite <- decimalAux_fromDigits.
Qed.

Lemma digitsOf_digitList (n : Z) : digitList (digitsOf n).
Proof. apply digitsAux_digitList. constructor. Qed.

Lemma digitsOf_nonempty (n : Z) : digitsOf n <> [].
Proof.
  unfold digitsOf. cbn [digitsAux].
  destruct (n <? 10); [discriminate|apply digitsAux_cons_nonempty].
Qed.

Lemma log2_fuel (n : Z) : 0 <= n -> n < 10 ^ Z.of_nat (S (Z.to_nat (Z.log2 n))).
Proof.
  intros Hn. rewrite Nat2Z.inj_succ, Z2Nat.id by apply Z.log2_nonneg.
  destruct (Z.eq_dec n 0) as [->|Hne]; [reflexivity|].
  pose proof (Z.log2_spec n ltac:(lia)) as [_ Hup].
  eapply Z.lt_le_trans; [exact Hup|].
  apply Z.pow_le_mono_l. lia.
Qed.

Lemma mathInt_digitsOf (n : Z) : 0 <= n -> mathInt (digitsOf n) = n.
Proof.
  intros Hn. unfold mathInt, digitsOf.
  rewrite digitsAux_value; [reflexivity|].
  split; [assumption|now apply log2_fuel].
Qed.

(** **** [parseInt] on digit strings *)

Lemma parseInt_digit_head (c : ascii) (s : string) :
  isDigit c = true ->
  parseInt (String c s) =
  match digitsPrefix (String c s) with
  | [] => NaN
  | ds => ofInteger (mathInt ds)
  end.
Proof.
  intros Hc. unfold parseInt. cbn [trimStart]. rewrite (isDigit_not_ws c Hc).
  destruct c as [[] [] [] [] [] [] [] []]; try discriminate Hc; reflexivity.
Qed.

Lemma parseInt_fromDigits (ds : list Z) (rest : string) :
  digitList ds -> ds <> [] -> noLeadingDigit rest = true ->
  parseInt (fromDigits ds ++ rest) = ofInteger (mathInt ds).
Proof.
  intros Hds Hne Hrest.
  pose proof (digitsPrefix_fromDigits ds rest Hds Hrest) as Hp.
  destruct ds as [|d ds']; [congruence|].
  cbn [fromDigits append] in *.
  rewrite parseInt_digit_head by (apply isDigit_digitChar; now inversion Hds).
  now rewrite Hp.
Qed.

Lemma ofInteger_small (z : Z) : Z.abs z < 10 ^ 21 -> ofInteger z = Fin z.
Proof.
  intros Hz. unfold ofInteger.
  destruct (Z.ltb_spec (Z.abs z) (2 ^ 1024 - 2 ^ 970)) as [|Hge]; [reflexivity|].
  exfalso. assert (10 ^ 21 < 2 ^ 1024 - 2 ^ 970) by (vm_compute; reflexivity). lia.
Qed.

Lemma parseInt_decimal (n : Z) (rest : string) :
  0 <= n -> noLeadingDigit rest = true ->
  parseInt (decimal n ++ rest) = ofInteger n.
Proof.
  intros Hn Hrest. rewrite decimal_fromDigits.
  rewrite parseInt_fromDigits by auto using digitsOf_digitList, digitsOf_nonempty.
  now rewrite mathInt_digitsOf.
Qed.

Lemma parseInt_minus (s : string) :
  parseInt (String "-" s) =
  match digitsPrefix s with
  | [] => NaN
  | ds => ofInteger (- mathInt ds)
  end.
Proof. reflexivity. Qed.

(** [parseInt] reads back what [String] printed, for integers printed in
    plain digits. *)
Lemma parseInt_numberToString (n : Z) :
  Z.abs n < 10 ^ 21 -> parseInt (numberToString n) = Fin n.
Proof.
  intros Hn. unfold numberToString.
  destruct (Z.ltb_spec (Z.abs n) (10 ^ 21)) as [_|]; [|lia].
  destruct (Z.ltb_spec n 0) as [Hneg|Hpos].
  - change ("-" ++ decimal (Z.abs n)) with (String "-" (decimal (Z.abs n))).
    rewrite parseInt_minus, decimal_fromDigits.
    pose proof (digitsPrefix_fromDigits (digitsOf (Z.abs n)) "" (digitsOf_digitList _) eq_refl) as Hp.
    rewrite append_nil_r in Hp. rewrite Hp.
    pose proof (digitsOf_nonempty (Z.abs n)).
    destruct (digitsOf (Z.abs n)) as [|d ds] eqn:E; [congruence|].
    rewrite <- E, mathInt_digitsOf by lia.
    rewrite ofInteger_small by lia. f_equal. lia.
  - cbn [append]. rewrite <- (append_nil_r (decimal _)).
    rewrite parseInt_decimal by (auto; lia).
    rewrite Z.abs_eq by lia. apply ofInteger_small. lia.
Qed.

(** **** [split], [includes], [replace] and [trim] *)

Lemma includes_append (c : ascii) (a b : string) :
  includes c (a ++ b) = includes c a || includes c b.
Proof. induction a as [|d a IH]; simpl; [reflexivity|]. now rewrite IH, orb_assoc. Qed.

Lemma split_no_sep (sep : ascii) (a : string) :
  includes sep a = false -> split sep a = [a].
Proof.
  induction a as [|c a IH]; simpl; [reflexivity|].
  intros H. apply orb_false_iff in H as [Hc Ha].
  rewrite Hc, (IH Ha). reflexivity.
Qed.

Lemma split_at_sep (sep : ascii) (a b : string) :
  includes sep a = false -> split sep (a ++ String sep b) = a :: split sep b.
Proof.
  induction a as [|c a IH]; simpl.
  - intros _. now rewrite Ascii.eqb_refl.
  - intros H. apply orb_false_iff in H as [Hc Ha].
    rewrite Hc, (IH Ha). reflexivity.
Qed.

Lemma replace_at_first (x y : ascii) (a b : string) :
  includes x a = false -> replace x y (a ++ String x b) = a ++ String y b.
Proof.
  induction a as [|c a IH]; simpl.
  - intros _. now rewrite Ascii.eqb_refl.
  - intros H. apply orb_false_iff in H as [Hc Ha].
    rewrite Hc, (IH Ha). reflexivity.
Qed.

Lemma rev_string_twice (s : string) : forall acc acc' : string,
  rev_string (rev_string s acc) acc' = rev_string acc (s ++ acc').
Proof.
  induction s as [|c s IH]; intros acc acc'; simpl; [reflexivity|].
  now rewrite IH.
Qed.

Lemma rev_string_head (s : string) : forall acc : string,
  s <> "" -> endsNonWs s = true ->
  startsNonWs (rev_string s acc) = true /\ rev_string s acc <> "".
Proof.
  induction s as [|c s IH]; intros acc Hne Hend; [congruence|].
  destruct s as [|c' s'].
  - simpl in *. split; [assumption|discriminate].
  - change (rev_string (String c (String c' s')) acc)
      with (rev_string (String c' s') (String c acc)).
    apply IH; [discriminate|exact Hend].
Qed.

Lemma trimStart_id (s : string) : startsNonWs s = true -> trimStart s = s.
Proof.
  destruct s as [|c s]; simpl; [reflexivity|].
  intros H. apply negb_true_iff in H. now rewrite H.
Qed.

Lemma trim_id (s : string) :
  startsNonWs s = true -> endsNonWs s = true -> trim s = s.
Proof.
  intros Hs He. unfold trim, trimEnd. rewrite (trimStart_id s Hs).
  destruct s as [|c s]; [reflexivity|].
  destruct (rev_string_head (String c s) "" ltac:(discriminate) He) as [Hh _].
  rewrite (trimStart_id _ Hh), rev_string_twice. simpl. now rewrite append_nil_r.
Qed.

Lemma endsNonWs_append (a b : string) :
  b <> "" -> endsNonWs (a ++ b) = endsNonWs b.
Proof.
  intros Hb. induction a as [|c a IH]; simpl; [reflexivity|].
  destruct (a ++ b) as [|c' r] eqn:E; [|exact IH].
  destruct a; simpl in E; [congruence|discriminate].
Qed.

(** **** Two-digit fields *)

(** A check of a decidable property on every integer of [lo, lo + len). *)
Lemma range_check (P : Z -> bool) (lo : Z) (len : nat) :
  forallb P (map (fun i => lo + Z.of_nat i) (seq 0 len)) = true ->
  forall n, lo <= n < lo + Z.of_nat len -> P n = true.
Proof.
  intros Hall n Hn. rewrite forallb_forall in Hall. apply Hall.
  apply in_map_iff. exists (Z.to_nat (n - lo)). split; [lia|].
  apply in_seq. lia.
Qed.

Lemma padStart_two_digits (n : Z) :
  0 <= n < 100 ->
  padStart 2 "0" (numberToString n) = fromDigits [n / 10; n mod 10].
Proof.
  intros Hn.
  apply String.eqb_eq.
  apply (range_check
           (fun k => String.eqb (padStart 2 "0" (numberToString k))
                                (fromDigits [k / 10; k mod 10])) 0 100);
    [vm_compute; reflexivity|lia].
Qed.

Lemma numberToString_decimal (n : Z) :
  0 <= n < 10 ^ 21 -> numberToString n = decimal n.
Proof.
  intros Hn. unfold numberToString.
  destruct (Z.ltb_spec n 0); [lia|].
  rewrite Z.abs_eq by lia.
  destruct (Z.ltb_spec n (10 ^ 21)); [reflexivity|lia].
Qed.

End JsFacts.

(** * Facts about time values *)

Module DateFacts.
Import Js Date.

Lemma DayFromYear_step (y : Z) : DayFromYear (y + 1) = DayFromYear y + DaysInYear y.
Proof.
  unfold DayFromYear, DaysInYear, isLeapYear.
  repeat match goal with |- context [?a =? ?b] => destruct (Z.eqb_spec a b) end;
    cbn [negb]; Z.div_mod_to_equations; lia.
Qed.

Lemma DayFromYear_grows (y y' : Z) :
  y <= y' -> DayFromYear y + 365 * (y' - y) <= DayFromYear y'.
Proof. intros H. unfold DayFromYear. Z.div_mod_to_equations. lia. Qed.

Lemma DaysInYear_cases (y : Z) : DaysInYear y = 365 \/ DaysInYear y = 366.
Proof. unfold DaysInYear. destruct (isLeapYear y); auto. Qed.

(** [YearFromDay d] is the year whose days include [d]. *)
Lemma YearFromDay_spec (d : Z) :
  DayFromYear (YearFromDay d) <= d < DayFromYear (YearFromDay d + 1).
Proof.
  unfold YearFromDay.
  set (y0 := 1970 + 400 * d / 146097).
  assert (H1 : DayFromYear (y0 - 1) <= d)
    by (subst y0; unfold DayFromYear; Z.div_mod_to_equations; lia).
  assert (H2 : d < DayFromYear (y0 + 2))
    by (subst y0; unfold DayFromYear; Z.div_mod_to_equations; lia).
  destruct (Z.leb_spec (DayFromYear (y0 + 1)) d).
  - replace (y0 + 1 + 1) with (y0 + 2) by lia. lia.
  - destruct (Z.leb_spec (DayFromYear y0) d).
    + lia.
    + replace (y0 - 1 + 1) with y0 by lia. lia.
Qed.

Lemma YearFromDay_unique (d y : Z) :
  DayFromYear y <= d < DayFromYear (y + 1) -> YearFromDay d = y.
Proof.
  intros Hy. pose proof (YearFromDay_spec d) as Hs.
  destruct (Z.lt_trichotomy (YearFromDay d) y) as [Hlt|[Heq|Hgt]]; [exfalso|assumption|exfalso].
  - pose proof (DayFromYear_grows (YearFromDay d + 1) y ltac:(lia)). lia.
  - pose proof (DayFromYear_grows (y + 1) (YearFromDay d) ltac:(lia)). lia.
Qed.

Lemma YearFromDay_mono (d d' : Z) : d <= d' -> YearFromDay d <= YearFromDay d'.
Proof.
  intros H. pose proof (YearFromDay_spec d). pose proof (YearFromDay_spec d').
  destruct (Z.le_gt_cases (YearFromDay d) (YearFromDay d')) as [|Hgt]; [assumption|exfalso].
  pose proof (DayFromYear_grows (YearFromDay d' + 1) (YearFromDay d) ltac:(lia)). lia.
Qed.

Lemma month_cases (m : Z) :
  0 <= m <= 11 ->
  m = 0 \/ m = 1 \/ m = 2 \/ m = 3 \/ m = 4 \/ m = 5 \/ m = 6 \/ m = 7 \/ m = 8 \/
  m = 9 \/ m = 10 \/ m = 11.
Proof. lia. Qed.

Ltac each_month m H :=
  destruct (month_cases m H) as [->|[->|[->|[->|[->|[->|[->|[->|[->|[->|[->| ->]]]]]]]]]]].

Ltac eval_monthStart :=
  repeat match goal with
         | |- context [monthStart ?b ?c] =>
             let v := eval vm_compute in (monthStart b c) in
             change (monthStart b c) with v
         | H : context [monthStart ?b ?c] |- _ =>
             let v := eval vm_compute in (monthStart b c) in
             change (monthStart b c) with v in H
         end.

Ltac month_chain :=
  repeat match goal with
         | |- context [if ?a <? ?b then _ else _] => destruct (Z.ltb_spec a b); [lia|]
         end; lia.

Lemma monthOfDay_range (leap : bool) (d : Z) : 0 <= monthOfDay leap d <= 11.
Proof. unfold monthOfDay. month_chain. Qed.

Lemma monthOfDay_in_month (leap : bool) (m k : Z) :
  0 <= m <= 11 -> 0 <= k < DaysInMonth leap m ->
  monthOfDay leap (monthStart leap m + k) = m.
Proof.
  intros Hm Hk. unfold DaysInMonth in Hk.
  each_month m Hm; destruct leap; unfold monthOfDay;
    change (0 + 1) with 1 in Hk; change (1 + 1) with 2 in Hk; change (2 + 1) with 3 in Hk;
    change (3 + 1) with 4 in Hk; change (4 + 1) with 5 in Hk; change (5 + 1) with 6 in Hk;
    change (6 + 1) with 7 in Hk; change (7 + 1) with 8 in Hk; change (8 + 1) with 9 in Hk;
    change (9 + 1) with 10 in Hk; change (10 + 1) with 11 in Hk;
    change (11 + 1) with 12 in Hk;
    eval_monthStart; month_chain.
Qed.

Lemma monthStart_bound (leap : bool) (m : Z) :
  0 <= m <= 11 ->
  0 <= monthStart leap m /\
  monthStart leap m + DaysInMonth leap m <= (if leap then 366 else 365) /\
  0 < DaysInMonth leap m.
Proof. intros Hm. each_month m Hm; destruct leap; vm_compute; intuition congruence. Qed.

Lemma MakeDay_in_range (y m d : Z) :
  0 <= m <= 11 -> MakeDay y m d = DayFromYear y + monthStart (isLeapYear y) m + d - 1.
Proof.
  intros Hm. unfold MakeDay.
  rewrite Z.div_small, Z.mod_small by lia. now rewrite Z.add_0_r.
Qed.

Lemma MakeTime_bound (h mi s ms : Z) :
  0 <= h < 24 -> 0 <= mi < 60 -> 0 <= s < 60 -> 0 <= ms < 1000 ->
  0 <= MakeTime h mi s ms < msPerDay.
Proof. unfold MakeTime, msPerHour, msPerMinute, msPerSecond, msPerDay. lia. Qed.

Lemma Day_MakeDate (day time : Z) :
  0 <= time < msPerDay -> Day (MakeDate day time) = day.
Proof.
  intros H. unfold Day, MakeDate, msPerDay in *.
  symmetry. apply (Z.div_unique _ _ day time); lia.
Qed.

(** The fields of the time value made of a calendar date and a time of day
    are that date and that time. *)
Lemma fields_of_MakeDate (y m d h mi s ms : Z) :
  0 <= m <= 11 -> 1 <= d <= DaysInMonth (isLeapYear y) m ->
  0 <= h < 24 -> 0 <= mi < 60 -> 0 <= s < 60 -> 0 <= ms < 1000 ->
  let t := MakeDate (MakeDay y m d) (MakeTime h mi s ms) in
  YearFromTime t = y /\ MonthFromTime t = m /\ DateFromTime t = d /\
  HourFromTime t = h /\ MinFromTime t = mi /\ SecFromTime t = s.
Proof.
  intros Hm Hd Hh Hmi Hs Hms t.
  pose proof (MakeTime_bound h mi s ms Hh Hmi Hs Hms) as Htime.
  pose proof (monthStart_bound (isLeapYear y) m Hm) as (Hs0 & Hs1 & _).
  assert (Hday : Day t = DayFromYear y + monthStart (isLeapYear y) m + d - 1).
  { subst t. rewrite Day_MakeDate by assumption. now apply MakeDay_in_range. }
  assert (Hyear : YearFromTime t = y).
  { unfold YearFromTime. apply YearFromDay_unique. rewrite Hday, DayFromYear_step.
    unfold DaysInYear. destruct (isLeapYear y); lia. }
  assert (Hwithin : DayWithinYear t = monthStart (isLeapYear y) m + (d - 1)).
  { unfold DayWithinYear. rewrite Hyear, Hday. lia. }
  assert (Hmonth : MonthFromTime t = m).
  { unfold MonthFromTime. rewrite Hyear, Hwithin. apply monthOfDay_in_month; lia. }
  repeat split; try assumption.
  - unfold DateFromTime. rewrite Hmonth, Hyear, Hwithin. lia.
  - subst t. unfold HourFromTime, MakeDate, MakeTime, msPerDay, msPerHour, msPerMinute,
      msPerSecond in *. generalize (MakeDay y m d). intros D.
    Z.div_mod_to_equations. lia.
  - subst t. unfold MinFromTime, MakeDate, MakeTime, msPerDay, msPerHour, msPerMinute,
      msPerSecond in *. generalize (MakeDay y m d). intros D.
    Z.div_mod_to_equations. lia.
  - subst t. unfold SecFromTime, MakeDate, MakeTime, msPerDay, msPerHour, msPerMinute,
      msPerSecond in *. generalize (MakeDay y m d). intros D.
    Z.div_mod_to_equations. lia.
Qed.

(** The time value made of the fields of [t] is [t] without its
    milliseconds. *)
Lemma MakeDate_of_fields (t : Z) :
  MakeDate (MakeDay (YearFromTime t) (MonthFromTime t) (DateFromTime t))
           (MakeTime (HourFromTime t) (MinFromTime t) (SecFromTime t) 0)
  = t - t mod 1000.
Proof.
  rewrite MakeDay_in_range by apply monthOfDay_range.
  unfold DateFromTime, DayWithinYear, MonthFromTime.
  set (y := YearFromTime t). set (ms := monthStart _ _).
  replace (DayFromYear y + ms + (Day t - DayFromYear y - ms + 1) - 1) with (Day t) by lia.
  unfold MakeDate, MakeTime, HourFromTime, MinFromTime, SecFromTime, Day,
    msPerDay, msPerHour, msPerMinute, msPerSecond.
  Z.div_mod_to_equations. lia.
Qed.

End DateFacts.

(** * The reminder engine *)

Module AppFacts.
Import Js App.

(** ** The reminder check *)

Lemma checkLoop_tasks (now leadMs : Z) (l : list Task) :
  fst (fst (checkLoop now leadMs l)) = map (fun t => fst (checkTask now leadMs t)) l.
Proof.
  induction l as [|task rest IH]; [reflexivity|].
  cbn [checkLoop map]. destruct (checkTask now leadMs task) as [task' fired].
  destruct (checkLoop now leadMs rest) as [[rest' events] changed].
  cbn [fst snd] in *. destruct fired; cbn [fst]; now rewrite IH.
Qed.

Lemma checkLoop_events (now leadMs : Z) (l : list Task) :
  snd (fst (checkLoop now leadMs l)) =
  map EmitReminder (filter (fun t => snd (checkTask now leadMs t)) l).
Proof.
  induction l as [|task rest IH]; [reflexivity|].
  cbn [checkLoop filter]. destruct (checkTask now leadMs task) as [task' fired].
  destruct (checkLoop now leadMs rest) as [[rest' events] changed].
  cbn [fst snd] in *. destruct fired; cbn [fst snd map]; now rewrite IH.
Qed.

Lemma checkTask_fires (now leadMinutes : Z) (task : Task) :
  snd (checkTask now (leadMinutes * 60000) task) = true <-> shouldFire task now leadMinutes.
Proof.
  unfold checkTask, shouldFire, computeTrigger, truthy.
  destruct (done task) eqn:Hd; cbn [orb].
  { split; [discriminate|]. intros (r & _ & _ & H & _). discriminate. }
  destruct (reminderAt task) as [r|] eqn:Hr.
  2:{ cbn. split; [discriminate|]. intros (r & H & _). discriminate. }
  destruct (Z.eqb_spec r 0) as [->|Hr0]; cbn [negb].
  { cbn. split; [discriminate|]. intros (r & H & H0 & _). congruence. }
  destruct (Z.ltb_spec now (r - leadMinutes * 60000)) as [Hlt|Hge].
  { cbn. split; [discriminate|]. intros (r' & H & _ & _ & H1 & _).
    assert (r' = r) by congruence. subst r'. lia. }
  destruct (notifiedFor task) as [n|] eqn:Hn.
  - destruct (Z.eqb_spec n (r - leadMinutes * 60000)) as [->|Hne]; cbn.
    + split; [discriminate|]. intros (r' & H & _ & _ & _ & H1).
      assert (r' = r) by congruence. subst r'. congruence.
    + split; [|reflexivity]. intros _. exists r. repeat split; auto. congruence.
  - cbn. split; [|reflexivity]. intros _. exists r. repeat split; auto. discriminate.
Qed.

Lemma checkTask_quiet (now leadMs : Z) (task : Task) :
  snd (checkTask now leadMs task) = false -> fst (checkTask now leadMs task) = task.
Proof.
  unfold checkTask.
  destruct (done task || negb (truthy (reminderAt task))); [reflexivity|].
  destruct (reminderAt task) as [r|]; [|reflexivity].
  destruct (now <? r - leadMs); [reflexivity|].
  destruct (match notifiedFor task with Some n => n =? r - leadMs | None => false end);
    [reflexivity|discriminate].
Qed.

Lemma checkTask_fired (now leadMs : Z) (task : Task) :
  snd (checkTask now leadMs task) = true ->
  exists r, reminderAt task = Some r /\
            fst (checkTask now leadMs task) = setNotifiedFor (Some (r - leadMs)) task.
Proof.
  unfold checkTask.
  destruct (done task || negb (truthy (reminderAt task))); [discriminate|].
  destruct (reminderAt task) as [r|]; [|discriminate].
  destruct (now <? r - leadMs); [discriminate|].
  destruct (match notifiedFor task with Some n => n =? r - leadMs | None => false end);
    [discriminate|].
  intros _. exists r. split; reflexivity.
Qed.

(** What one pass does, task by task. *)
Lemma checkReminders_enabled (now : Z) (st : State) :
  notificationsEnabled (settings st) = true ->
  let leadMs := notifyBeforeMinutes (settings st) * 60000 in
  tasks (fst (checkReminders now st)) = map (fun t => fst (checkTask now leadMs t)) (tasks st) /\
  settings (fst (checkReminders now st)) = settings st /\
  forall task, In (EmitReminder task) (snd (checkReminders now st)) <->
               In task (tasks st) /\ snd (checkTask now leadMs task) = true.
Proof.
  intros Hen leadMs. unfold checkReminders. rewrite Hen. cbn [negb].
  fold leadMs.
  pose proof (checkLoop_tasks now leadMs (tasks st)) as Ht.
  pose proof (checkLoop_events now leadMs (tasks st)) as He.
  destruct (checkLoop now leadMs (tasks st)) as [[tasks' events] changed].
  cbn [fst snd] in *. subst tasks' events.
  split; [reflexivity|]. split; [reflexivity|].
  intros task. split.
  - intros Hin. apply in_app_or in Hin as [Hin|Hin].
    + apply in_map_iff in Hin as (t & Heq & Hin). inversion Heq; subst t.
      now apply filter_In in Hin.
    + destruct changed; cbn in Hin; intuition discriminate.
  - intros [Hin Hs]. apply in_or_app. left. apply in_map. now apply filter_In.
Qed.

Lemma checkReminders_disabled (now : Z) (st : State) :
  notificationsEnabled (settings st) = false -> checkReminders now st = (st, []).
Proof. intros H. unfold checkReminders. now rewrite H. Qed.

Lemma checkTask_settled (now leadMs r : Z) (task : Task) :
  reminderAt task = Some r -> notifiedFor task = Some (r - leadMs) ->
  checkTask now leadMs task = (task, false).
Proof.
  intros Hr Hn. unfold checkTask. rewrite Hr, Hn, Z.eqb_refl.
  destruct (done task || negb (truthy (Some r))); [reflexivity|].
  destruct (now <? r - leadMs); reflexivity.
Qed.

Lemma checkTask_done (now leadMs : Z) (task : Task) :
  done task = true -> checkTask now leadMs task = (task, false).
Proof. intros Hd. unfold checkTask. now rewrite Hd. Qed.

(** A task that no pass can change stays in its place, silent, over any
    number of passes. *)
Lemma polls_silent (later : list Z) : forall (st : State) (i : nat) (task : Task),
  nth_error (tasks st) i = Some task ->
  (forall now, checkTask now (notifyBeforeMinutes (settings st) * 60000) task = (task, false)) ->
  nth_error (tasks (fst (polls later st))) i = Some task /\
  ~ In (EmitReminder task) (snd (polls later st)).
Proof.
  induction later as [|now later IH]; intros st i task Hi Hq.
  - cbn. auto.
  - cbn [polls].
    destruct (notificationsEnabled (settings st)) eqn:Hen.
    + pose proof (checkReminders_enabled now st Hen) as (Ht & Hs & He).
      destruct (checkReminders now st) as [st1 events1]. cbn [fst snd] in *.
      assert (Hi1 : nth_error (tasks st1) i = Some task).
      { rewrite Ht, nth_error_map, Hi. cbn. now rewrite Hq. }
      assert (Hq1 : forall now', checkTask now' (notifyBeforeMinutes (settings st1) * 60000) task
                                 = (task, false)) by (now rewrite Hs).
      destruct (IH st1 i task Hi1 Hq1) as [IH1 IH2].
      destruct (polls later st1) as [st2 events2]. cbn [fst snd] in *.
      split; [assumption|]. intros Hin. apply in_app_or in Hin as [Hin|Hin]; [|auto].
      apply He in Hin as [_ Hf]. rewrite Hq in Hf. discriminate.
    + rewrite (checkReminders_disabled now st Hen).
      destruct (IH st i task Hi Hq) as [IH1 IH2].
      destruct (polls later st) as [st2 events2]. cbn [fst snd] in *. auto.
Qed.

Lemma polls_emits_open (nows : list Z) : forall (st : State) (task : Task),
  In (EmitReminder task) (snd (polls nows st)) -> done task = false.
Proof.
  induction nows as [|now later IH]; intros st task Hin; [destruct Hin|].
  cbn [polls] in Hin.
  destruct (notificationsEnabled (settings st)) eqn:Hen.
  - pose proof (checkReminders_enabled now st Hen) as (_ & _ & He).
    destruct (checkReminders now st) as [st1 events1]. cbn [fst snd] in *.
    specialize (IH st1 task).
    destruct (polls later st1) as [st2 events2]. cbn [fst snd] in *.
    apply in_app_or in Hin as [Hin|Hin]; [|auto].
    apply He in Hin as [_ Hf].
    destruct (done task) eqn:Hd; [|reflexivity].
    rewrite (checkTask_done _ _ _ Hd) in Hf. discriminate.
  - rewrite (checkReminders_disabled now st Hen) in Hin.
    specialize (IH st task).
    destruct (polls later st) as [st2 events2]. cbn [fst snd] in *. auto.
Qed.

Lemma updateFound_spec (taskId : string) (f : Task -> Task) (l : list Task) :
  forall task, find (hasId taskId) l = Some task ->
  exists i, nth_error l i = Some task /\
            nth_error (updateFound taskId f l) i = Some (f task) /\
            forall j, j <> i -> nth_error (updateFound taskId f l) j = nth_error l j.
Proof.
  induction l as [|item rest IH]; intros task Hf; [discriminate|].
  cbn [find updateFound] in *. destruct (hasId taskId item).
  - inversion Hf; subst item. exists 0%nat. repeat split.
    intros [|j] Hj; [congruence|reflexivity].
  - destruct (IH task Hf) as (i & H1 & H2 & H3). exists (S i). repeat split; auto.
    intros [|j] Hj; [reflexivity|]. cbn. apply H3. congruence.
Qed.

Lemma find_hasId (taskId : string) (l : list Task) (task : Task) :
  find (hasId taskId) l = Some task -> id task = taskId.
Proof.
  intros H. apply find_some in H as [_ H]. now apply String.eqb_eq in H.
Qed.

(** ** The claims about the reminder check *)

(** C1, as amended.  With notifications enabled, a pass of the reminder check
    emits a reminder for a task of the list if and only if the reminder of
    the task is set and not 0, the task is not done, the trigger instant
    [reminderAt - leadMinutes * 60000] is reached, and [notifiedFor] is not
    that trigger; a task that fires gets [notifiedFor] set to the trigger, any
    other task is left as it is. *)
Theorem checkReminders_fires_iff (st : State) (now : Z) (i : nat) (task : Task) :
  notificationsEnabled (settings st) = true ->
  nth_error (tasks st) i = Some task ->
  let lead := notifyBeforeMinutes (settings st) in
  let st' := fst (checkReminders now st) in
  (In (EmitReminder task) (snd (checkReminders now st)) <-> shouldFire task now lead) /\
  (shouldFire task now lead ->
     exists r, reminderAt task = Some r /\
               nth_error (tasks st') i
               = Some (setNotifiedFor (Some (computeTrigger r lead)) task)) /\
  (~ shouldFire task now lead -> nth_error (tasks st') i = Some task).
Proof.
  intros Hen Hi lead st'.
  pose proof (checkReminders_enabled now st Hen) as (Ht & _ & He).
  fold lead in Ht, He. subst st'. split; [|split].
  - rewrite He, checkTask_fires. split; [tauto|].
    intros H. split; [|assumption]. eapply nth_error_In; eassumption.
  - intros Hf. apply checkTask_fires in Hf.
    destruct (checkTask_fired _ _ _ Hf) as (r & Hr & Heq).
    exists r. split; [assumption|].
    rewrite Ht, nth_error_map, Hi. cbn. now rewrite Heq.
  - intros Hf. rewrite Ht, nth_error_map, Hi. cbn. f_equal.
    apply checkTask_quiet.
    destruct (snd (checkTask now (lead * 60000) task)) eqn:E; [|reflexivity].
    apply checkTask_fires in E. contradiction.
Qed.

Lemma checkReminders_fires_iff_witness :
  let task := sampleTask (Some juneReminder) None in
  let st := sampleState 10 [task] in
  notificationsEnabled (settings st) = true /\
  nth_error (tasks st) 0 = Some task /\
  (In (EmitReminder task) (snd (checkReminders 1748758800000 st))
   <-> shouldFire task 1748758800000 10).
Proof.
  split; [reflexivity|]. split; [reflexivity|].
  exact (proj1 (checkReminders_fires_iff
                  (sampleState 10 [sampleTask (Some juneReminder) None])
                  1748758800000 0 (sampleTask (Some juneReminder) None)
                  eq_refl eq_refl)).
Defined.

(** C1 as stated fails: a task whose reminder is the instant 0 is set, open,
    past its trigger and not yet notified, and the pass emits nothing for
    it. *)
Lemma zero_reminder_never_fires :
  let task := sampleTask (Some 0) None in
  let st := sampleState 0 [task] in
  notificationsEnabled (settings st) = true /\
  In task (tasks st) /\
  shouldFireAnyReminder task 1000 (notifyBeforeMinutes (settings st)) /\
  ~ In (EmitReminder task) (snd (checkReminders 1000 st)).
Proof.
  cbv zeta. split; [reflexivity|]. split; [left; reflexivity|]. split.
  - exists 0. repeat split; try reflexivity; [cbv; discriminate|discriminate].
  - cbn. tauto.
Qed.

(** C2.  Once a pass has fired for a task, the task carries the trigger
    instant in [notifiedFor], and over any number of later passes (whatever
    their instants, the task and the settings being touched by nothing else)
    it keeps its place unchanged and no reminder is emitted for it again.
    As this holds from every state, no run of passes fires twice for one
    trigger instant of a task. *)
Theorem fired_at_most_once (st : State) (now : Z) (i : nat) (task : Task) (later : list Z) :
  nth_error (tasks st) i = Some task ->
  In (EmitReminder task) (snd (checkReminders now st)) ->
  exists r,
    reminderAt task = Some r /\
    let trigger := computeTrigger r (notifyBeforeMinutes (settings st)) in
    let task1 := setNotifiedFor (Some trigger) task in
    let st1 := fst (checkReminders now st) in
    nth_error (tasks st1) i = Some task1 /\
    nth_error (tasks (fst (polls later st1))) i = Some task1 /\
    ~ In (EmitReminder task1) (snd (polls later st1)).
Proof.
  intros Hi Hin.
  destruct (notificationsEnabled (settings st)) eqn:Hen.
  2:{ rewrite (checkReminders_disabled now st Hen) in Hin. destruct Hin. }
  pose proof (checkReminders_enabled now st Hen) as (Ht & Hs & He).
  apply He in Hin as [_ Hfired].
  destruct (checkTask_fired _ _ _ Hfired) as (r & Hr & Heq).
  exists r. split; [assumption|]. cbv zeta.
  assert (Hi1 : nth_error (tasks (fst (checkReminders now st))) i
                = Some (setNotifiedFor
                          (Some (computeTrigger r (notifyBeforeMinutes (settings st)))) task)).
  { rewrite Ht, nth_error_map, Hi. cbn [option_map]. now rewrite Heq. }
  split; [exact Hi1|].
  apply polls_silent; [exact Hi1|].
  intros now'. rewrite Hs. apply (checkTask_settled now' _ r); [exact Hr|reflexivity].
Qed.

Lemma fired_at_most_once_witness :
  let task := sampleTask (Some juneReminder) None in
  let st := sampleState 10 [task] in
  nth_error (tasks st) 0 = Some task /\
  In (EmitReminder task) (snd (checkReminders 1748758800000 st)) /\
  exists r,
    reminderAt task = Some r /\
    let task1 := setNotifiedFor (Some (computeTrigger r 10)) task in
    let st1 := fst (checkReminders 1748758800000 st) in
    nth_error (tasks st1) 0 = Some task1 /\
    nth_error (tasks (fst (polls [1748758815000; 1748759100000] st1))) 0 = Some task1 /\
    ~ In (EmitReminder task1) (snd (polls [1748758815000; 1748759100000] st1)).
Proof.
  split; [reflexivity|]. split; [left; reflexivity|].
  exact (fired_at_most_once (sampleState 10 [sampleTask (Some juneReminder) None])
           1748758800000 0 (sampleTask (Some juneReminder) None)
           [1748758815000; 1748759100000] eq_refl (or_introl eq_refl)).
Defined.

(** C6.  No pass, in any run of passes, emits a reminder for a task that is
    done, and a done task keeps its place unchanged through the passes;
    [toggleTask] with [done = true] sets [done] and clears [notifiedFor] on
    the task it finds and touches no other task. *)
Theorem done_task_is_silent :
  (forall (st : State) (nows : list Z) (task : Task),
     In (EmitReminder task) (snd (polls nows st)) -> done task = false) /\
  (forall (st : State) (nows : list Z) (i : nat) (task : Task),
     nth_error (tasks st) i = Some task -> done task = true ->
     nth_error (tasks (fst (polls nows st))) i = Some task) /\
  (forall (st : State) (taskId : string) (task : Task),
     find (hasId taskId) (tasks st) = Some task ->
     exists i task',
       nth_error (tasks st) i = Some task /\
       nth_error (tasks (fst (toggleTask taskId true st))) i = Some task' /\
       done task' = true /\ notifiedFor task' = None /\
       id task' = id task /\ text task' = text task /\ reminderAt task' = reminderAt task /\
       forall j, j <> i ->
         nth_error (tasks (fst (toggleTask taskId true st))) j = nth_error (tasks st) j).
Proof.
  split; [|split].
  - intros st nows task. apply polls_emits_open.
  - intros st nows i task Hi Hd.
    apply polls_silent; [assumption|]. intros now. now apply checkTask_done.
  - intros st taskId task Hf. unfold toggleTask. rewrite Hf. cbn [fst tasks setTasks].
    destruct (updateFound_spec taskId
                (fun t => setNotifiedFor None (setDone true t)) (tasks st) task Hf)
      as (i & H1 & H2 & H3).
    exists i, (setNotifiedFor None (setDone true task)). repeat split; assumption.
Qed.

Lemma done_task_is_silent_witness :
  let task := sampleTask (Some juneReminder) (Some 1748758800000) in
  let st := sampleState 10 [task] in
  find (hasId "7f9c") (tasks st) = Some task /\
  exists i task',
    nth_error (tasks st) i = Some task /\
    nth_error (tasks (fst (toggleTask "7f9c" true st))) i = Some task' /\
    done task' = true /\ notifiedFor task' = None /\
    id task' = id task /\ text task' = text task /\ reminderAt task' = reminderAt task /\
    forall j, j <> i ->
      nth_error (tasks (fst (toggleTask "7f9c" true st))) j = nth_error (tasks st) j.
Proof.
  split; [reflexivity|].
  exact (proj2 (proj2 done_task_is_silent)
           (sampleState 10 [sampleTask (Some juneReminder) (Some 1748758800000)])
           "7f9c" (sampleTask (Some juneReminder) (Some 1748758800000)) eq_refl).
Defined.

End AppFacts.

(** ** Settings *)

Module SettingsFacts.
Import Js App.

Lemma clampInt_range (v : value) (min max fallback : Z) :
  min <= max -> min <= fallback <= max -> min <= clampInt v min max fallback <= max.
Proof.
  intros Hmm Hf. unfold clampInt.
  destruct (parseInt (toString v)) as [num| |]; try assumption.
  destruct (Z.ltb_spec num min); [lia|].
  destruct (Z.ltb_spec max num); lia.
Qed.

Lemma clampInt_finite (v : value) (num min max fallback : Z) :
  parseInt (toString v) = Fin num -> min <= max ->
  clampInt v min max fallback = Z.max min (Z.min max num).
Proof.
  intros Hp Hmm. unfold clampInt. rewrite Hp.
  destruct (Z.ltb_spec num min); [lia|].
  destruct (Z.ltb_spec max num); lia.
Qed.

Lemma timezoneMap_has_In (z : string) :
  timezoneMap_has z = true <-> In z (map zoneId RU_TIMEZONES).
Proof.
  unfold timezoneMap_has. rewrite existsb_exists. split.
  - intros (zone & Hin & Heq). apply String.eqb_eq in Heq. subst z. now apply in_map.
  - intros Hin. apply in_map_iff in Hin as (zone & Heq & Hin).
    exists zone. split; [assumption|]. now apply String.eqb_eq.
Qed.

End SettingsFacts.

(** ** Conversions between wall-clock times and instants *)

Module ConversionFacts.
Import Js Date App.

Lemma bind_Return_r {A : Type} (m : outcome A) : bind m (fun a => Return a) = m.
Proof. destruct m; reflexivity. Qed.

Lemma bind_assoc {A B C : Type} (m : outcome A) (f : A -> outcome B) (g : B -> outcome C) :
  bind (bind m f) g = bind m (fun a => bind (f a) g).
Proof. destruct m; reflexivity. Qed.

(** **** The string of the edit prompt *)

Lemma twoDigits_list (n : Z) : 0 <= n < 100 -> digitList [n / 10; n mod 10].
Proof.
  intros H. repeat constructor; Z.div_mod_to_equations; lia.
Qed.

Lemma mathInt_twoDigits (n : Z) : mathInt [n / 10; n mod 10] = n.
Proof. unfold mathInt. cbn [fold_left]. Z.div_mod_to_equations; lia. Qed.

Lemma formatParts_shape (y m d h mi s : Z) :
  0 <= y < 10 ^ 21 -> 0 <= m < 100 -> 0 <= d < 100 -> 0 <= h < 100 -> 0 <= mi < 100 ->
  formatParts {| year := y; month := m; day := d; hour := h; minute := mi; second := s |}
  = (fromDigits (digitsOf y) ++ "-" ++ fromDigits [m / 10; m mod 10] ++ "-"
       ++ fromDigits [d / 10; d mod 10])
    ++ String " " (fromDigits [h / 10; h mod 10] ++ ":" ++ fromDigits [mi / 10; mi mod 10]).
Proof.
  intros Hy Hm Hd Hh Hmi. unfold formatParts. cbn [year month day hour minute].
  rewrite (JsFacts.numberToString_decimal y Hy), JsFacts.decimal_fromDigits.
  rewrite !JsFacts.padStart_two_digits by assumption.
  rewrite !JsFacts.append_assoc. reflexivity.
Qed.

Lemma parseInt_digits (ds : list Z) :
  digitList ds -> ds <> [] -> parseInt (fromDigits ds) = ofInteger (mathInt ds).
Proof.
  intros Hd Hne. rewrite <- (JsFacts.append_nil_r (fromDigits ds)).
  now apply JsFacts.parseInt_fromDigits.
Qed.

Lemma parseInt_twoDigits (n : Z) :
  0 <= n < 100 -> parseInt (fromDigits [n / 10; n mod 10]) = Fin n.
Proof.
  intros H. rewrite parseInt_digits by (auto using twoDigits_list; discriminate).
  rewrite mathInt_twoDigits. apply JsFacts.ofInteger_small. lia.
Qed.

Lemma components_formatParts (y m d h mi s : Z) :
  0 <= y < 10 ^ 21 -> 0 <= m < 100 -> 0 <= d < 100 -> 0 <= h < 100 -> 0 <= mi < 100 ->
  let shown := formatParts {| year := y; month := m; day := d;
                              hour := h; minute := mi; second := s |} in
  trim shown = shown /\ isEmpty shown = false /\ includes "T" shown = false /\
  components (replace " " "T" shown) = Some (y, m, d, h, mi).
Proof.
  intros Hy Hm Hd Hh Hmi shown. subst shown.
  rewrite formatParts_shape by assumption.
  pose proof (JsFacts.digitsOf_digitList y) as HdY.
  pose proof (JsFacts.digitsOf_nonempty y) as HneY.
  pose proof (twoDigits_list m Hm) as HdM. pose proof (twoDigits_list d Hd) as HdD.
  pose proof (twoDigits_list h Hh) as HdH. pose proof (twoDigits_list mi Hmi) as HdMi.
  assert (HpY : parseInt (fromDigits (digitsOf y)) = Fin y).
  { rewrite parseInt_digits, JsFacts.mathInt_digitsOf by (auto; lia).
    apply JsFacts.ofInteger_small. lia. }
  pose proof (parseInt_twoDigits m Hm) as HpM. pose proof (parseInt_twoDigits d Hd) as HpD.
  pose proof (parseInt_twoDigits h Hh) as HpH. pose proof (parseInt_twoDigits mi Hmi) as HpMi.
  set (Y := fromDigits (digitsOf y)) in *.
  set (M2 := fromDigits [m / 10; m mod 10]) in *.
  set (D2 := fromDigits [d / 10; d mod 10]) in *.
  set (H2 := fromDigits [h / 10; h mod 10]) in *.
  set (Mi2 := fromDigits [mi / 10; mi mod 10]) in *.
  assert (HiY : forall c, isDigit c = false -> includes c Y = false)
    by (intros; now apply JsFacts.includes_fromDigits).
  assert (HiM : forall c, isDigit c = false -> includes c M2 = false)
    by (intros; now apply JsFacts.includes_fromDigits).
  assert (HiD : forall c, isDigit c = false -> includes c D2 = false)
    by (intros; now apply JsFacts.includes_fromDigits).
  assert (HiH : forall c, isDigit c = false -> includes c H2 = false)
    by (intros; now apply JsFacts.includes_fromDigits).
  assert (HiMi : forall c, isDigit c = false -> includes c Mi2 = false)
    by (intros; now apply JsFacts.includes_fromDigits).
  set (P := Y ++ "-" ++ M2 ++ "-" ++ D2).
  set (Q := H2 ++ ":" ++ Mi2).
  assert (HP : forall c, isDigit c = false -> Ascii.eqb "-" c = false -> includes c P = false).
  { intros c Hc Hne. subst P. rewrite !JsFacts.includes_append. cbn [includes].
    now rewrite HiY, HiM, HiD, Hne. }
  assert (HQ : forall c, isDigit c = false -> Ascii.eqb ":" c = false -> includes c Q = false).
  { intros c Hc Hne. subst Q. rewrite !JsFacts.includes_append. cbn [includes].
    now rewrite HiH, HiMi, Hne. }
  assert (HPne : isEmpty P = false).
  { subst P Y. destruct (digitsOf y); [congruence|reflexivity]. }
  assert (HQne : isEmpty Q = false) by reflexivity.
  split; [|split; [|split]].
  - apply JsFacts.trim_id.
    + subst P Y. destruct (digitsOf y) as [|d0 ds]; [congruence|].
      cbn [fromDigits append startsNonWs].
      rewrite JsFacts.isDigit_not_ws; [reflexivity|].
      apply JsFacts.isDigit_digitChar. now inversion HdY.
    + rewrite JsFacts.endsNonWs_append by discriminate.
      subst Q H2 Mi2. cbn [fromDigits append endsNonWs].
      rewrite JsFacts.isDigit_not_ws; [reflexivity|].
      apply JsFacts.isDigit_digitChar. inversion HdMi as [|? ? _ Hrest]. now inversion Hrest.
  - destruct P; [discriminate|reflexivity].
  - rewrite JsFacts.includes_append. cbn [includes].
    rewrite HP, HQ by reflexivity. reflexivity.
  - rewrite JsFacts.replace_at_first by (apply HP; reflexivity).
    unfold components.
    rewrite JsFacts.split_at_sep by (apply HP; reflexivity).
    rewrite JsFacts.split_no_sep by (apply HQ; reflexivity).
    cbn [nth_error]. rewrite HPne, HQne. cbn [orb].
    unfold component.
    assert (HsP : split "-" P = [Y; M2; D2]).
    { subst P. change ("-" ++ M2 ++ "-" ++ D2) with (String "-" (M2 ++ String "-" D2)).
      rewrite JsFacts.split_at_sep by (apply HiY; reflexivity).
      rewrite JsFacts.split_at_sep by (apply HiM; reflexivity).
      rewrite JsFacts.split_no_sep by (apply HiD; reflexivity). reflexivity. }
    assert (HsQ : split ":" Q = [H2; Mi2]).
    { subst Q. change (":" ++ Mi2) with (String ":" Mi2).
      rewrite JsFacts.split_at_sep by (apply HiH; reflexivity).
      rewrite JsFacts.split_no_sep by (apply HiMi; reflexivity). reflexivity. }
    rewrite HsP, HsQ. cbn [nth_error]. now rewrite HpY, HpM, HpD, HpH, HpMi.
Qed.

Section WithTimeZones.
Context {tz : TimeZones}.

(** The two early returns and the finiteness test of [zonedLocalToUtcMs] are
    the decomposition into components. *)
Lemma zonedLocalToUtcMs_components (s zone : string) :
  zonedLocalToUtcMs s zone =
  match components s with
  | None => Return None
  | Some c => bind (refineLoop 3 zone (naiveUTC c) (naiveUTC c)) (fun r => Return (Some r))
  end.
Proof.
  unfold zonedLocalToUtcMs, components, component.
  destruct (split "T" s) as [|datePart [|timePart rest]]; cbn [nth_error]; try reflexivity.
  destruct (isEmpty datePart || isEmpty timePart); [reflexivity|].
  destruct (split "-" datePart) as [|a [|b [|c ?]]];
    destruct (split ":" timePart) as [|h [|mi ?]]; cbn [nth_error map];
    repeat match goal with
           | |- context [parseInt ?x] => destruct (parseInt x)
           end; reflexivity.
Qed.

(** **** The offset that the code reads off the formatter *)

Lemma year100_day : DayFromYear 100 * msPerDay = year100.
Proof. reflexivity. Qed.

Lemma YearFromTime_from_100 (local : Z) : year100 <= local -> 100 <= YearFromTime local.
Proof.
  intros H. unfold YearFromTime.
  assert (Hd : DayFromYear 100 <= Day local).
  { unfold Day. apply Z.div_le_lower_bound; [reflexivity|].
    rewrite Z.mul_comm, year100_day. exact H. }
  pose proof (DateFacts.YearFromDay_mono _ _ Hd) as Hm.
  rewrite (DateFacts.YearFromDay_unique (DayFromYear 100) 100) in Hm; [assumption|].
  rewrite DateFacts.DayFromYear_step. pose proof (DateFacts.DaysInYear_cases 100). lia.
Qed.

Lemma UTC_of_fields (local : Z) :
  year100 <= local <= maxTime ->
  let y := YearFromTime local in
  UTC (if y <=? 0 then 1 - y else y) (MonthFromTime local + 1 - 1) (DateFromTime local)
      (HourFromTime local) (MinFromTime local) (SecFromTime local) 0
  = Fin (local - local mod 1000).
Proof.
  intros Hl y. pose proof (YearFromTime_from_100 local (proj1 Hl)) as Hy. fold y in Hy.
  destruct (Z.leb_spec y 0); [lia|].
  unfold UTC.
  destruct (Z.leb_spec y 99); [lia|]. rewrite andb_false_r.
  replace (MonthFromTime local + 1 - 1) with (MonthFromTime local) by lia.
  subst y. rewrite DateFacts.MakeDate_of_fields.
  unfold TimeClip, validTime.
  pose proof (Z.mod_pos_bound local 1000 ltac:(lia)).
  unfold year100, maxTime in *.
  destruct (Z.leb_spec (Z.abs (local - local mod 1000)) 8640000000000000); [reflexivity|lia].
Qed.

Lemma zoneOffsetMs_value (zone : string) (off : Z -> Z) (t : Z) :
  utcOffset zone = Some off -> validTime t = true ->
  year100 <= t + off t <= maxTime ->
  zoneOffsetMs zone (Fin t) = Return (Fin (seenOffset off t)).
Proof.
  intros Hz Hv Hl. unfold zoneOffsetMs, getZoneParts. rewrite Hz, Hv.
  cbn [bind year month day hour minute second].
  rewrite (UTC_of_fields _ Hl). reflexivity.
Qed.

Lemma seenOffset_bound (off : Z -> Z) (t : Z) :
  Z.abs (off t) <= msPerDay -> - msPerDay - 999 <= seenOffset off t <= msPerDay.
Proof.
  intros H. unfold seenOffset. cbv zeta.
  pose proof (Z.mod_pos_bound (t + off t) 1000 ltac:(lia)). lia.
Qed.

(** The loop is followed from any guess within a day and a second of a
    refinable naive time, and stays there. *)
Lemma refineLoop_refined (zone : string) (off : Z -> Z) (g0 : Z) :
  utcOffset zone = Some off -> locallyBounded off g0 -> refinable g0 ->
  forall (n : nat) (r : Z),
    Z.abs (r - g0) <= msPerDay + 999 ->
    refineLoop n zone (Fin g0) (Fin r) = Return (Fin (refined off g0 n r)) /\
    Z.abs (refined off g0 n r - g0) <= msPerDay + 999.
Proof.
  intros Hz Hb Hg. induction n as [|k IH]; intros r Hr.
  - cbn. auto.
  - cbn [refineLoop refined].
    pose proof (Hb r Hr) as Hoff. pose proof (seenOffset_bound off r Hoff) as Hs.
    unfold refinable, year100, maxTime, msPerDay in *.
    rewrite (zoneOffsetMs_value zone off r Hz).
    + cbn [bind sub]. apply IH. lia.
    + unfold validTime, maxTime. apply Z.leb_le. lia.
    + unfold year100, maxTime. lia.
Qed.

Lemma bounded_locally (off : Z -> Z) (g0 : Z) : boundedOffsets off -> locallyBounded off g0.
Proof. intros Hb t _. apply Hb. Qed.

(** What [zonedLocalToUtcMs] returns on the refinable naive times. *)
Lemma zonedLocalToUtcMs_value (s zone : string) (c : Z * Z * Z * Z * Z)
    (off : Z -> Z) (g0 : Z) :
  components s = Some c -> utcOffset zone = Some off -> locallyBounded off g0 ->
  naiveUTC c = Fin g0 -> refinable g0 ->
  zonedLocalToUtcMs s zone = Return (Some (Fin (refined off g0 3 g0))) /\
  Z.abs (refined off g0 3 g0 - g0) <= msPerDay + 999.
Proof.
  intros Hc Hz Hb Hn Hg. rewrite zonedLocalToUtcMs_components, Hc, Hn.
  destruct (refineLoop_refined zone off g0 Hz Hb Hg 3 g0) as [Heq Hbd];
    [unfold msPerDay; lia|].
  rewrite Heq. auto.
Qed.





(** **** Components outside the calendar ranges *)

Lemma naiveUTC_month_carry (y m d h mi : Z) :
  100 <= y -> naiveUTC (y, m + 12, d, h, mi) = naiveUTC (y + 1, m, d, h, mi).
Proof.
  intros Hy. unfold naiveUTC, UTC.
  destruct (Z.leb_spec y 99); [lia|]. destruct (Z.leb_spec (y + 1) 99); [lia|].
  rewrite !andb_false_r. do 2 f_equal. unfold MakeDay.
  replace (m + 12 - 1) with (m - 1 + 1 * 12) by lia.
  rewrite Z.div_add, Z.mod_add by lia.
  replace (y + ((m - 1) / 12 + 1)) with (y + 1 + (m - 1) / 12) by lia. reflexivity.
Qed.

Lemma naiveUTC_day_carry (y m d h mi : Z) :
  100 <= y -> 1 <= m <= 12 ->
  naiveUTC (y, m, DaysInMonth (isLeapYear y) (m - 1) + d, h, mi)
  = naiveUTC (y, m + 1, d, h, mi).
Proof.
  intros Hy Hm. unfold naiveUTC, UTC.
  destruct (Z.leb_spec y 99); [lia|]. rewrite !andb_false_r. do 2 f_equal.
  rewrite DateFacts.MakeDay_in_range by lia. unfold DaysInMonth.
  replace (m - 1 + 1) with m by lia. replace (m + 1 - 1) with m by lia.
  destruct (Z.eq_dec m 12) as [->|Hne].
  - unfold MakeDay. change (12 / 12) with 1. change (12 mod 12) with 0.
    rewrite DateFacts.DayFromYear_step. unfold DaysInYear.
    destruct (isLeapYear y); destruct (isLeapYear (y + 1));
      DateFacts.eval_monthStart; lia.
  - rewrite DateFacts.MakeDay_in_range by lia. lia.
Qed.

Lemma naiveUTC_hour_carry (y m d h mi : Z) :
  naiveUTC (y, m, d, h + 24, mi) = naiveUTC (y, m, d + 1, h, mi).
Proof.
  unfold naiveUTC, UTC. f_equal.
  unfold MakeDate, MakeDay, MakeTime, msPerDay, msPerHour. lia.
Qed.

Lemma naiveUTC_minute_carry (y m d h mi : Z) :
  naiveUTC (y, m, d, h, mi + 60) = naiveUTC (y, m, d, h + 1, mi).
Proof.
  unfold naiveUTC, UTC. f_equal.
  unfold MakeDate, MakeTime, msPerHour, msPerMinute. lia.
Qed.

(** **** The round trip *)

Lemma seenOffset_whole (off : Z -> Z) (t : Z) :
  t mod 1000 = 0 -> off t mod 1000 = 0 -> seenOffset off t = off t.
Proof.
  intros Ht Ho. unfold seenOffset. cbv zeta.
  replace ((t + off t) mod 1000) with 0; [lia|].
  Z.div_mod_to_equations. lia.
Qed.

(** Outside a gap of a zone with at most one change of offset nearby, the
    third guess shows the wall-clock time aimed at. *)
Lemma refined_converges (off : Z -> Z) (wall : Z) :
  singleTransition off wall -> shownOnClock off wall -> wall mod 1000 = 0 ->
  let r := refined off wall 3 wall in
  r + off r = wall /\ Z.abs (r - wall) <= msPerDay.
Proof.
  intros (change & a & b & Ha & Hb & Ham & Hbm & Hoff) (t & Ht & Hshown) Hw r.
  assert (Hcase : forall u, Z.abs (u - wall) <= msPerDay -> u mod 1000 = 0 ->
                  seenOffset off u = off u /\ (off u = if u <? change then a else b)).
  { intros u Hu Hum. pose proof (Hoff u ltac:(unfold msPerDay in *; lia)) as Hou.
    split; [|assumption]. apply seenOffset_whole; [assumption|].
    rewrite Hou. destruct (u <? change); assumption. }
  assert (Hstep : forall u, Z.abs (u - wall) <= msPerDay -> u mod 1000 = 0 ->
                  Z.abs (wall - seenOffset off u - wall) <= msPerDay /\
                  (wall - seenOffset off u) mod 1000 = 0).
  { intros u Hu Hum. destruct (Hcase u Hu Hum) as [-> Hou]. rewrite Hou.
    destruct (u <? change); split; try lia; Z.div_mod_to_equations; lia. }
  pose proof (Hoff t ltac:(unfold msPerDay in *; lia)) as Hot.
  subst r. cbn [refined].
  set (r1 := wall - seenOffset off wall).
  destruct (Hcase wall ltac:(unfold msPerDay; lia) Hw) as [Hs0 Ho0].
  destruct (Hstep wall ltac:(unfold msPerDay; lia) Hw) as [Hb1 Hm1]. fold r1 in Hb1, Hm1.
  set (r2 := wall - seenOffset off r1).
  destruct (Hcase r1 Hb1 Hm1) as [Hs1 Ho1].
  destruct (Hstep r1 Hb1 Hm1) as [Hb2 Hm2]. fold r2 in Hb2, Hm2.
  set (r3 := wall - seenOffset off r2).
  destruct (Hcase r2 Hb2 Hm2) as [Hs2 Ho2].
  destruct (Hstep r2 Hb2 Hm2) as [Hb3 Hm3]. fold r3 in Hb3, Hm3.
  destruct (Hcase r3 Hb3 Hm3) as [_ Ho3].
  split; [|exact Hb3].
  assert (E1 : r1 = wall - off wall) by (subst r1; lia).
  assert (E2 : r2 = wall - off r1) by (subst r2; lia).
  assert (E3 : r3 = wall - off r2) by (subst r3; lia).
  clearbody r1 r2 r3. clear Hs0 Hs1 Hs2 Hcase Hstep Hoff.
  destruct (Z.ltb_spec wall change); destruct (Z.ltb_spec r1 change);
    destruct (Z.ltb_spec r2 change); destruct (Z.ltb_spec r3 change);
    destruct (Z.ltb_spec t change); lia.
Qed.

Lemma DaysInMonth_le_31 (leap : bool) (m : Z) : 0 <= m <= 11 -> DaysInMonth leap m <= 31.
Proof.
  intros Hm. DateFacts.each_month m Hm; destruct leap; vm_compute; discriminate.
Qed.

Lemma wall_of_calendar (y m d h mi : Z) :
  validCalendar (y, m, d, h, mi) -> 101 <= y <= 275000 ->
  let wall := MakeDate (MakeDay y (m - 1) d) (MakeTime h mi 0 0) in
  refinable wall /\ wall mod 1000 = 0 /\ naiveUTC (y, m, d, h, mi) = Fin wall.
Proof.
  intros (Hm & Hd & Hh & Hmi) Hy wall.
  pose proof (DateFacts.monthStart_bound (isLeapYear y) (m - 1) ltac:(lia)) as (Hs0 & Hs1 & _).
  pose proof (DateFacts.MakeTime_bound h mi 0 0 Hh Hmi ltac:(lia) ltac:(lia)) as Ht.
  pose proof (DateFacts.DayFromYear_grows 101 y ltac:(lia)) as Hlo.
  pose proof (DateFacts.DayFromYear_grows (y + 1) 275001 ltac:(lia)) as Hhi.
  rewrite DateFacts.DayFromYear_step in Hhi.
  assert (Hday : DayFromYear y <= MakeDay y (m - 1) d < DayFromYear y + DaysInYear y).
  { rewrite DateFacts.MakeDay_in_range by lia. unfold DaysInYear.
    destruct (isLeapYear y); lia. }
  let v := eval vm_compute in (DayFromYear 101) in change (DayFromYear 101) with v in Hlo.
  let v := eval vm_compute in (DayFromYear 275001) in
    change (DayFromYear 275001) with v in Hhi.
  assert (Hr : refinable wall).
  { subst wall. unfold refinable, MakeDate, year100, maxTime, msPerDay in *. lia. }
  split; [exact Hr|]. split.
  - subst wall. unfold MakeDate, MakeTime, msPerDay, msPerHour, msPerMinute, msPerSecond.
    Z.div_mod_to_equations. lia.
  - unfold naiveUTC, UTC. destruct (Z.leb_spec y 99); [lia|]. rewrite andb_false_r.
    fold wall. unfold TimeClip, validTime.
    unfold refinable, year100, maxTime, msPerDay in Hr.
    destruct (Z.leb_spec (Z.abs wall) maxTime); [reflexivity|unfold maxTime in *; lia].
Qed.

(** C4, as amended.  For calendar components within their ranges and a year
    of 101..275000, in a known zone whose offset changes at most once within
    two days of the wall-clock time, the string that the edit prompt prints
    for the components is converted to an instant whose parts in the zone are
    the components again, with 0 seconds, unless the wall-clock time is inside
    a gap of the zone (no instant shows it). *)
Theorem roundTrip_reproduces (zone : string) (off : Z -> Z) (y m d h mi : Z) :
  utcOffset zone = Some off ->
  validCalendar (y, m, d, h, mi) -> 101 <= y <= 275000 ->
  let wall := MakeDate (MakeDay y (m - 1) d) (MakeTime h mi 0 0) in
  singleTransition off wall -> shownOnClock off wall ->
  roundTrip zone (y, m, d, h, mi)
  = Return (Some {| year := y; month := m; day := d; hour := h; minute := mi; second := 0 |}).
Proof.
  intros Hz Hcal Hy wall Hsingle Hshown.
  destruct (wall_of_calendar y m d h mi Hcal Hy) as (Href & Hmod & Hnaive). fold wall in Href, Hmod, Hnaive.
  destruct Hcal as (Hm & Hd & Hh & Hmi).
  pose proof (DaysInMonth_le_31 (isLeapYear y) (m - 1) ltac:(lia)) as H31.
  destruct (components_formatParts y m d h mi 0) as (Htrim & Hne & HnoT & Hcomp); try lia.
  assert (Hlb : locallyBounded off wall).
  { destruct Hsingle as (change & a & b & Ha & Hb & _ & _ & Hoff).
    intros t Ht. rewrite (Hoff t ltac:(unfold msPerDay in *; lia)).
    destruct (t <? change); assumption. }
  destruct (refined_converges off wall Hsingle Hshown Hmod) as [Hconv Hnear].
  unfold roundTrip, parseReminderPromptValue.
  rewrite Htrim, Hne, HnoT.
  destruct (zonedLocalToUtcMs_value _ zone _ off wall Hcomp Hz Hlb Hnaive Href)
    as [-> _].
  cbn [bind finiteResult].
  unfold getZoneParts. rewrite Hz.
  set (r := refined off wall 3 wall) in *.
  assert (Hv : validTime r = true).
  { unfold validTime. apply Z.leb_le.
    unfold refinable, year100, maxTime, msPerDay in *. lia. }
  rewrite Hv, Hconv. cbn [bind].
  destruct (DateFacts.fields_of_MakeDate y (m - 1) d h mi 0 0)
    as (Fy & Fm & Fd & Fh & Fmi & Fs); try lia.
  fold wall in Fy, Fm, Fd, Fh, Fmi, Fs.
  rewrite Fy, Fm, Fd, Fh, Fmi, Fs.
  destruct (Z.leb_spec y 0); [lia|].
  do 3 f_equal. lia.
Qed.


End WithTimeZones.

End ConversionFacts.

(** ** The handlers and the de-duplication key *)

Module HandlerFacts.
Import Js App.

Lemma keyOk_setDone (d : bool) (task : Task) : keyOk task -> keyOk (setDone d task).
Proof. intros H. exact H. Qed.

Lemma keyOk_checkTask (now lead : Z) (task : Task) :
  0 <= lead <= 120 -> keyOk task -> keyOk (fst (checkTask now (lead * 60000) task)).
Proof.
  intros Hl Hk.
  destruct (snd (checkTask now (lead * 60000) task)) eqn:E.
  - destruct (AppFacts.checkTask_fired _ _ _ E) as (r & Hr & ->).
    unfold keyOk. cbn. exists r, lead. auto.
  - now rewrite (AppFacts.checkTask_quiet _ _ _ E).
Qed.

Lemma Forall_updateFound (P : Task -> Prop) (taskId : string) (f : Task -> Task)
    (l : list Task) :
  (forall t, P t -> P (f t)) -> Forall P l -> Forall P (updateFound taskId f l).
Proof.
  intros Hf Hl. induction Hl as [|item rest Hi Hrest IH]; cbn [updateFound]; [constructor|].
  destruct (hasId taskId item); constructor; auto.
Qed.

Lemma Forall_filter (P : Task -> Prop) (keep : Task -> bool) (l : list Task) :
  Forall P l -> Forall P (filter keep l).
Proof.
  intros Hl. induction Hl as [|item rest Hi _ IH]; cbn [filter]; [constructor|].
  destruct (keep item); [constructor|]; auto.
Qed.

Lemma wellKeyed_checkReminders (now : Z) (st : State) :
  wellKeyed st -> wellKeyed (fst (checkReminders now st)).
Proof.
  intros [Hk Hl].
  destruct (notificationsEnabled (settings st)) eqn:Hen.
  - destruct (AppFacts.checkReminders_enabled now st Hen) as (Ht & Hs & _).
    split; [|now rewrite Hs]. rewrite Ht. apply Forall_map.
    eapply Forall_impl; [|exact Hk]. intros t. now apply keyOk_checkTask.
  - rewrite (AppFacts.checkReminders_disabled now st Hen). now split.
Qed.

Section WithTimeZones.
Context {tz : TimeZones}.

(** The ways [addTask] ends. *)
Lemma addTask_outcomes (taskInput reminderInput : string) (now created : Z) (uuid : string)
    (st : State) :
  match addTask taskInput reminderInput now created uuid st with
  | Throw _ => True
  | Return (st', events) =>
      (st' = st /\ exists message, events = [ShowToast message true]) \/
      (exists task, st' = setTasks (task :: tasks st) st /\ notifiedFor task = None /\
                    done task = false /\
                    currentReminderInputToUtc (timezone (settings st)) reminderInput
                    = Return (Ok (reminderAt task)) /\
                    truthy (reminderAt task) && before (reminderAt task) now = false /\
                    events = [SaveTasks; ClearInputs; Render])
  end.
Proof.
  unfold addTask. destruct (isEmpty (trim taskInput)); [left; eauto|].
  destruct (currentReminderInputToUtc _ reminderInput) as [[value|message]|e];
    cbn [bind]; [|left; eauto|exact I].
  destruct (truthy value && before value now) eqn:E; [left; eauto|].
  right. eexists. repeat split; try reflexivity. exact E.
Qed.

(** The ways [editTask] ends. *)
Lemma editTask_outcomes (taskId : string) (promptText promptReminder : string -> option string)
    (now : Z) (st : State) :
  match editTask taskId promptText promptReminder now st with
  | Throw _ => True
  | Return (st', events) =>
      (st' = st /\ (events = [] \/ exists message, events = [ShowToast message true])) \/
      (exists f, st' = setTasks (updateFound taskId f (tasks st)) st /\
                 (forall t, notifiedFor (f t) = None /\ done (f t) = done t /\ id (f t) = id t) /\
                 events = [SaveTasks; Render])
  end.
Proof.
  unfold editTask. destruct (find (hasId taskId) (tasks st)) as [task|]; [|left; auto].
  destruct (promptText (text task)) as [nextText|]; [|left; auto].
  destruct (isEmpty (trim nextText)); [left; eauto|].
  destruct (match reminderAt task with
            | Some r => if truthy (Some r)
                        then formatForReminderPrompt (timezone (settings st)) r
                        else Return ""
            | None => Return ""
            end) as [currentReminder|e]; cbn [bind]; [|exact I].
  destruct (promptReminder currentReminder) as [rawReminder|].
  - destruct (parseReminderPromptValue _ rawReminder) as [[value|message]|e];
      cbn [bind]; [|left; eauto|exact I].
    destruct (truthy value && before value now); [left; eauto|].
    right. eexists. split; [reflexivity|]. split; [|reflexivity]. intros t0. cbn. auto.
  - right. eexists. split; [reflexivity|]. split; [|reflexivity]. intros t0. cbn. auto.
Qed.

Lemma keyOk_unset (task : Task) : notifiedFor task = None -> keyOk task.
Proof. intros H. unfold keyOk. now rewrite H. Qed.

(** Every operation keeps the keys in order. *)
Lemma wellKeyed_perform (a : Action) (st : State) : wellKeyed st -> wellKeyed (perform a st).
Proof.
  intros Hw. pose proof Hw as [Hk Hl]. destruct a; cbn [perform].
  - split; [exact Hk|]. cbn. apply SettingsFacts.clampInt_range; lia.
  - pose proof (addTask_outcomes taskInput reminderInput now created uuid st) as H.
    destruct (addTask taskInput reminderInput now created uuid st) as [[st' ev]|e];
      cbn [settle]; [|assumption].
    destruct H as [[-> _]|(task & -> & Hn & _)]; [assumption|].
    split; [|exact Hl]. constructor; [now apply keyOk_unset|exact Hk].
  - unfold toggleTask. destruct (find (hasId taskId) (tasks st)) as [found|]; [|assumption].
    split; [|exact Hl]. cbn. apply Forall_updateFound; [|exact Hk].
    intros t Ht. destruct d; [now apply keyOk_unset|exact Ht].
  - split; [|exact Hl]. cbn. now apply Forall_filter.
  - pose proof (editTask_outcomes taskId promptText promptReminder now st) as H.
    destruct (editTask taskId promptText promptReminder now st) as [[st' ev]|e];
      cbn [settle]; [|assumption].
    destruct H as [[-> _]|(f & -> & Hf & _)]; [assumption|].
    split; [|exact Hl]. cbn. apply Forall_updateFound; [|exact Hk].
    intros t _. apply keyOk_unset. apply Hf.
  - split; [|exact Hl]. cbn. now apply Forall_filter.
  - now apply wellKeyed_checkReminders.
  - unfold onNotifyBeforeChange.
    set (st1 := {| tasks := tasks st; settings := _ |}).
    assert (H1 : wellKeyed st1).
    { split; [exact Hk|]. cbn. apply SettingsFacts.clampInt_range; lia. }
    pose proof (wellKeyed_checkReminders now st1 H1) as H2.
    destruct (checkReminders now st1) as [st2 events]. exact H2.
  - unfold onTimezoneChange. destruct (timezoneMap_has selected); cbn; [|assumption].
    now split.
  - now split.
Qed.

Lemma wellKeyed_run (actions : list Action) : forall st, wellKeyed st -> wellKeyed (run actions st).
Proof.
  induction actions as [|a rest IH]; intros st Hw; [exact Hw|].
  cbn. apply IH. now apply wellKeyed_perform.
Qed.

(** X1.  The check against the clock at creation, on the candidates that are
    not the instant 0: a candidate before [now] is refused with a toast and the
    state is kept, a candidate at or after [now] is stored. *)
Lemma addTask_past_check (taskInput reminderInput : string) (now created : Z) (uuid : string)
    (st : State) (v : Z) :
  isEmpty (trim taskInput) = false ->
  currentReminderInputToUtc (timezone (settings st)) reminderInput = Return (Ok (Some v)) ->
  v <> 0 ->
  (v < now ->
   addTask taskInput reminderInput now created uuid st
   = Return (st, [ShowToast MsgReminderInPast true])) /\
  (now <= v ->
   exists task,
     addTask taskInput reminderInput now created uuid st
     = Return (setTasks (task :: tasks st) st, [SaveTasks; ClearInputs; Render]) /\
     reminderAt task = Some v /\ notifiedFor task = None).
Proof.
  intros Ht Hr Hv. unfold addTask. rewrite Ht, Hr. cbn [bind truthy before].
  destruct (Z.eqb_spec v 0); [contradiction|]. cbn [negb andb].
  split; intros Hc.
  - destruct (Z.ltb_spec v now); [reflexivity|lia].
  - destruct (Z.ltb_spec v now); [lia|]. eexists. repeat split.
Qed.

(** X2.  The same check at edit: a candidate other than 0 typed into the
    reminder prompt is refused with a toast and the state is kept when it is
    before [now], and is assigned to the found task, with [notifiedFor]
    cleared, when it is not. *)
Lemma editTask_past_check (taskId : string) (promptText promptReminder : string -> option string)
    (now : Z) (st : State) (task : Task) (nextText shown rawReminder : string) (v : Z) :
  find (hasId taskId) (tasks st) = Some task ->
  promptText (text task) = Some nextText -> isEmpty (trim nextText) = false ->
  match reminderAt task with
  | Some r => if truthy (Some r)
              then formatForReminderPrompt (timezone (settings st)) r
              else Return ""
  | None => Return ""
  end = Return shown ->
  promptReminder shown = Some rawReminder ->
  parseReminderPromptValue (timezone (settings st)) rawReminder = Return (Ok (Some v)) ->
  v <> 0 ->
  (v < now ->
   editTask taskId promptText promptReminder now st
   = Return (st, [ShowToast MsgReminderInPast true])) /\
  (now <= v ->
   exists f,
     editTask taskId promptText promptReminder now st
     = Return (setTasks (updateFound taskId f (tasks st)) st, [SaveTasks; Render]) /\
     forall t, reminderAt (f t) = Some v /\ notifiedFor (f t) = None).
Proof.
  intros Hf Hp Ht Hs Hpr Hv Hne. unfold editTask. rewrite Hf, Hp, Ht, Hs.
  cbn [bind]. rewrite Hpr, Hv. cbn [bind truthy before].
  destruct (Z.eqb_spec v 0); [contradiction|]. cbn [negb andb].
  split; intros Hc.
  - destruct (Z.ltb_spec v now); [reflexivity|lia].
  - destruct (Z.ltb_spec v now); [lia|]. eexists. split; [reflexivity|].
    intros t0. cbn. auto.
Qed.

End WithTimeZones.

End HandlerFacts.

(** * The claims on concrete inputs *)

Module OnSamples.
Import Js Date App.

Lemma three_hours_bounded : boundedOffsets (fun _ => 3 * msPerHour).
Proof. intros t. unfold msPerHour, msPerDay. lia. Defined.

(** The first example of the specification: 09:30 on 2025-06-01 in
    Europe/Moscow is 06:30 UTC. *)
Lemma moscow_june_example :
  zonedLocalToUtcMs (tz := fixedOffsets) "2025-06-01T09:30" "Europe/Moscow"
  = Return (Some (Fin juneReminder)).
Proof. vm_compute. reflexivity. Qed.

Lemma refinable_june : refinable 1748770200000.
Proof. unfold refinable, year100, maxTime, msPerDay. lia. Defined.


Lemma refinable_rolled : refinable 1769999940000.
Proof. unfold refinable, year100, maxTime, msPerDay. lia. Defined.

(** C10 as stated fails: the string decomposes into the finite integers
    275760, 13, 32, 25, 99, and the conversion returns no instant: the naive
    UTC time of the components is past the last time value, and the formatter
    throws a RangeError in the first refinement. *)
Lemma far_rolled_date_throws :
  components "275760-13-32T25:99" = Some (275760, 13, 32, 25, 99) /\
  zonedLocalToUtcMs (tz := fixedOffsets) "275760-13-32T25:99" "Europe/Moscow"
  = Throw RangeError.
Proof. split; vm_compute; reflexivity. Qed.

Lemma spring_single : singleTransition springOffset springWall.
Proof.
  exists springChange, msPerHour, (2 * msPerHour).
  split; [unfold msPerHour, msPerDay; lia|].
  split; [unfold msPerHour, msPerDay; lia|].
  split; [reflexivity|]. split; [reflexivity|].
  intros t _. reflexivity.
Defined.

Lemma spring_shown : shownOnClock springOffset springWall.
Proof.
  exists (springWall - msPerHour).
  split; [unfold springWall, msPerHour, msPerDay; lia|reflexivity].
Defined.

Lemma spring_calendar : validCalendar (2025, 3, 30, 1, 30).
Proof.
  unfold validCalendar.
  change (DaysInMonth (isLeapYear 2025) (3 - 1)) with 31. lia.
Defined.

Lemma spring_year : 101 <= 2025 <= 275000.
Proof. lia. Defined.

(** In the zone that springs forward the first guess lands after the change
    and the second before it; the third is the instant aimed at. *)
Lemma roundTrip_reproduces_witness :
  utcOffset (TimeZones := springForward) "Test/Spring" = Some springOffset /\
  validCalendar (2025, 3, 30, 1, 30) /\
  101 <= 2025 <= 275000 /\
  singleTransition springOffset (MakeDate (MakeDay 2025 (3 - 1) 30) (MakeTime 1 30 0 0)) /\
  shownOnClock springOffset (MakeDate (MakeDay 2025 (3 - 1) 30) (MakeTime 1 30 0 0)) /\
  roundTrip (tz := springForward) "Test/Spring" (2025, 3, 30, 1, 30)
  = Return (Some {| year := 2025; month := 3; day := 30;
                    hour := 1; minute := 30; second := 0 |}).
Proof.
  split; [reflexivity|]. split; [exact spring_calendar|]. split; [exact spring_year|].
  split; [exact spring_single|]. split; [exact spring_shown|].
  exact (ConversionFacts.roundTrip_reproduces (tz := springForward)
           "Test/Spring" springOffset 2025 3 30 1 30
           eq_refl spring_calendar spring_year spring_single spring_shown).
Defined.

(** C4 as stated fails: 09:30 on the first of June of the year 50 is within
    the calendar ranges and Europe/Moscow has no gap or overlap there; the
    prompt prints the year as 50, [Date.UTC] reads a year of 0..99 as
    1900 + year, and the parts that come back are those of the year 1950. *)
Lemma two_digit_year_comes_back_1950 :
  validCalendar (50, 6, 1, 9, 30) /\
  formatParts {| year := 50; month := 6; day := 1; hour := 9; minute := 30; second := 0 |}
  = "50-06-01 09:30" /\
  roundTrip (tz := fixedOffsets) "Europe/Moscow" (50, 6, 1, 9, 30)
  = Return (Some {| year := 1950; month := 6; day := 1;
                    hour := 9; minute := 30; second := 0 |}).
Proof.
  split.
  - unfold validCalendar. change (DaysInMonth (isLeapYear 50) (6 - 1)) with 30. lia.
  - split; vm_compute; reflexivity.
Qed.

(** C5: the code at the failing input.  With the clock at 2025-05-23, the
    reminder 1970-01-01 03:00 in Europe/Moscow is the instant 0, before the
    clock; [addTask] stores it and [editTask] stores it, with no toast,
    because the check tests the truthiness of the instant before comparing
    it; the parser of the backend variant, which compares every finite
    instant, refuses the same input.  The reminder of one minute later, the
    instant 60000, is refused by [addTask]. *)
Theorem epoch_reminder_passes_past_check :
  let now := 1748000000000 in
  let st := sampleState 0 [sampleTask None None] in
  zonedLocalToUtcMs (tz := fixedOffsets) "1970-01-01T03:00" "Europe/Moscow"
  = Return (Some (Fin 0)) /\
  0 < now /\
  addTask (tz := fixedOffsets) "pay rent" "1970-01-01T03:00" now now "a1b2" st
  = Return (setTasks ({| id := "a1b2"; text := "pay rent"; done := false; createdAt := now;
                         reminderAt := Some 0; notifiedFor := None |} :: tasks st) st,
            [SaveTasks; ClearInputs; Render]) /\
  editTask (tz := fixedOffsets) "7f9c" (fun shown => Some shown)
           (fun _ => Some "1970-01-01 03:00") now st
  = Return (setTasks [sampleTask (Some 0) None] st, [SaveTasks; Render]) /\
  parseReminderFromInput (tz := fixedOffsets) "Europe/Moscow" "1970-01-01T03:00" now
  = Return (NotOk MsgReminderInPast) /\
  addTask (tz := fixedOffsets) "pay rent" "1970-01-01T03:01" now now "a1b2" st
  = Return (st, [ShowToast MsgReminderInPast true]).
Proof. cbv zeta. repeat split; vm_compute; reflexivity. Qed.

Lemma sample_wellKeyed :
  wellKeyed (sampleState 10 [sampleTask (Some juneReminder) (Some (juneReminder - 600000))]).
Proof.
  split; [|cbn; lia].
  constructor; [|constructor].
  exists juneReminder, 10. repeat split; lia.
Defined.

(** C7 as stated fails: the task was notified for the trigger of a lead time
    of 10 minutes; the lead time is changed to 5 minutes a minute later, which
    moves the trigger of the task; [notifiedFor] is not reset to [null], it
    keeps the trigger of the old lead time. *)
Lemma lead_change_keeps_stale_key :
  let task := sampleTask (Some juneReminder) (Some (computeTrigger juneReminder 10)) in
  let st := sampleState 10 [task] in
  let st' := fst (onNotifyBeforeChange "5" (juneReminder - 540000) st) in
  notifyBeforeMinutes (settings st') = 5 /\
  computeTrigger juneReminder 5 <> computeTrigger juneReminder 10 /\
  map notifiedFor (tasks st') = [Some (computeTrigger juneReminder 10)] /\
  map notifiedFor (tasks st') <> [None].
Proof.
  cbv zeta. split; [reflexivity|]. split; [vm_compute; discriminate|].
  split; [reflexivity|]. vm_compute. discriminate.
Qed.

(** The examples of the specification, on the platform with the fixed
    offsets: (1) 09:30 on 2025-06-01 in Europe/Moscow is 06:30 UTC; (2) with
    a lead time of 10 minutes the trigger is 06:20 UTC, and the check is
    silent at 06:19:59 and fires at 06:20:00; (3) a later check at 06:25 is
    silent; (4) an edit of the reminder clears [notifiedFor]; (5) the reminder
    2025-01-01 00:00 is refused once that instant is past, and the state is
    kept. *)
Lemma specification_examples :
  let task := sampleTask (Some juneReminder) None in
  let st := sampleState 10 [task] in
  let notified := setNotifiedFor (Some 1748758800000) task in
  zonedLocalToUtcMs (tz := fixedOffsets) "2025-06-01T09:30" "Europe/Moscow"
  = Return (Some (Fin juneReminder)) /\
  computeTrigger juneReminder 10 = 1748758800000 /\
  checkReminders 1748758799000 st = (st, []) /\
  checkReminders 1748758800000 st
  = (sampleState 10 [notified], [EmitReminder task; SaveTasks; Render]) /\
  checkReminders 1748759100000 (sampleState 10 [notified]) = (sampleState 10 [notified], []) /\
  editTask (tz := fixedOffsets) "7f9c" (fun shown => Some shown)
           (fun _ => Some "2025-06-02 09:30") 1748759100000 (sampleState 10 [notified])
  = Return (sampleState 10 [sampleTask (Some (juneReminder + 86400000)) None],
            [SaveTasks; Render]) /\
  addTask (tz := fixedOffsets) "pay rent" "2025-01-01T00:00" 1748000000000 1748000000000
          "a1b2" st
  = Return (st, [ShowToast MsgReminderInPast true]).
Proof. cbv zeta. repeat split; vm_compute; reflexivity. Qed.

Lemma june_nonzero : juneReminder <> 0.
Proof. discriminate. Defined.

Lemma addTask_past_check_witness :
  let st := sampleState 0 [] in
  isEmpty (trim "pay rent") = false /\
  currentReminderInputToUtc (tz := fixedOffsets) (timezone (settings st)) "2025-06-01T09:30"
  = Return (Ok (Some juneReminder)) /\
  juneReminder <> 0 /\ juneReminder < 1749000000000 /\
  addTask (tz := fixedOffsets) "pay rent" "2025-06-01T09:30" 1749000000000 1749000000000
          "a1b2" st
  = Return (st, [ShowToast MsgReminderInPast true]).
Proof.
  split; [reflexivity|]. split; [reflexivity|]. split; [exact june_nonzero|].
  split; [reflexivity|].
  exact (proj1 (HandlerFacts.addTask_past_check (tz := fixedOffsets)
                  "pay rent" "2025-06-01T09:30" 1749000000000 1749000000000 "a1b2"
                  (sampleState 0 []) juneReminder eq_refl eq_refl june_nonzero) eq_refl).
Defined.

Lemma editTask_past_check_witness :
  let st := sampleState 0 [sampleTask None None] in
  let promptText := fun shown : string => Some shown in
  let promptReminder := fun _ : string => Some "2025-06-01 09:30" in
  find (hasId "7f9c") (tasks st) = Some (sampleTask None None) /\
  isEmpty (trim "call the bank") = false /\
  parseReminderPromptValue (tz := fixedOffsets) (timezone (settings st)) "2025-06-01 09:30"
  = Return (Ok (Some juneReminder)) /\
  juneReminder <> 0 /\ juneReminder < 1749000000000 /\
  editTask (tz := fixedOffsets) "7f9c" promptText promptReminder 1749000000000 st
  = Return (st, [ShowToast MsgReminderInPast true]).
Proof.
  split; [reflexivity|]. split; [reflexivity|]. split; [reflexivity|].
  split; [exact june_nonzero|]. split; [reflexivity|].
  exact (proj1 (HandlerFacts.editTask_past_check (tz := fixedOffsets)
                  "7f9c" (fun shown => Some shown) (fun _ => Some "2025-06-01 09:30")
                  1749000000000 (sampleState 0 [sampleTask None None])
                  (sampleTask None None) "call the bank" "" "2025-06-01 09:30" juneReminder
                  eq_refl eq_refl eq_refl eq_refl eq_refl eq_refl june_nonzero) eq_refl).
Defined.

End OnSamples.

(** * The page: escaping and filtering *)

Module PageFacts.
Import Js App Page.

Lemma replaceAll_app (c : ascii) (r a b : string) :
  replaceAll c r (a ++ b) = replaceAll c r a ++ replaceAll c r b.
Proof.
  induction a as [|d a IH]; simpl; [reflexivity|].
  destruct (Ascii.eqb d c); simpl; rewrite IH; [rewrite JsFacts.append_assoc|]; reflexivity.
Qed.

Lemma escapeChar_cases (c : ascii) :
  (isMarkup c = false /\ escapeChar c = String c "") \/
  (c = "&"%char /\ escapeChar c = "&amp;") \/
  (c = "<"%char /\ escapeChar c = "&lt;") \/
  (c = ">"%char /\ escapeChar c = "&gt;") \/
  (c = dquote /\ escapeChar c = "&quot;") \/
  (c = "'"%char /\ escapeChar c = "&#039;").
Proof.
  unfold escapeChar, isMarkup.
  destruct (Ascii.eqb_spec c "&"); [subst; auto|].
  destruct (Ascii.eqb_spec c "<"); [subst; auto 6|].
  destruct (Ascii.eqb_spec c ">"); [subst; auto 6|].
  destruct (Ascii.eqb_spec c dquote); [subst; auto 7|].
  destruct (Ascii.eqb_spec c "'"); [subst; auto 8|].
  left; split; reflexivity.
Qed.

Lemma escapeHtml_cons (c : ascii) (s : string) :
  escapeHtml (String c s) = escapeChar c ++ escapeHtml s.
Proof.
  unfold escapeHtml.
  destruct (escapeChar_cases c) as [[Hm Hc]|Hc].
  - rewrite Hc. unfold isMarkup in Hm.
    repeat (apply orb_false_elim in Hm; destruct Hm as [Hm ?]).
    simpl. rewrite Hm. simpl.
    repeat match goal with H : Ascii.eqb c _ = false |- _ => rewrite H; clear H; simpl end.
    reflexivity.
  - destruct Hc as [[-> ->]|[[-> ->]|[[-> ->]|[[-> ->]|[-> ->]]]]]; reflexivity.
Qed.

(** [escapeHtml] works code unit by code unit: the later replacements do not
    touch what the earlier ones wrote. *)
Lemma escapeHtml_by_char (s : string) : escapeHtml s = escapeEach s.
Proof.
  induction s as [|c s IH]; [reflexivity|].
  rewrite escapeHtml_cons, IH. reflexivity.
Qed.

Lemma includes_escapeChar (c d : ascii) :
  isMarkup c = true -> c <> "&"%char -> includes c (escapeChar d) = false.
Proof.
  intros Hc Hamp.
  assert (Hcases : c = "<"%char \/ c = ">"%char \/ c = dquote \/ c = "'"%char).
  { unfold isMarkup in Hc.
    destruct (Ascii.eqb_spec c "&"); [contradiction|].
    destruct (Ascii.eqb_spec c "<"); [auto|].
    destruct (Ascii.eqb_spec c ">"); [auto|].
    destruct (Ascii.eqb_spec c dquote); [auto|].
    destruct (Ascii.eqb_spec c "'"); [auto|discriminate]. }
  destruct (escapeChar_cases d) as [[Hm Hd]|Hd].
  - rewrite Hd. simpl. rewrite orb_false_r.
    destruct (Ascii.eqb_spec d c); [subst d; congruence|reflexivity].
  - destruct Hd as [[-> ->]|[[-> ->]|[[-> ->]|[[-> ->]|[-> ->]]]]];
      destruct Hcases as [-> | [-> | [-> | ->]]]; reflexivity.
Qed.

(** X3.  the escaped text holds none of the code units that open or close a
    tag or an attribute value: no less-than sign, no greater-than sign, no
    double quote and no apostrophe, whatever the text was. *)
Theorem escapeHtml_leaves_no_markup (value : string) :
  includes "<" (escapeHtml value) = false /\
  includes ">" (escapeHtml value) = false /\
  includes dquote (escapeHtml value) = false /\
  includes "'" (escapeHtml value) = false.
Proof.
  rewrite escapeHtml_by_char.
  induction value as [|c s [IH1 [IH2 [IH3 IH4]]]]; [repeat split|].
  simpl. rewrite !JsFacts.includes_append, IH1, IH2, IH3, IH4, !orb_false_r.
  repeat split; apply includes_escapeChar; (reflexivity || discriminate).
Qed.

Lemma escapeChar_first (c d : ascii) (a b : string) :
  escapeChar c ++ a = escapeChar d ++ b -> c = d /\ a = b.
Proof.
  intros H.
  destruct (escapeChar_cases c) as [[Hmc Hc]|Hc], (escapeChar_cases d) as [[Hmd Hd]|Hd].
  - rewrite Hc, Hd in H. simpl in H. injection H as -> ->. split; reflexivity.
  - exfalso.
    destruct Hd as [[-> Hd]|[[-> Hd]|[[-> Hd]|[[-> Hd]|[-> Hd]]]]];
      rewrite Hc, Hd in H; simpl in H; injection H as -> _; discriminate Hmc.
  - exfalso.
    destruct Hc as [[-> Hc]|[[-> Hc]|[[-> Hc]|[[-> Hc]|[-> Hc]]]]];
      rewrite Hc, Hd in H; simpl in H; injection H as <- _; discriminate Hmd.
  - destruct Hc as [[-> Hc]|[[-> Hc]|[[-> Hc]|[[-> Hc]|[-> Hc]]]]];
      destruct Hd as [[-> Hd]|[[-> Hd]|[[-> Hd]|[[-> Hd]|[-> Hd]]]]];
      rewrite Hc in H; try rewrite Hd in H; simpl in H;
      first [ discriminate H | injection H as ->; split; reflexivity ].
Qed.

Lemma escapeChar_not_empty (c : ascii) (a : string) : escapeChar c ++ a <> "".
Proof.
  destruct (escapeChar_cases c) as [[_ Hc]|Hc];
    [|destruct Hc as [[_ Hc]|[[_ Hc]|[[_ Hc]|[[_ Hc]|[_ Hc]]]]]];
    rewrite Hc; discriminate.
Qed.

(** X4.  escaping loses nothing: two texts with the same escaped form are the
    same text. *)
Theorem escapeHtml_injective (a b : string) : escapeHtml a = escapeHtml b -> a = b.
Proof.
  rewrite !escapeHtml_by_char. revert b.
  induction a as [|c a IH]; intros [|d b] H; simpl in H.
  - reflexivity.
  - symmetry in H. destruct (escapeChar_not_empty _ _ H).
  - destruct (escapeChar_not_empty _ _ H).
  - apply escapeChar_first in H. destruct H as [-> H]. f_equal. apply IH, H.
Qed.

Lemma escapeHtml_injective_witness :
  escapeHtml "a<b" = escapeHtml "a<b" /\ "a<b" = "a<b".
Proof.
  split; [reflexivity|]. apply (escapeHtml_injective "a<b" "a<b"). reflexivity.
Defined.

Lemma filter_lengths (keep : Task -> bool) (l : list Task) :
  (List.length (filter (fun task => negb (keep task)) l) + List.length (filter keep l)
   = List.length l)%nat.
Proof.
  induction l as [|task l IH]; [reflexivity|].
  simpl. destruct (keep task); simpl; lia.
Qed.

(** X5.  the filters "active" and "done" split the list: every task is
    shown under exactly one of them, the two counts add up to the total of the
    statistics line, the order of the tasks is kept, and any other filter
    shows all the tasks. *)
Theorem getVisibleTasks_splits (l : list Task) :
  (forall task, In task (getVisibleTasks "active" l) <-> In task l /\ done task = false) /\
  (forall task, In task (getVisibleTasks "done" l) <-> In task l /\ done task = true) /\
  (List.length (getVisibleTasks "active" l) + List.length (getVisibleTasks "done" l)
   = snd (stats l))%nat /\
  List.length (getVisibleTasks "active" l) = fst (stats l) /\
  (forall filter, filter <> "active" -> filter <> "done" -> getVisibleTasks filter l = l).
Proof.
  unfold getVisibleTasks, stats. simpl.
  split; [|split; [|split; [|split]]].
  - intros task. rewrite filter_In, negb_true_iff. reflexivity.
  - intros task. rewrite filter_In. reflexivity.
  - apply (filter_lengths done).
  - reflexivity.
  - intros filter Ha Hd.
    destruct (String.eqb_spec filter "active"); [contradiction|].
    destruct (String.eqb_spec filter "done"); [contradiction|]. reflexivity.
Qed.

Lemma filter_filter (keep : Task -> bool) (l : list Task) :
  filter keep (filter keep l) = filter keep l.
Proof.
  induction l as [|task l IH]; [reflexivity|].
  simpl. destruct (keep task) eqn:E; simpl; [rewrite E, IH|]; auto.
Qed.

Lemma filter_none (keep : Task -> bool) (l : list Task) :
  filter keep (filter (fun task => negb (keep task)) l) = [].
Proof.
  induction l as [|task l IH]; [reflexivity|].
  simpl. destruct (keep task) eqn:E; simpl; [|rewrite E]; auto.
Qed.

(** X6.  after [clearDone] the state holds exactly the open tasks of
    before, in their order: the filter "done" shows nothing, the filter
    "active" shows what it showed, the settings are untouched, and a second
    [clearDone] changes nothing. *)
Theorem clearDone_keeps_open_tasks (st : State) :
  let st' := fst (clearDone st) in
  tasks st' = getVisibleTasks "active" (tasks st) /\
  getVisibleTasks "done" (tasks st') = [] /\
  getVisibleTasks "active" (tasks st') = getVisibleTasks "active" (tasks st) /\
  settings st' = settings st /\
  fst (clearDone st') = st'.
Proof.
  unfold clearDone, getVisibleTasks, setTasks. simpl. repeat split.
  - apply (filter_none done).
  - apply filter_filter.
  - rewrite filter_filter. reflexivity.
Qed.

End PageFacts.

(** * The stored tasks *)

Module StorageFacts.
Import Js App Storage.

Lemma substring_length (n : nat) : forall s : string,
  (String.length (substring 0 n s) <= n)%nat.
Proof.
  induction n as [|n IH]; intros [|c s]; simpl; try lia.
  specialize (IH s). lia.
Qed.

Lemma substring_all (n : nat) : forall s : string,
  (String.length s <= n)%nat -> substring 0 n s = s.
Proof.
  induction n as [|n IH]; intros [|c s] H; simpl in *; try reflexivity; try lia.
  f_equal. apply IH. lia.
Qed.

Lemma slice0_head (n : nat) (c : ascii) (s : string) :
  slice0 (S n) (String c s) = String c (slice0 n s).
Proof. reflexivity. Qed.

Lemma trimStart_starts (s : string) : startsNonWs (trimStart s) = true.
Proof.
  induction s as [|c s IH]; [reflexivity|].
  simpl. destruct (isWhiteSpace c) eqn:E; [exact IH|]. simpl. now rewrite E.
Qed.

Lemma trimStart_suffix (s : string) : exists w, s = w ++ trimStart s.
Proof.
  induction s as [|c s [w IH]]; [now exists ""|].
  simpl. destruct (isWhiteSpace c).
  - exists (String c w). simpl. now rewrite <- IH.
  - now exists "".
Qed.

Lemma rev_string_append (a : string) : forall b acc : string,
  rev_string (a ++ b) acc = rev_string b (rev_string a acc).
Proof. induction a as [|c a IH]; intros b acc; simpl; [reflexivity|apply IH]. Qed.

Lemma rev_string_acc (s : string) : forall acc : string,
  rev_string s acc = rev_string s "" ++ acc.
Proof.
  induction s as [|c s IH]; intros acc; simpl; [reflexivity|].
  rewrite (IH (String c acc)), (IH (String c "")), JsFacts.append_assoc. reflexivity.
Qed.

(** [trimEnd] cuts at the end only. *)
Lemma trimEnd_prefix (s : string) : exists w, s = trimEnd s ++ w.
Proof.
  unfold trimEnd.
  destruct (trimStart_suffix (rev_string s "")) as [w Hw].
  exists (rev_string w "").
  rewrite <- rev_string_acc, <- rev_string_append, <- Hw.
  rewrite JsFacts.rev_string_twice. simpl. now rewrite JsFacts.append_nil_r.
Qed.

Lemma trim_starts (s : string) : startsNonWs (trim s) = true.
Proof.
  unfold trim.
  destruct (trimEnd_prefix (trimStart s)) as [w Hw].
  pose proof (trimStart_starts s) as Hs. rewrite Hw in Hs.
  destruct (trimEnd (trimStart s)); [reflexivity|exact Hs].
Qed.

Lemma slice0_shape (s : string) :
  s <> "" -> startsNonWs s = true -> textShape (slice0 MAX_TEXT_LENGTH s).
Proof.
  intros Hne Hs. destruct s as [|c s]; [contradiction|]. unfold textShape.
  change MAX_TEXT_LENGTH with (S 299). rewrite slice0_head.
  split; [discriminate|split; [|exact Hs]].
  simpl String.length. pose proof (substring_length 299 s). unfold slice0. lia.
Qed.

Lemma isEmpty_false (s : string) : isEmpty s = false <-> s <> "".
Proof. destruct s; simpl; split; congruence. Qed.

Section WithStringToNumber.
Variable stringToNumber : string -> number.

Lemma normalizeTask_text (raw : value) (uuid : string) (now : Z) (task : StoredTask) :
  normalizeTask stringToNumber raw uuid now = Some task -> textShape (sText task).
Proof.
  unfold normalizeTask.
  destruct (getProp raw "text") as [| |b|n|s|items|fields]; try discriminate.
  destruct (isEmpty (slice0 MAX_TEXT_LENGTH (trim s))) eqn:E; [discriminate|].
  intros [= <-]. simpl.
  apply slice0_shape; [|apply trim_starts].
  intros Hempty. rewrite Hempty in E. discriminate E.
Qed.

Lemma normalizeFrom_texts (uuid : nat -> string) (clock : nat -> Z) (items : list value) :
  forall i : nat,
  Forall (fun task => textShape (sText task)) (normalizeFrom stringToNumber uuid clock i items) /\
  (List.length (normalizeFrom stringToNumber uuid clock i items) <= List.length items)%nat.
Proof.
  induction items as [|raw items IH]; intros i; simpl; [split; [constructor|lia]|].
  destruct (IH (S i)) as [IH1 IH2].
  destruct (normalizeTask stringToNumber raw (uuid i) (clock i)) as [task|] eqn:E.
  - split; [constructor; [eapply normalizeTask_text, E|exact IH1]|simpl; lia].
  - split; [exact IH1|lia].
Qed.

(** X7.  whatever the storage holds, every task that [loadTasks] returns has
    a text that is not empty, has at most 300 code units and does not start
    with white space; an entry without such a text is dropped, so no more
    tasks come out than entries were stored, and a stored value that is not
    an array gives no task. *)
Theorem loadTasks_texts (parsed : option value) (uuid : nat -> string) (clock : nat -> Z) :
  Forall (fun task => textShape (sText task)) (loadTasks stringToNumber parsed uuid clock) /\
  (List.length (loadTasks stringToNumber parsed uuid clock)
   <= match loadJson parsed (Arr []) with
      | Arr items => List.length items
      | _ => 0
      end)%nat.
Proof.
  unfold loadTasks.
  destruct (loadJson parsed (Arr [])); try (split; [constructor|simpl; lia]).
  apply normalizeFrom_texts.
Qed.

Lemma normalizeTask_taskValue (task : Task) (uuid : string) (now : Z) :
  storable task = true ->
  normalizeTask stringToNumber (taskValue task) uuid now = Some (storedOf (reloaded task)).
Proof.
  unfold storable. intros H.
  apply andb_prop in H. destruct H as [H Hcreated].
  apply andb_prop in H. destruct H as [H Hid].
  apply andb_prop in H. destruct H as [H Hlen].
  apply andb_prop in H. destruct H as [Htrim Htext].
  apply String.eqb_eq in Htrim. apply Nat.leb_le in Hlen.
  apply negb_true_iff in Htext, Hid, Hcreated.
  unfold normalizeTask.
  change (getProp (taskValue task) "text") with (Str (text task)).
  change (getProp (taskValue task) "id") with (Str (id task)).
  change (getProp (taskValue task) "done") with (Bool (done task)).
  change (getProp (taskValue task) "createdAt") with (Num (createdAt task)).
  change (getProp (taskValue task) "reminderAt") with (nullable (reminderAt task)).
  change (getProp (taskValue task) "notifiedFor") with (nullable (notifiedFor task)).
  cbv beta iota.
  rewrite Htrim. unfold slice0. rewrite (substring_all _ _ Hlen), Htext, Hid.
  unfold finiteOrNull. cbn [toNumber]. cbv beta iota. rewrite Hcreated.
  unfold storedOf, reloaded. simpl. f_equal. f_equal.
  - destruct (reminderAt task); reflexivity.
  - destruct (notifiedFor task); reflexivity.
Qed.

(** X8.  what [saveTasks] wrote, [loadTasks] reads back: tasks whose text is
    trimmed, not empty and of at most 300 code units, whose identifier is not
    empty and whose creation time is not 0 come back in their order with the
    same identifier, text, state and creation time, whatever fresh
    identifiers and clock readings are at hand; a [null] reminder and a
    [null] notification key come back as 0. *)
Theorem saved_tasks_load_back (l : list Task) (uuid : nat -> string) (clock : nat -> Z) :
  forallb storable l = true ->
  loadTasks stringToNumber (Some (tasksValue l)) uuid clock
  = map (fun task => storedOf (reloaded task)) l.
Proof.
  unfold loadTasks, tasksValue. simpl loadJson. generalize 0%nat.
  induction l as [|task l IH]; intros i H; [reflexivity|].
  simpl in H. apply andb_prop in H. destruct H as [Htask Hl].
  simpl. rewrite (normalizeTask_taskValue _ _ _ Htask), (IH _ Hl). reflexivity.
Qed.

End WithStringToNumber.

(** X9.  a task saved and loaded again is checked as before: [checkTask]
    fires on the reloaded task when it fires on the task and leaves the same
    key, with one exception, the open task that was never notified and whose
    trigger instant is 0 (a reminder equal to the lead time): its [null] key
    comes back as 0, which is its trigger, so the reminder is taken as
    sent. *)
Theorem reload_keeps_reminders (now leadMs : Z) (task : Task) :
  checkTask now leadMs (reloaded task)
  = (reloaded (fst (checkTask now leadMs task)), snd (checkTask now leadMs task))
  <-> ~ (done task = false /\ notifiedFor task = None /\ reminderAt task = Some leadMs /\
         leadMs <> 0 /\ 0 <= now).
Proof.
  destruct task as [i t d c r n]. unfold checkTask, reloaded, truthy, setNotifiedFor. simpl.
  destruct d; simpl.
  { split; [intros _ [H _]; discriminate H|reflexivity]. }
  destruct r as [r|]; simpl.
  2:{ split; [intros _ [_ [_ [H _]]]; discriminate H|reflexivity]. }
  destruct (Z.eqb_spec r 0) as [->|Hr]; simpl.
  { split; [intros _ [_ [_ [H [H0 _]]]]; injection H as <-; now apply H0|reflexivity]. }
  destruct (Z.ltb_spec now (r - leadMs)) as [Hlt|Hge].
  { split; [intros _ [_ [_ [H [_ H0]]]]; injection H as <-; lia|reflexivity]. }
  destruct n as [n|]; simpl.
  { destruct (n =? r - leadMs);
      (split; [intros _ [_ [H _]]; discriminate H|reflexivity]). }
  change (match r - leadMs with 0 => true | _ => false end) with (0 =? r - leadMs).
  destruct (Z.eqb_spec 0 (r - leadMs)) as [H0|H0].
  - split; [intros H1; discriminate H1|].
    intros Hn. exfalso. apply Hn. repeat split; try f_equal; lia.
  - split; [|reflexivity].
    intros _ [_ [_ [H _]]]. injection H as <-. lia.
Qed.

End StorageFacts.

(** * More on the reminder check *)

Module ReminderFacts.
Import Js App.

Lemma checkLoop_changed (now leadMs : Z) (l : list Task) :
  snd (checkLoop now leadMs l) = existsb (fun t => snd (checkTask now leadMs t)) l.
Proof.
  induction l as [|task l IH]; [reflexivity|].
  simpl. destruct (checkTask now leadMs task) as [task' fired].
  destruct (checkLoop now leadMs l) as [[rest' events] changed].
  simpl in *. destruct fired; simpl; [reflexivity|exact IH].
Qed.

Lemma existsb_filter (keep : Task -> bool) (l : list Task) :
  existsb keep l = match filter keep l with [] => false | _ => true end.
Proof.
  induction l as [|task l IH]; [reflexivity|].
  simpl. destruct (keep task); [reflexivity|exact IH].
Qed.

Lemma checkTask_fired_changes (now leadMs : Z) (task : Task) :
  snd (checkTask now leadMs task) = true -> fst (checkTask now leadMs task) <> task.
Proof.
  unfold checkTask.
  destruct (done task || negb (truthy (reminderAt task))); [discriminate|].
  destruct (reminderAt task) as [r|]; [|discriminate].
  destruct (now <? r - leadMs); [discriminate|].
  destruct (notifiedFor task) as [n|] eqn:En.
  - destruct (Z.eqb_spec n (r - leadMs)) as [|Hn]; [discriminate|].
    intros _ H. apply (f_equal notifiedFor) in H. simpl in H. congruence.
  - intros _ H. apply (f_equal notifiedFor) in H. simpl in H. congruence.
Qed.

Lemma checkTask_frame (now leadMs : Z) (task : Task) :
  setNotifiedFor None (fst (checkTask now leadMs task)) = setNotifiedFor None task.
Proof.
  destruct (snd (checkTask now leadMs task)) eqn:E.
  - destruct (AppFacts.checkTask_fired _ _ _ E) as [r [_ ->]]. reflexivity.
  - now rewrite (AppFacts.checkTask_quiet _ _ _ E).
Qed.

Lemma map_fixed (f : Task -> Task) (l : list Task) :
  map f l = l <-> forall task, In task l -> f task = task.
Proof.
  induction l as [|task l IH]; simpl.
  - split; [intros _ ? []|reflexivity].
  - split.
    + intros [= H1 H2] t [<-|Ht]; [exact H1|]. now apply IH.
    + intros H. f_equal; [apply H; now left|]. apply IH. intros t Ht. apply H. now right.
Qed.

Lemma filter_nil (keep : Task -> bool) (l : list Task) :
  filter keep l = [] <-> forall task, In task l -> keep task = false.
Proof.
  induction l as [|task l IH]; simpl.
  - split; [intros _ ? []|reflexivity].
  - destruct (keep task) eqn:E.
    + split; [discriminate|]. intros H. specialize (H task (or_introl eq_refl)). congruence.
    + rewrite IH. split.
      * intros H t [<-|Ht]; [exact E|now apply H].
      * intros H t Ht. apply H. now right.
Qed.

(** X10.  a reminder check touches nothing but the notification keys, and
    saves exactly when it changed one: the settings and every other field
    of every task stay; the events are the reminders of the tasks that fire,
    in the order of the list, followed by one [SaveTasks] and one [Render]
    when there is at least one such task and by nothing otherwise; and the
    list of tasks differs from the one before exactly when a reminder was
    emitted. *)
Theorem checkReminders_saves_what_it_changes (now : Z) (st : State) :
  let st' := fst (checkReminders now st) in
  let fired :=
    if notificationsEnabled (settings st)
    then filter (fun t => snd (checkTask now (notifyBeforeMinutes (settings st) * 60000) t))
                (tasks st)
    else [] in
  settings st' = settings st /\
  map (setNotifiedFor None) (tasks st') = map (setNotifiedFor None) (tasks st) /\
  snd (checkReminders now st)
  = (map EmitReminder fired ++ match fired with [] => [] | _ => [SaveTasks; Render] end)%list /\
  (tasks st' = tasks st <-> fired = []).
Proof.
  unfold checkReminders.
  destruct (notificationsEnabled (settings st)); simpl.
  2:{ repeat split; reflexivity. }
  pose proof (AppFacts.checkLoop_tasks now (notifyBeforeMinutes (settings st) * 60000) (tasks st))
    as Ht.
  pose proof (AppFacts.checkLoop_events now (notifyBeforeMinutes (settings st) * 60000) (tasks st))
    as He.
  pose proof (checkLoop_changed now (notifyBeforeMinutes (settings st) * 60000) (tasks st))
    as Hc.
  destruct (checkLoop now (notifyBeforeMinutes (settings st) * 60000) (tasks st))
    as [[tasks' events] changed].
  simpl in *. subst tasks' events changed.
  split; [reflexivity|]. split; [|split].
  - rewrite map_map. apply map_ext. intros t. apply checkTask_frame.
  - rewrite existsb_filter.
    destruct (filter _ (tasks st)); reflexivity.
  - rewrite map_fixed, filter_nil. split; intros H task Hin.
    + destruct (snd (checkTask now (notifyBeforeMinutes (settings st) * 60000) task)) eqn:E;
        [|reflexivity].
      destruct (checkTask_fired_changes _ _ _ E). now apply H.
    + apply AppFacts.checkTask_quiet. now apply H.
Qed.

Lemma checkTask_newly_due (now now' leadMs : Z) (task : Task) :
  snd (checkTask now leadMs task) = false -> snd (checkTask now' leadMs task) = true ->
  exists r, reminderAt task = Some r /\ now < r - leadMs <= now'.
Proof.
  unfold checkTask.
  destruct (done task || negb (truthy (reminderAt task))); [discriminate|].
  destruct (reminderAt task) as [r|]; [|discriminate].
  destruct (Z.ltb_spec now (r - leadMs)) as [Hlt|Hge],
           (Z.ltb_spec now' (r - leadMs)) as [Hlt'|Hge']; try discriminate.
  - intros _ _. exists r. split; [reflexivity|lia].
  - destruct (match notifiedFor task with Some n => n =? r - leadMs | None => false end);
      simpl; congruence.
Qed.

(** X11.  a second reminder check, at any instant and with nothing else done
    to the state in between, emits a reminder only for a task whose trigger
    instant lies after the first check and not after the second: no task is
    notified twice, and a check repeated at the same instant emits
    nothing. *)
Theorem later_check_only_newly_due (now now' : Z) (st : State) (task : Task) :
  In (EmitReminder task) (snd (checkReminders now' (fst (checkReminders now st)))) ->
  exists r, reminderAt task = Some r /\
            now < computeTrigger r (notifyBeforeMinutes (settings st)) <= now'.
Proof.
  destruct (notificationsEnabled (settings st)) eqn:En.
  2:{ rewrite (AppFacts.checkReminders_disabled _ _ En). simpl.
      rewrite (AppFacts.checkReminders_disabled _ _ En). intros []. }
  destruct (AppFacts.checkReminders_enabled now st En) as [Ht [Hs _]].
  assert (En1 : notificationsEnabled (settings (fst (checkReminders now st))) = true)
    by now rewrite Hs.
  destruct (AppFacts.checkReminders_enabled now' _ En1) as [_ [_ Hin]].
  intros H. apply Hin in H. destruct H as [Hmem Hfire].
  rewrite Hs in Hfire. rewrite Ht in Hmem.
  apply in_map_iff in Hmem. destruct Hmem as [t0 [Heq _]].
  destruct (snd (checkTask now (notifyBeforeMinutes (settings st) * 60000) t0)) eqn:E.
  - destruct (AppFacts.checkTask_fired _ _ _ E) as [r [Hr Hfst]].
    rewrite Hfst in Heq. subst task.
    rewrite (AppFacts.checkTask_settled now' _ r) in Hfire; [discriminate| |]; reflexivity || exact Hr.
  - rewrite (AppFacts.checkTask_quiet _ _ _ E) in Heq. subst t0.
    apply (checkTask_newly_due _ _ _ _ E Hfire).
Qed.

Lemma find_updateFound (taskId : string) (f : Task -> Task) (l : list Task) (task : Task) :
  find (hasId taskId) l = Some task -> id (f task) = id task ->
  find (hasId taskId) (updateFound taskId f l) = Some (f task) /\
  In (f task) (updateFound taskId f l).
Proof.
  intros Hfind Hid. induction l as [|item l IH]; [discriminate|].
  simpl in *. destruct (hasId taskId item) eqn:E.
  - injection Hfind as ->. simpl.
    unfold hasId in *. rewrite Hid, E. split; [reflexivity|now left].
  - simpl. rewrite E. destruct (IH Hfind) as [H1 H2]. split; [exact H1|now right].
Qed.

Lemma fires_when_due (now : Z) (st : State) (task : Task) (r : Z) :
  notificationsEnabled (settings st) = true -> In task (tasks st) ->
  done task = false -> reminderAt task = Some r -> r <> 0 ->
  computeTrigger r (notifyBeforeMinutes (settings st)) <= now ->
  notifiedFor task <> Some (computeTrigger r (notifyBeforeMinutes (settings st))) ->
  In (EmitReminder task) (snd (checkReminders now st)).
Proof.
  intros En Hin Hd Hr H0 Hdue Hkey.
  apply (AppFacts.checkReminders_enabled now st En). split; [exact Hin|].
  apply AppFacts.checkTask_fires. exists r. tauto.
Qed.

(** X12.  a change of the lead time notifies again: an open task that was
    notified under the lead time of before, and whose trigger instant under
    the new lead time is another one and is reached, gets its reminder
    emitted by the check that the change handler runs. *)
Theorem lead_change_notifies_again (inputValue : string) (now : Z) (st : State)
    (task : Task) (r : Z) :
  notificationsEnabled (settings st) = true ->
  In task (tasks st) -> done task = false -> reminderAt task = Some r -> r <> 0 ->
  notifiedFor task = Some (computeTrigger r (notifyBeforeMinutes (settings st))) ->
  clampInt (Str inputValue) 0 120 0 <> notifyBeforeMinutes (settings st) ->
  computeTrigger r (clampInt (Str inputValue) 0 120 0) <= now ->
  In (EmitReminder task) (snd (onNotifyBeforeChange inputValue now st)).
Proof.
  intros En Hin Hd Hr H0 Hkey Hlead Hdue.
  unfold onNotifyBeforeChange.
  set (st1 := {| tasks := tasks st; settings := _ |}).
  assert (H : In (EmitReminder task) (snd (checkReminders now st1))).
  { apply (fires_when_due now st1 task r); try assumption.
    rewrite Hkey. intros Heq. injection Heq as Heq.
    unfold computeTrigger, st1 in Heq. cbn [settings notifyBeforeMinutes] in Heq.
    apply Hlead. lia. }
  destruct (checkReminders now st1) as [st2 events]. simpl in *.
  right. right. apply in_or_app. now left.
Qed.

Lemma toggleTask_found (taskId : string) (d : bool) (st : State) (task : Task) :
  find (hasId taskId) (tasks st) = Some task ->
  fst (toggleTask taskId d st)
  = setTasks (updateFound taskId
                (fun t => if d then setNotifiedFor None (setDone d t) else setDone d t)
                (tasks st)) st.
Proof. intros H. unfold toggleTask. rewrite H. reflexivity. Qed.

(** X13.  completing a task and opening it again arms its reminder anew: the
    task comes back open and without its notification key, so the next check
    emits its reminder when the trigger instant is reached, also when the
    reminder had been sent before. *)
Theorem reopened_task_notifies_again (taskId : string) (now : Z) (st : State)
    (task : Task) (r : Z) :
  notificationsEnabled (settings st) = true ->
  find (hasId taskId) (tasks st) = Some task ->
  reminderAt task = Some r -> r <> 0 ->
  computeTrigger r (notifyBeforeMinutes (settings st)) <= now ->
  let st' := fst (toggleTask taskId false (fst (toggleTask taskId true st))) in
  let task' := setNotifiedFor None (setDone false task) in
  find (hasId taskId) (tasks st') = Some task' /\
  In (EmitReminder task') (snd (checkReminders now st')).
Proof.
  intros En Hfind Hr H0 Hdue. cbv zeta.
  rewrite (toggleTask_found taskId true st task Hfind).
  set (assign1 := fun t : Task => setNotifiedFor None (setDone true t)).
  destruct (find_updateFound taskId assign1 _ _ Hfind eq_refl) as [Hfind1 _].
  rewrite (toggleTask_found taskId false
             (setTasks (updateFound taskId assign1 (tasks st)) st) (assign1 task) Hfind1).
  simpl tasks.
  destruct (find_updateFound taskId (setDone false) _ _ Hfind1 eq_refl) as [Hfind2 Hin2].
  change (setDone false (assign1 task)) with (setNotifiedFor None (setDone false task)) in *.
  split; [exact Hfind2|].
  apply (fires_when_due now _ _ r).
  - exact En.
  - exact Hin2.
  - reflexivity.
  - exact Hr.
  - exact H0.
  - exact Hdue.
  - discriminate.
Qed.

End ReminderFacts.

(** * The parts of an instant in a zone, and the edit prompt *)

Module ZoneFacts.
Import Js Date App.

Lemma monthOfDay_spec (leap : bool) (d : Z) :
  0 <= d < (if leap then 366 else 365) ->
  monthStart leap (monthOfDay leap d) <= d < monthStart leap (monthOfDay leap d + 1).
Proof.
  intros Hd. unfold monthOfDay.
  destruct leap;
    repeat match goal with
           | |- context [if ?a <? monthStart ?b ?c then _ else _] =>
               let v := eval vm_compute in (monthStart b c) in
               change (monthStart b c) with v;
               destruct (Z.ltb_spec a v);
               [ match goal with
                 | |- ?L <= _ < ?R =>
                     let l := eval vm_compute in L in
                     let r := eval vm_compute in R in
                     change L with l; change R with r
                 end; lia | ]
           end;
    match goal with
    | |- ?L <= _ < ?R =>
        let l := eval vm_compute in L in
        let r := eval vm_compute in R in
        change L with l; change R with r
    end; lia.
Qed.

Lemma DayWithinYear_range (t : Z) :
  0 <= DayWithinYear t < (if isLeapYear (YearFromTime t) then 366 else 365).
Proof.
  unfold DayWithinYear, YearFromTime.
  pose proof (DateFacts.YearFromDay_spec (Day t)) as H.
  rewrite DateFacts.DayFromYear_step in H. unfold DaysInYear in H.
  destruct (isLeapYear (YearFromDay (Day t))); lia.
Qed.

Lemma DateFromTime_range (t : Z) :
  1 <= DateFromTime t <= DaysInMonth (isLeapYear (YearFromTime t)) (MonthFromTime t).
Proof.
  unfold DateFromTime, MonthFromTime, DaysInMonth.
  pose proof (monthOfDay_spec _ _ (DayWithinYear_range t)). lia.
Qed.

Lemma YearFromTime_upper (local : Z) : local <= maxTime -> YearFromTime local <= 275760.
Proof.
  intros H. unfold YearFromTime.
  assert (Hd : Day local <= Day maxTime).
  { unfold Day. apply Z.div_le_mono; [reflexivity|exact H]. }
  apply DateFacts.YearFromDay_mono in Hd.
  replace (YearFromDay (Day maxTime)) with 275760 in Hd by (vm_compute; reflexivity).
  exact Hd.
Qed.

Lemma minute_of_seconds (t : Z) : t mod 60000 = SecFromTime t * 1000 + t mod 1000.
Proof. unfold SecFromTime, msPerSecond. Z.div_mod_to_equations. lia. Qed.

Lemma MakeDate_minute_of_fields (t : Z) :
  MakeDate (MakeDay (YearFromTime t) (MonthFromTime t) (DateFromTime t))
           (MakeTime (HourFromTime t) (MinFromTime t) 0 0)
  = t - t mod 60000.
Proof.
  pose proof (DateFacts.MakeDate_of_fields t) as Hf.
  pose proof (minute_of_seconds t) as Hm.
  generalize dependent (MakeDay (YearFromTime t) (MonthFromTime t) (DateFromTime t)).
  generalize dependent (HourFromTime t). generalize dependent (MinFromTime t).
  generalize dependent (SecFromTime t).
  intros s Hm mi h d Hf.
  unfold MakeDate, MakeTime, msPerSecond in *. lia.
Qed.

Lemma UTC_minute_of_fields (local : Z) :
  year100 <= local <= maxTime ->
  UTC (YearFromTime local) (MonthFromTime local + 1 - 1) (DateFromTime local)
      (HourFromTime local) (MinFromTime local) 0 0
  = Fin (local - local mod 60000).
Proof.
  intros Hl. pose proof (ConversionFacts.YearFromTime_from_100 local (proj1 Hl)) as Hy.
  unfold UTC.
  destruct (Z.leb_spec (YearFromTime local) 99); [lia|]. rewrite andb_false_r.
  replace (MonthFromTime local + 1 - 1) with (MonthFromTime local) by lia.
  rewrite MakeDate_minute_of_fields. unfold TimeClip, validTime.
  pose proof (Z.mod_pos_bound local 60000 ltac:(lia)).
  unfold year100, maxTime in *.
  destruct (Z.leb_spec (Z.abs (local - local mod 60000)) 8640000000000000); [reflexivity|lia].
Qed.

Section WithTimeZones.
Context {tz : TimeZones}.

(** X14.  the parts that [getZoneParts] returns are those of a calendar date
    and a time of day: the month is 1..12, the day is at least 1 and at most
    the length of that month in the year of the local time, the hour is
    0..23, minute and second are 0..59, and the year is at least 1 (a year
    before the year 1 is shown by its number before the era). *)
Theorem getZoneParts_ranges (timestamp : number) (timeZone : string) (p : ZoneParts) :
  getZoneParts timestamp timeZone = Return p ->
  1 <= year p /\ 1 <= month p <= 12 /\ 1 <= day p <= 31 /\
  0 <= hour p <= 23 /\ 0 <= minute p <= 59 /\ 0 <= second p <= 59 /\
  exists y, (year p = y \/ (y <= 0 /\ year p = 1 - y)) /\
            day p <= DaysInMonth (isLeapYear y) (month p - 1).
Proof.
  unfold getZoneParts.
  destruct (utcOffset timeZone) as [offset|]; [|discriminate].
  destruct timestamp as [t| |]; try discriminate.
  destruct (validTime t); [|discriminate].
  set (local := t + offset t).
  remember (YearFromTime local) as y eqn:Ey.
  remember (if y <=? 0 then 1 - y else y) as shownYear eqn:Es.
  intros [= <-]. cbn [year month day hour minute second]. subst shownYear y.
  pose proof (DateFromTime_range local) as Hd.
  pose proof (DateFacts.monthOfDay_range (isLeapYear (YearFromTime local))
                (DayWithinYear local)) as Hm.
  fold (MonthFromTime local) in Hm.
  pose proof (ConversionFacts.DaysInMonth_le_31 (isLeapYear (YearFromTime local)) _ Hm) as H31.
  unfold HourFromTime, MinFromTime, SecFromTime.
  pose proof (Z.mod_pos_bound (local / msPerHour) 24 ltac:(lia)).
  pose proof (Z.mod_pos_bound (local / msPerMinute) 60 ltac:(lia)).
  pose proof (Z.mod_pos_bound (local / msPerSecond) 60 ltac:(lia)).
  repeat split; try lia.
  - destruct (Z.leb_spec (YearFromTime local) 0); lia.
  - exists (YearFromTime local). split.
    + destruct (Z.leb_spec (YearFromTime local) 0); [right|left]; lia.
    + replace (MonthFromTime local + 1 - 1) with (MonthFromTime local) by lia. lia.
Qed.

(** X15.  the offset that [zoneOffsetMs] computes is the offset of the zone
    less the milliseconds of the instant: the formatter drops them from the
    local time, so the result is the offset itself exactly at the instants
    that are whole seconds (the zone's offset being whole seconds). *)
Theorem zoneOffsetMs_drops_milliseconds (zone : string) (off : Z -> Z) (t : Z) :
  utcOffset zone = Some off -> validTime t = true ->
  year100 <= t + off t <= maxTime -> off t mod 1000 = 0 ->
  zoneOffsetMs zone (Fin t) = Return (Fin (off t - t mod 1000)) /\
  (zoneOffsetMs zone (Fin t) = Return (Fin (off t)) <-> t mod 1000 = 0).
Proof.
  intros Hz Hv Hl Ho.
  rewrite (ConversionFacts.zoneOffsetMs_value zone off t Hz Hv Hl).
  assert (E : seenOffset off t = off t - t mod 1000).
  { unfold seenOffset. cbv zeta. Z.div_mod_to_equations. lia. }
  rewrite E. split; [reflexivity|].
  split; [intros [= H]; lia|intros ->; do 2 f_equal; lia].
Qed.

End WithTimeZones.

End ZoneFacts.

(** * The edit prompt *)

Module PromptFacts.
Import Js Date App.

Section WithTimeZones.
Context {tz : TimeZones}.

(** In a zone whose offset [o] is whole seconds and does not change within
    three days of the instant [t], the text that the edit prompt proposes for
    [t] parses back to the start of the minute of [t] on the clock of the
    zone. *)
Lemma prompt_value (zone : string) (off : Z -> Z) (o t : Z) :
  utcOffset zone = Some off ->
  (forall u, Z.abs (u - t) <= 3 * msPerDay -> off u = o) ->
  Z.abs o <= msPerDay -> o mod 1000 = 0 ->
  year100 + 5 * msPerDay <= t <= maxTime - 5 * msPerDay ->
  exists shown,
    formatForReminderPrompt zone t = Return shown /\
    parseReminderPromptValue zone shown = Return (Ok (Some (t - (t + o) mod 60000))).
Proof.
  intros Hz Hconst Ho Hom Ht.
  assert (Hot : off t = o) by (apply Hconst; unfold msPerDay; lia).
  assert (Hv : validTime t = true).
  { unfold validTime. apply Z.leb_le. unfold year100, maxTime, msPerDay in *. lia. }
  assert (Hl : year100 <= t + o <= maxTime) by (unfold year100, maxTime, msPerDay in *; lia).
  unfold formatForReminderPrompt, getZoneParts. rewrite Hz, Hv, Hot.
  set (local := t + o) in *.
  pose proof (ConversionFacts.YearFromTime_from_100 local (proj1 Hl)) as Hy.
  pose proof (ZoneFacts.YearFromTime_upper local (proj2 Hl)) as Hyu.
  destruct (Z.leb_spec (YearFromTime local) 0) as [Hneg|_]; [lia|].
  cbn [bind]. eexists. split; [reflexivity|].
  pose proof (ZoneFacts.DateFromTime_range local) as Hd.
  pose proof (DateFacts.monthOfDay_range (isLeapYear (YearFromTime local))
                (DayWithinYear local)) as Hm.
  fold (MonthFromTime local) in Hm.
  pose proof (ConversionFacts.DaysInMonth_le_31 (isLeapYear (YearFromTime local)) _ Hm) as H31.
  pose proof (Z.mod_pos_bound (local / msPerHour) 24 ltac:(lia)) as Hh.
  pose proof (Z.mod_pos_bound (local / msPerMinute) 60 ltac:(lia)) as Hmi.
  fold (HourFromTime local) in Hh. fold (MinFromTime local) in Hmi.
  destruct (ConversionFacts.components_formatParts (YearFromTime local)
              (MonthFromTime local + 1) (DateFromTime local) (HourFromTime local)
              (MinFromTime local) (SecFromTime local))
    as (Htrim & Hne & HnoT & Hcomp); try lia.
  unfold parseReminderPromptValue. rewrite Htrim, Hne, HnoT.
  set (g0 := local - local mod 60000).
  assert (Hg : g0 mod 1000 = 0 /\ local - 59999 <= g0 <= local).
  { subst g0. Z.div_mod_to_equations. lia. }
  destruct (ConversionFacts.zonedLocalToUtcMs_value _ zone _ off g0 Hcomp Hz) as [Hval _].
  - intros u Hu. rewrite Hconst; [exact Ho|]. unfold msPerDay in *. lia.
  - apply ZoneFacts.UTC_minute_of_fields. exact Hl.
  - unfold refinable, year100, maxTime, msPerDay in *. lia.
  - rewrite Hval. cbn [bind finiteResult]. do 3 f_equal.
    assert (Hs : forall u, u mod 1000 = 0 -> Z.abs (u - t) <= 3 * msPerDay ->
                 seenOffset off u = o).
    { intros u Hu Hnear. rewrite ConversionFacts.seenOffset_whole; rewrite ?Hconst; auto. }
    assert (Hg1 : (g0 - o) mod 1000 = 0) by (Z.div_mod_to_equations; lia).
    cbn [refined].
    rewrite (Hs g0) by (try exact (proj1 Hg); unfold msPerDay in *; lia).
    rewrite (Hs (g0 - o)) by (try exact Hg1; unfold msPerDay in *; lia).
    rewrite (Hs (g0 - o)) by (try exact Hg1; unfold msPerDay in *; lia).
    subst g0 local. lia.
Qed.

(** X16.  the text that the edit prompt proposes for a reminder reads back
    as that reminder cut to its minute on the clock of the zone: in a zone
    whose offset is whole seconds and does not change within three days of
    the instant, formatting the instant and parsing the text gives an instant
    of the same minute, not after the instant and less than a minute before
    it; it is the instant itself when the instant is a whole minute and the
    offset is whole minutes. *)
Theorem prompt_reads_back_to_the_minute (zone : string) (off : Z -> Z) (o t : Z) :
  utcOffset zone = Some off ->
  (forall u, Z.abs (u - t) <= 3 * msPerDay -> off u = o) ->
  Z.abs o <= msPerDay -> o mod 1000 = 0 ->
  year100 + 5 * msPerDay <= t <= maxTime - 5 * msPerDay ->
  exists back,
    bind (formatForReminderPrompt zone t) (parseReminderPromptValue zone)
    = Return (Ok (Some back)) /\
    back = t - (t + o) mod 60000 /\
    back <= t < back + 60000 /\
    (o mod 60000 = 0 -> back = t - t mod 60000) /\
    (o mod 60000 = 0 -> t mod 60000 = 0 -> back = t).
Proof.
  intros Hz Hconst Ho Hom Ht.
  destruct (prompt_value zone off o t Hz Hconst Ho Hom Ht) as [shown [Hf Hp]].
  exists (t - (t + o) mod 60000). rewrite Hf. cbn [bind]. rewrite Hp.
  split; [reflexivity|]. split; [reflexivity|].
  pose proof (Z.mod_pos_bound (t + o) 60000 ltac:(lia)).
  split; [lia|]. split.
  - intros H60. Z.div_mod_to_equations. lia.
  - intros H60 Ht60. Z.div_mod_to_equations. lia.
Qed.

(** X17.  an overdue reminder blocks the edit of its task when the user
    confirms the proposed reminder: the proposed text reads back as an
    instant not after the reminder, hence before the clock, and [editTask]
    answers that the reminder cannot be in the past and changes nothing (the
    reminder being at least a minute after the epoch, in a zone as in
    X16). *)
Theorem overdue_reminder_blocks_edit (taskId : string)
    (promptText promptReminder : string -> option string) (now : Z) (st : State)
    (task : Task) (nextText : string) (off : Z -> Z) (o r : Z) :
  find (hasId taskId) (tasks st) = Some task ->
  promptText (text task) = Some nextText -> isEmpty (trim nextText) = false ->
  reminderAt task = Some r -> 60000 <= r <= maxTime - 5 * msPerDay -> r < now ->
  utcOffset (timezone (settings st)) = Some off ->
  (forall u, Z.abs (u - r) <= 3 * msPerDay -> off u = o) ->
  Z.abs o <= msPerDay -> o mod 1000 = 0 ->
  (forall proposed, promptReminder proposed = Some proposed) ->
  editTask taskId promptText promptReminder now st
  = Return (st, [ShowToast MsgReminderInPast true]).
Proof.
  intros Hfind Htext Hne Hr Hrange Hpast Hz Hconst Ho Hom Hconfirm.
  destruct (prompt_value (timezone (settings st)) off o r Hz Hconst Ho Hom) as [shown [Hf Hp]].
  { unfold year100, maxTime, msPerDay in *. lia. }
  unfold editTask. rewrite Hfind, Htext, Hne, Hr.
  assert (Htruthy : truthy (Some r) = true).
  { unfold truthy. destruct (Z.eqb_spec r 0); [lia|reflexivity]. }
  rewrite Htruthy, Hf. cbn [bind]. rewrite Hconfirm, Hp. cbn [bind].
  pose proof (Z.mod_pos_bound (r + o) 60000 ltac:(lia)) as Hmod.
  unfold truthy, before.
  destruct (Z.eqb_spec (r - (r + o) mod 60000) 0) as [H0|_]; [lia|].
  destruct (Z.ltb_spec (r - (r + o) mod 60000) now) as [_|Hge]; [reflexivity|lia].
Qed.

(** X18.  editing the text of a task arms its reminder anew: when the user
    changes the text and cancels the reminder prompt, the task keeps its
    reminder and loses its notification key, so the next check emits the
    reminder of an open task whose trigger instant is reached, also when it
    had been sent before. *)
Theorem edited_task_notifies_again (taskId : string)
    (promptText promptReminder : string -> option string) (now now' : Z) (st : State)
    (task : Task) (nextText shown : string) (r : Z) :
  notificationsEnabled (settings st) = true ->
  find (hasId taskId) (tasks st) = Some task ->
  promptText (text task) = Some nextText -> isEmpty (trim nextText) = false ->
  done task = false -> reminderAt task = Some r -> r <> 0 ->
  formatForReminderPrompt (timezone (settings st)) r = Return shown ->
  promptReminder shown = None ->
  computeTrigger r (notifyBeforeMinutes (settings st)) <= now' ->
  exists st' task',
    editTask taskId promptText promptReminder now st = Return (st', [SaveTasks; Render]) /\
    find (hasId taskId) (tasks st') = Some task' /\
    id task' = id task /\ text task' = slice0 MAX_TEXT_LENGTH (trim nextText) /\
    reminderAt task' = Some r /\ notifiedFor task' = None /\
    In (EmitReminder task') (snd (checkReminders now' st')).
Proof.
  intros En Hfind Htext Hne Hd Hr H0 Hf Hcancel Hdue.
  unfold editTask. rewrite Hfind, Htext, Hne, Hr.
  assert (Htruthy : truthy (Some r) = true).
  { unfold truthy. destruct (Z.eqb_spec r 0); [contradiction|reflexivity]. }
  rewrite Htruthy, Hf. cbn [bind]. rewrite Hcancel.
  set (assign := fun t : Task => {| id := id t; text := slice0 MAX_TEXT_LENGTH (trim nextText);
                                    done := done t; createdAt := createdAt t;
                                    reminderAt := Some r; notifiedFor := None |}).
  destruct (ReminderFacts.find_updateFound taskId assign _ _ Hfind eq_refl) as [Hfind' Hin'].
  exists (setTasks (updateFound taskId assign (tasks st)) st), (assign task).
  split; [reflexivity|]. split; [exact Hfind'|].
  repeat (split; [reflexivity|]).
  apply (ReminderFacts.fires_when_due now' _ _ r).
  - exact En.
  - exact Hin'.
  - exact Hd.
  - reflexivity.
  - exact H0.
  - exact Hdue.
  - discriminate.
Qed.

End WithTimeZones.

End PromptFacts.

(** * The state under the handlers *)

Module StateFacts.
Import Js App Storage.

Lemma textShape_slice0_trim (s : string) :
  isEmpty (trim s) = false -> textShape (slice0 MAX_TEXT_LENGTH (trim s)).
Proof.
  intros H. apply StorageFacts.slice0_shape; [|apply StorageFacts.trim_starts].
  now apply StorageFacts.isEmpty_false.
Qed.

Lemma Forall_checkReminders (P : Task -> Prop) (now : Z) (st : State) :
  (forall t v, P t -> P (setNotifiedFor v t)) ->
  Forall P (tasks st) -> Forall P (tasks (fst (checkReminders now st))).
Proof.
  intros HP H.
  destruct (notificationsEnabled (settings st)) eqn:En.
  - destruct (AppFacts.checkReminders_enabled now st En) as [-> _].
    apply Forall_map. eapply Forall_impl; [|exact H].
    intros t Ht. cbv beta.
    destruct (snd (checkTask now (notifyBeforeMinutes (settings st) * 60000) t)) eqn:E.
    + destruct (AppFacts.checkTask_fired _ _ _ E) as [r [_ ->]]. now apply HP.
    + now rewrite (AppFacts.checkTask_quiet _ _ _ E).
  - now rewrite (AppFacts.checkReminders_disabled _ _ En).
Qed.

Lemma checkReminders_settings (now : Z) (st : State) :
  settings (fst (checkReminders now st)) = settings st.
Proof.
  destruct (notificationsEnabled (settings st)) eqn:En.
  - apply (AppFacts.checkReminders_enabled now st En).
  - now rewrite (AppFacts.checkReminders_disabled _ _ En).
Qed.

Lemma setTasks_same (st : State) : setTasks (tasks st) st = st.
Proof. destruct st; reflexivity. Qed.

Section WithTimeZones.
Context {tz : TimeZones}.

Lemma addTask_text (taskInput reminderInput : string) (now created : Z) (uuid : string)
    (st st' : State) (events : list Event) :
  addTask taskInput reminderInput now created uuid st = Return (st', events) ->
  (st' = st /\ exists message, events = [ShowToast message true]) \/
  (exists task, st' = setTasks (task :: tasks st) st /\ id task = uuid /\
                text task = slice0 MAX_TEXT_LENGTH (trim taskInput) /\
                isEmpty (trim taskInput) = false /\ createdAt task = created /\
                events = [SaveTasks; ClearInputs; Render]).
Proof.
  unfold addTask. destruct (isEmpty (trim taskInput)) eqn:E.
  { intros [= <- <-]. left; eauto. }
  destruct (currentReminderInputToUtc _ reminderInput) as [[value|message]|e];
    cbn [bind]; [| intros [= <- <-]; left; eauto | discriminate].
  destruct (truthy value && before value now); intros [= <- <-]; [left; eauto|].
  right. eexists. repeat split; reflexivity.
Qed.

Lemma editTask_text (taskId : string) (promptText promptReminder : string -> option string)
    (now : Z) (st st' : State) (events : list Event) :
  editTask taskId promptText promptReminder now st = Return (st', events) ->
  st' = st \/
  exists f nextText,
    st' = setTasks (updateFound taskId f (tasks st)) st /\
    isEmpty (trim nextText) = false /\
    forall t, text (f t) = slice0 MAX_TEXT_LENGTH (trim nextText).
Proof.
  unfold editTask. destruct (find (hasId taskId) (tasks st)) as [task|];
    [|intros [= <- _]; now left].
  destruct (promptText (text task)) as [nextText|]; [|intros [= <- _]; now left].
  destruct (isEmpty (trim nextText)) eqn:E; [intros [= <- _]; now left|].
  destruct (match reminderAt task with
            | Some r => if truthy (Some r)
                        then formatForReminderPrompt (timezone (settings st)) r
                        else Return ""
            | None => Return ""
            end) as [currentReminder|e]; cbn [bind]; [|discriminate].
  destruct (promptReminder currentReminder) as [rawReminder|].
  - destruct (parseReminderPromptValue _ rawReminder) as [[value|message]|e];
      cbn [bind]; [|intros [= <- _]; now left|discriminate].
    destruct (truthy value && before value now); intros [= <- _]; [now left|].
    right. eexists. exists nextText. split; [reflexivity|]. split; [exact E|reflexivity].
  - intros [= <- _]. right. eexists. exists nextText.
    split; [reflexivity|]. split; [exact E|reflexivity].
Qed.

Lemma textOk_perform (a : Action) (st : State) :
  Forall textOk (tasks st) -> Forall textOk (tasks (perform a st)).
Proof.
  intros H. destruct a; cbn [perform].
  - exact H.
  - destruct (addTask taskInput reminderInput now created uuid st) as [[st' ev]|e] eqn:E;
      cbn [settle]; [|exact H].
    destruct (addTask_text _ _ _ _ _ _ _ _ E) as [[-> _]|(task & -> & _ & Ht & Hne & _)];
      [exact H|].
    constructor; [|exact H]. unfold textOk. rewrite Ht. now apply textShape_slice0_trim.
  - unfold toggleTask. destruct (find (hasId taskId) (tasks st)) as [found|]; [|exact H].
    cbn. apply HandlerFacts.Forall_updateFound; [|exact H].
    intros t Ht. destruct d; exact Ht.
  - cbn. now apply HandlerFacts.Forall_filter.
  - destruct (editTask taskId promptText promptReminder now st) as [[st' ev]|e] eqn:E;
      cbn [settle]; [|exact H].
    destruct (editTask_text _ _ _ _ _ _ _ E) as [->|(f & nextText & -> & Hne & Hf)];
      [exact H|].
    cbn. apply HandlerFacts.Forall_updateFound; [|exact H].
    intros t _. unfold textOk. rewrite Hf. now apply textShape_slice0_trim.
  - cbn. now apply HandlerFacts.Forall_filter.
  - apply Forall_checkReminders; [|exact H]. intros t v Ht. exact Ht.
  - unfold onNotifyBeforeChange.
    set (st1 := {| tasks := tasks st; settings := _ |}).
    pose proof (Forall_checkReminders textOk now st1 (fun t v Ht => Ht) H) as H2.
    destruct (checkReminders now st1) as [st2 events]. exact H2.
  - unfold onTimezoneChange. destruct (timezoneMap_has selected); exact H.
  - exact H.
Qed.

(** X19.  every task text of the state is in shape, whatever the user does:
    not empty, of at most 300 code units, and without white space at its
    head.  Each operation of the application keeps this, so it holds after
    any sequence of operations from the initial state, and from the tasks
    that [loadTasks] returns. *)
Theorem task_texts_stay_in_shape :
  (forall (a : Action) (st : State),
     Forall textOk (tasks st) -> Forall textOk (tasks (perform a st))) /\
  (forall (actions : list Action) (st : State),
     Forall textOk (tasks st) -> Forall textOk (tasks (run actions st))) /\
  (forall actions : list Action, Forall textOk (tasks (run actions initialState))).
Proof.
  assert (Hrun : forall (actions : list Action) (st : State),
            Forall textOk (tasks st) -> Forall textOk (tasks (run actions st))).
  { induction actions as [|a actions IH]; intros st H; [exact H|].
    apply IH. now apply textOk_perform. }
  split; [exact textOk_perform|]. split; [exact Hrun|].
  intros actions. apply Hrun. constructor.
Qed.

Lemma settings_perform (a : Action) (st : State) :
  match a with
  | DoLoadSettings parsed => settings (perform a st) = loadSettings parsed st
  | DoNotifyBeforeChange inputValue _ =>
      settings (perform a st)
      = {| timezone := timezone (settings st);
           notificationsEnabled := notificationsEnabled (settings st);
           notifyBeforeMinutes := clampInt (Str inputValue) 0 120 0 |}
  | DoTimezoneChange selected =>
      settings (perform a st)
      = if timezoneMap_has selected
        then {| timezone := selected;
                notificationsEnabled := notificationsEnabled (settings st);
                notifyBeforeMinutes := notifyBeforeMinutes (settings st) |}
        else settings st
  | DoNotificationsEnabledChange checked _ =>
      settings (perform a st)
      = {| timezone := timezone (settings st);
           notificationsEnabled := checked;
           notifyBeforeMinutes := notifyBeforeMinutes (settings st) |}
  | _ => settings (perform a st) = settings st
  end.
Proof.
  destruct a; cbn [perform]; try reflexivity.
  - destruct (addTask taskInput reminderInput now created uuid st) as [[st' ev]|e] eqn:E;
      cbn [settle]; [|reflexivity].
    destruct (addTask_text _ _ _ _ _ _ _ _ E) as [[-> _]|(task & -> & _)]; reflexivity.
  - unfold toggleTask. destruct (find (hasId taskId) (tasks st)); reflexivity.
  - destruct (editTask taskId promptText promptReminder now st) as [[st' ev]|e] eqn:E;
      cbn [settle]; [|reflexivity].
    destruct (editTask_text _ _ _ _ _ _ _ E) as [->|(f & nextText & -> & _)]; reflexivity.
  - apply checkReminders_settings.
  - unfold onNotifyBeforeChange.
    set (st1 := {| tasks := tasks st; settings := _ |}).
    pose proof (checkReminders_settings now st1) as H.
    destruct (checkReminders now st1) as [st2 events]. exact H.
  - unfold onTimezoneChange. destruct (timezoneMap_has selected); reflexivity.
Qed.

(** X20.  the time zone of the state is always one of the eleven zones of
    the list, and the operations on tasks leave the settings alone: every
    operation keeps a listed time zone listed, so it is listed after any
    sequence of operations from the initial state; adding, toggling,
    deleting, editing, clearing and checking do not change the settings. *)
Theorem settings_stay_valid :
  (forall (a : Action) (st : State),
     timezoneMap_has (timezone (settings st)) = true ->
     timezoneMap_has (timezone (settings (perform a st))) = true) /\
  (forall actions : list Action,
     timezoneMap_has (timezone (settings (run actions initialState))) = true) /\
  (forall (a : Action) (st : State),
     match a with
     | DoLoadSettings _ | DoNotifyBeforeChange _ _ | DoTimezoneChange _
     | DoNotificationsEnabledChange _ _ => True
     | _ => settings (perform a st) = settings st
     end).
Proof.
  assert (Hstep : forall (a : Action) (st : State),
            timezoneMap_has (timezone (settings st)) = true ->
            timezoneMap_has (timezone (settings (perform a st))) = true).
  { intros a st H. pose proof (settings_perform a st) as Hs.
    destruct a; rewrite Hs; try exact H.
    - unfold loadSettings. cbn [timezone].
      destruct (getProp _ "timezone") as [| |b|n|s|items|fields]; try reflexivity.
      destruct (timezoneMap_has s) eqn:E; [exact E|reflexivity].
    - destruct (timezoneMap_has selected) eqn:E; [exact E|exact H]. }
  split; [exact Hstep|]. split.
  - intros actions. unfold run.
    assert (Hrun : forall st, timezoneMap_has (timezone (settings st)) = true ->
              timezoneMap_has
                (timezone (settings (fold_left (fun s a => perform a s) actions st))) = true).
    { induction actions as [|a actions IH]; intros st H; [exact H|].
      apply IH. now apply Hstep. }
    apply Hrun. reflexivity.
  - intros a st. pose proof (settings_perform a st) as Hs. destruct a; auto.
Qed.

(** X21.  deleting the task that was just added undoes the addition: when
    [addTask] has added a task under a fresh identifier, [deleteTask] with
    that identifier gives back the state of before. *)
Theorem add_then_delete (taskInput reminderInput : string) (now created : Z) (uuid : string)
    (st st' : State) :
  addTask taskInput reminderInput now created uuid st
  = Return (st', [SaveTasks; ClearInputs; Render]) ->
  (forall task, In task (tasks st) -> id task <> uuid) ->
  fst (deleteTask uuid st') = st.
Proof.
  intros Hadd Hfresh.
  destruct (addTask_text _ _ _ _ _ _ _ _ Hadd) as [[_ [m Hm]]|(task & -> & Hid & _)];
    [discriminate Hm|].
  unfold deleteTask, setTasks. cbn [fst tasks settings filter].
  unfold hasId at 1. rewrite Hid, String.eqb_refl. cbn [negb].
  replace (filter _ (tasks st)) with (tasks st); [destruct st; reflexivity|].
  symmetry. apply forallb_filter_id. apply forallb_forall. intros t Ht.
  unfold hasId. destruct (String.eqb_spec (id t) uuid) as [E|_]; [|reflexivity].
  destruct (Hfresh t Ht E).
Qed.

(** X22.  [deleteTask] removes every task that carries the identifier, and
    nothing else: the tasks with another identifier stay in their order, no
    task with the identifier is found afterwards, so that toggling or editing
    it does nothing and saves nothing, and deleting again changes nothing. *)
Theorem deleted_task_is_gone (taskId : string) (st : State) :
  let st' := fst (deleteTask taskId st) in
  tasks st' = filter (fun task => negb (String.eqb (id task) taskId)) (tasks st) /\
  settings st' = settings st /\
  find (hasId taskId) (tasks st') = None /\
  (forall d, toggleTask taskId d st' = (st', [])) /\
  (forall promptText promptReminder now,
     editTask taskId promptText promptReminder now st' = Return (st', [])) /\
  fst (deleteTask taskId st') = st'.
Proof.
  cbv zeta.
  assert (Hnone : find (hasId taskId) (tasks (fst (deleteTask taskId st))) = None).
  { unfold deleteTask. cbn. induction (tasks st) as [|task l IH]; [reflexivity|].
    cbn. destruct (hasId taskId task) eqn:E; cbn; [exact IH|]. now rewrite E. }
  split; [reflexivity|]. split; [reflexivity|]. split; [exact Hnone|].
  split; [|split].
  - intros d. unfold toggleTask. now rewrite Hnone.
  - intros promptText promptReminder now. unfold editTask. now rewrite Hnone.
  - unfold deleteTask. cbn. unfold setTasks. cbn. f_equal.
    induction (tasks st) as [|task l IH]; [reflexivity|].
    cbn. destruct (hasId taskId task) eqn:E; cbn; [exact IH|]. rewrite E. cbn. now f_equal.
Qed.

End WithTimeZones.

(** X23.  what [saveSettings] wrote, [loadSettings] reads back: settings with
    a listed time zone and a lead time of 0..120 minutes come back as they
    were, whatever the state holds at that moment. *)
Theorem saved_settings_load_back (s : Settings) (st : State) :
  timezoneMap_has (timezone s) = true -> 0 <= notifyBeforeMinutes s <= 120 ->
  loadSettings (Some (settingsValue s)) st = s.
Proof.
  intros Hz Hl. unfold loadSettings.
  change (loadJson (Some (settingsValue s)) (settingsValue (settings st)))
    with (settingsValue s).
  change (getProp (settingsValue s) "timezone") with (Str (timezone s)).
  change (getProp (settingsValue s) "notificationsEnabled")
    with (Bool (notificationsEnabled s)).
  change (getProp (settingsValue s) "notifyBeforeMinutes") with (Num (notifyBeforeMinutes s)).
  cbv beta iota zeta. rewrite Hz.
  rewrite (SettingsFacts.clampInt_finite _ (notifyBeforeMinutes s)); [|
    cbn [toString]; apply JsFacts.parseInt_numberToString; lia | lia].
  replace (Z.max 0 (Z.min 120 (notifyBeforeMinutes s))) with (notifyBeforeMinutes s) by lia.
  destruct s; reflexivity.
Qed.

(** X24.  the lead-time input settles on what was stored: whatever text the
    input holds, the change handler stores a lead time of 0..120 minutes,
    writes it back into the input first, leaves the other settings alone,
    and a change event on the text it wrote stores the same lead time
    again. *)
Theorem lead_input_settles (inputValue : string) (now now' : Z) (st : State) :
  let m := clampInt (Str inputValue) 0 120 0 in
  let st' := fst (onNotifyBeforeChange inputValue now st) in
  0 <= m <= 120 /\
  settings st' = {| timezone := timezone (settings st);
                    notificationsEnabled := notificationsEnabled (settings st);
                    notifyBeforeMinutes := m |} /\
  hd_error (snd (onNotifyBeforeChange inputValue now st)) = Some (SetNotifyBeforeInput m) /\
  settings (fst (onNotifyBeforeChange (numberToString m) now' st')) = settings st'.
Proof.
  cbv zeta.
  assert (Hm : 0 <= clampInt (Str inputValue) 0 120 0 <= 120)
    by (apply SettingsFacts.clampInt_range; lia).
  assert (Hs : forall text t s,
            settings (fst (onNotifyBeforeChange text t s))
            = {| timezone := timezone (settings s);
                 notificationsEnabled := notificationsEnabled (settings s);
                 notifyBeforeMinutes := clampInt (Str text) 0 120 0 |}).
  { intros text t s. unfold onNotifyBeforeChange.
    set (s1 := {| tasks := tasks s; settings := _ |}).
    pose proof (checkReminders_settings t s1) as H.
    destruct (checkReminders t s1) as [s2 events]. exact H. }
  split; [exact Hm|]. split; [apply Hs|]. split.
  - unfold onNotifyBeforeChange.
    destruct (checkReminders now _) as [st2 events]. reflexivity.
  - rewrite (Hs (numberToString _)), (Hs inputValue). cbn [timezone notificationsEnabled].
    f_equal.
    rewrite (SettingsFacts.clampInt_finite _ (clampInt (Str inputValue) 0 120 0));
      [lia| |lia].
    cbn [toString]. apply JsFacts.parseInt_numberToString. lia.
Qed.

End StateFacts.

(** * The parsers of the two variants *)

Module ParserFacts.
Import Js App.

Section WithTimeZones.
Context {tz : TimeZones}.

(** X25.  the edit prompt takes the date and the time with a space or with
    a T between them, and reads what the add form reads: for a date part and
    a time part without T, the date part without space, and no white space
    around, the two spellings give the same result, and the add form accepts
    the spelling with T exactly when the prompt does, with the same
    instant. *)
Theorem prompt_takes_both_spellings (timezone datePart timePart : string) :
  datePart <> "" -> timePart <> "" ->
  startsNonWs datePart = true -> endsNonWs timePart = true ->
  includes " " datePart = false -> includes "T" datePart = false ->
  includes "T" timePart = false ->
  parseReminderPromptValue timezone (datePart ++ String " " timePart)
  = parseReminderPromptValue timezone (datePart ++ String "T" timePart) /\
  forall v, currentReminderInputToUtc timezone (datePart ++ String "T" timePart) = Return (Ok v)
            <-> parseReminderPromptValue timezone (datePart ++ String "T" timePart)
                = Return (Ok v).
Proof.
  intros Hd Ht Hsd Het Hsp HTd HTt.
  assert (Htrim : forall c,
            trim (datePart ++ String c timePart) = datePart ++ String c timePart).
  { intros c. apply JsFacts.trim_id.
    - destruct datePart; [contradiction|exact Hsd].
    - rewrite JsFacts.endsNonWs_append by discriminate.
      destruct timePart as [|d rest]; [contradiction|]. exact Het. }
  assert (Hne : forall c, isEmpty (datePart ++ String c timePart) = false).
  { intros c. destruct datePart; reflexivity. }
  unfold parseReminderPromptValue, currentReminderInputToUtc.
  rewrite !Htrim, !Hne.
  rewrite !JsFacts.includes_append. cbn [includes]. rewrite HTd, HTt.
  change (Ascii.eqb " " "T") with false. change (Ascii.eqb "T" "T") with true.
  cbn [orb]. rewrite (JsFacts.replace_at_first _ _ _ _ Hsp).
  split; [reflexivity|].
  intros v.
  destruct (zonedLocalToUtcMs (datePart ++ String "T" timePart) timezone) as [r|e];
    cbn [bind]; [|tauto].
  destruct (finiteResult r); split; intros H; try discriminate H; exact H.
Qed.

(** X26.  the prompt parser of the backend variant is the one of the page
    followed by a comparison with the clock: it accepts and rejects the same
    texts and throws on the same texts, with its own message for a wrong
    format, and rejects in addition every instant before now, the epoch
    included; an instant that it or the form parser of the variant accepts is
    never before now, and the form parser fails with the message for the
    past or as the form parser of the page does. *)
Theorem backend_parsers_check_the_clock (timezone text : string) (now : Z) :
  Backend.parsePromptReminder timezone text now
  = bind (parseReminderPromptValue timezone text) (Backend.checkClock now) /\
  (forall z, Backend.parsePromptReminder timezone text now = Return (Backend.PromptOk (Some z)) ->
             now <= z) /\
  (forall message,
     parseReminderFromInput timezone text now = Return (NotOk message) ->
     message = MsgReminderInPast \/
     currentReminderInputToUtc timezone text = Return (NotOk message)) /\
  (forall z, parseReminderFromInput timezone text now = Return (Ok (Some z)) -> now <= z).
Proof.
  unfold Backend.parsePromptReminder, parseReminderPromptValue, parseReminderFromInput,
    currentReminderInputToUtc, Backend.checkClock.
  destruct (isEmpty (trim text)).
  { repeat split; intros; try discriminate; auto. }
  destruct (zonedLocalToUtcMs (if includes "T" (trim text) then trim text
                               else replace " " "T" (trim text)) timezone) as [r|e];
    destruct (zonedLocalToUtcMs (trim text) timezone) as [r'|e']; cbn [bind];
    try (destruct (finiteResult r) as [z|]); try (destruct (finiteResult r') as [z'|]);
    cbn [bind];
    try (destruct (Z.ltb_spec z now)); try (destruct (Z.ltb_spec z' now));
    repeat split; intros; try discriminate; auto;
    match goal with
    | H : Return (Backend.PromptOk (Some _)) = Return (Backend.PromptOk (Some _)) |- _ =>
        injection H as <-; lia
    | H : Return (Ok (Some _)) = Return (Ok (Some _)) |- _ => injection H as <-; lia
    | H : Return (NotOk _) = Return (NotOk _) |- _ => injection H as <-; auto
    | _ => idtac
    end.
Qed.

End WithTimeZones.

(** X27.  the settings that the backend variant normalizes are valid
    whatever the server sent: the time zone is one of the list, the lead time
    is 0..120; a lead time under the key of the backend wins over one under
    the key of the page; and the chat notifications are on unless one of the
    two keys says otherwise. *)
Theorem normalizeSettings_valid (raw : value) :
  let s := Backend.normalizeSettings raw in
  timezoneMap_has (Backend.timezone s) = true /\
  0 <= Backend.notifyBeforeMinutes s <= 120 /\
  (forall v, getProp raw "notify_before_minutes" = v -> v <> Undefined -> v <> Null ->
             Backend.notifyBeforeMinutes s = clampInt v 0 120 0) /\
  (Backend.coalesce (getProp raw "chat_notifications_enabled")
                    (getProp raw "chatNotificationsEnabled") = Undefined ->
   Backend.chatNotificationsEnabled s = true).
Proof.
  cbv zeta. unfold Backend.normalizeSettings.
  cbn [Backend.timezone Backend.notifyBeforeMinutes Backend.chatNotificationsEnabled].
  split; [|split; [|split]].
  - destruct (getProp raw "timezone") as [| |b|n|z|items|fields]; try reflexivity.
    destruct (timezoneMap_has z) eqn:E; [exact E|reflexivity].
  - apply SettingsFacts.clampInt_range; lia.
  - intros v <- Hu Hn.
    destruct (getProp raw "notify_before_minutes"); try reflexivity; congruence.
  - destruct (getProp raw "chat_notifications_enabled");
      destruct (getProp raw "chatNotificationsEnabled"); cbn; intros H;
      try discriminate H; reflexivity.
Qed.

Lemma naiveUTC_whole_second (c : Z * Z * Z * Z * Z) (g0 : Z) :
  naiveUTC c = Fin g0 -> g0 mod 1000 = 0.
Proof.
  destruct c as [[[[y m] d] h] mi]. unfold naiveUTC, Date.UTC, Date.TimeClip.
  destruct (Date.validTime _); [|discriminate].
  intros [= <-]. unfold Date.MakeDate, Date.MakeTime.
  generalize (Date.MakeDay (if (0 <=? y) && (y <=? 99) then 1900 + y else y) (m - 1) d).
  intros days.
  unfold Date.msPerDay, Date.msPerHour, Date.msPerMinute, Date.msPerSecond.
  Z.div_mod_to_equations. lia.
Qed.

Section ConstantOffset.
Context {tz : TimeZones}.

Lemma constant_offset_value (s zone : string) (c : Z * Z * Z * Z * Z) (off : Z -> Z)
    (o g0 : Z) :
  components s = Some c -> naiveUTC c = Fin g0 -> refinable g0 ->
  utcOffset zone = Some off ->
  (forall u, Z.abs (u - g0) <= 2 * Date.msPerDay -> off u = o) ->
  Z.abs o <= Date.msPerDay -> o mod 1000 = 0 ->
  zonedLocalToUtcMs s zone = Return (Some (Fin (g0 - o))) /\
  seenOffset off (g0 - o) = o.
Proof.
  intros Hc Hn Hr Hz Hconst Ho Hom.
  pose proof (naiveUTC_whole_second c g0 Hn) as Hg.
  assert (Hs : forall u, u mod 1000 = 0 -> Z.abs (u - g0) <= 2 * Date.msPerDay ->
               seenOffset off u = o).
  { intros u Hu Hnear. rewrite ConversionFacts.seenOffset_whole; rewrite ?Hconst; auto. }
  assert (Hg1 : (g0 - o) mod 1000 = 0) by (Z.div_mod_to_equations; lia).
  destruct (ConversionFacts.zonedLocalToUtcMs_value s zone c off g0 Hc Hz) as [Hval _];
    [|exact Hn|exact Hr|].
  { intros u Hu. rewrite Hconst; [exact Ho|]. unfold Date.msPerDay in *. lia. }
  rewrite Hval. cbn [refined].
  rewrite (Hs g0) by (try exact Hg; unfold Date.msPerDay in *; lia).
  rewrite !(Hs (g0 - o)) by (try exact Hg1; unfold Date.msPerDay in *; lia).
  split; reflexivity.
Qed.

End ConstantOffset.

End ParserFacts.

(** * The added properties on sample data *)

Module MoreSamples.
Import Js Date App.

Lemma saved_tasks_load_back_witness :
  let l := [sampleTask (Some juneReminder) None; sampleTask None None] in
  forallb Storage.storable l = true /\
  Storage.loadTasks (fun _ => NaN) (Some (Storage.tasksValue l))
                    (fun _ => "fresh") (fun _ => 1749000000000)
  = map (fun task => Storage.storedOf (Storage.reloaded task)) l.
Proof.
  split; [reflexivity|].
  exact (StorageFacts.saved_tasks_load_back (fun _ => NaN)
           [sampleTask (Some juneReminder) None; sampleTask None None]
           (fun _ => "fresh") (fun _ => 1749000000000) eq_refl).
Defined.

Lemma in_head {A : Type} (x : A) (l : list A) : In x (x :: l).
Proof. left. reflexivity. Defined.

Lemma later_check_only_newly_due_witness :
  let task := sampleTask (Some juneReminder) None in
  let st := sampleState 10 [task] in
  In (EmitReminder task)
     (snd (checkReminders 1748758800000 (fst (checkReminders 1748758799000 st)))) /\
  exists r, reminderAt task = Some r /\
            1748758799000 < computeTrigger r (notifyBeforeMinutes (settings st))
            <= 1748758800000.
Proof.
  split; [apply in_head|].
  exact (ReminderFacts.later_check_only_newly_due 1748758799000 1748758800000
           (sampleState 10 [sampleTask (Some juneReminder) None])
           (sampleTask (Some juneReminder) None) (in_head _ _)).
Defined.

Lemma five_is_not_ten : clampInt (Str "5") 0 120 0 <> 10.
Proof. vm_compute. discriminate. Defined.

Lemma due_under_five : computeTrigger juneReminder (clampInt (Str "5") 0 120 0) <= 1748759100000.
Proof. vm_compute. discriminate. Defined.

Lemma lead_change_notifies_again_witness :
  let task := sampleTask (Some juneReminder) (Some (computeTrigger juneReminder 10)) in
  let st := sampleState 10 [task] in
  notificationsEnabled (settings st) = true /\ In task (tasks st) /\ done task = false /\
  reminderAt task = Some juneReminder /\ juneReminder <> 0 /\
  notifiedFor task = Some (computeTrigger juneReminder (notifyBeforeMinutes (settings st))) /\
  clampInt (Str "5") 0 120 0 <> notifyBeforeMinutes (settings st) /\
  computeTrigger juneReminder (clampInt (Str "5") 0 120 0) <= 1748759100000 /\
  In (EmitReminder task) (snd (onNotifyBeforeChange "5" 1748759100000 st)).
Proof.
  split; [reflexivity|]. split; [apply in_head|]. split; [reflexivity|].
  split; [reflexivity|]. split; [exact OnSamples.june_nonzero|]. split; [reflexivity|].
  split; [exact five_is_not_ten|]. split; [exact due_under_five|].
  exact (ReminderFacts.lead_change_notifies_again "5" 1748759100000
           (sampleState 10 [sampleTask (Some juneReminder)
                                       (Some (computeTrigger juneReminder 10))])
           (sampleTask (Some juneReminder) (Some (computeTrigger juneReminder 10)))
           juneReminder eq_refl (in_head _ _) eq_refl eq_refl OnSamples.june_nonzero eq_refl
           five_is_not_ten due_under_five).
Defined.

Lemma june_due : computeTrigger juneReminder 10 <= 1748759100000.
Proof. vm_compute. discriminate. Defined.

Lemma reopened_task_notifies_again_witness :
  let task := sampleTask (Some juneReminder) (Some (computeTrigger juneReminder 10)) in
  let st := sampleState 10 [task] in
  notificationsEnabled (settings st) = true /\
  find (hasId "7f9c") (tasks st) = Some task /\
  reminderAt task = Some juneReminder /\ juneReminder <> 0 /\
  computeTrigger juneReminder (notifyBeforeMinutes (settings st)) <= 1748759100000 /\
  In (EmitReminder (setNotifiedFor None (setDone false task)))
     (snd (checkReminders 1748759100000
             (fst (toggleTask "7f9c" false (fst (toggleTask "7f9c" true st)))))).
Proof.
  split; [reflexivity|]. split; [reflexivity|]. split; [reflexivity|].
  split; [exact OnSamples.june_nonzero|]. split; [exact june_due|].
  exact (proj2 (ReminderFacts.reopened_task_notifies_again "7f9c" 1748759100000
                  (sampleState 10 [sampleTask (Some juneReminder)
                                              (Some (computeTrigger juneReminder 10))])
                  (sampleTask (Some juneReminder) (Some (computeTrigger juneReminder 10)))
                  juneReminder eq_refl eq_refl eq_refl OnSamples.june_nonzero june_due)).
Defined.

Lemma getZoneParts_ranges_witness :
  let p := {| year := 2025; month := 6; day := 1; hour := 9; minute := 30; second := 0 |} in
  getZoneParts (tz := fixedOffsets) (Fin juneReminder) "Europe/Moscow" = Return p /\
  1 <= month p <= 12 /\ 1 <= day p <= 31.
Proof.
  split; [reflexivity|].
  pose proof (ZoneFacts.getZoneParts_ranges (tz := fixedOffsets) (Fin juneReminder)
                "Europe/Moscow"
                {| year := 2025; month := 6; day := 1; hour := 9; minute := 30; second := 0 |}
                eq_refl) as H.
  exact (conj (proj1 (proj2 H)) (proj1 (proj2 (proj2 H)))).
Defined.

Lemma june_valid : validTime (juneReminder + 250) = true.
Proof. reflexivity. Defined.

Lemma june_local_range :
  year100 <= juneReminder + 250 + 3 * msPerHour <= maxTime.
Proof. vm_compute. split; discriminate. Defined.

Lemma zoneOffsetMs_drops_milliseconds_witness :
  utcOffset (TimeZones := fixedOffsets) "Europe/Moscow" = Some (fun _ => 3 * msPerHour) /\
  validTime (juneReminder + 250) = true /\
  year100 <= juneReminder + 250 + 3 * msPerHour <= maxTime /\
  (3 * msPerHour) mod 1000 = 0 /\
  zoneOffsetMs (tz := fixedOffsets) "Europe/Moscow" (Fin (juneReminder + 250))
  = Return (Fin (3 * msPerHour - (juneReminder + 250) mod 1000)).
Proof.
  split; [reflexivity|]. split; [reflexivity|]. split; [exact june_local_range|].
  split; [reflexivity|].
  exact (proj1 (ZoneFacts.zoneOffsetMs_drops_milliseconds (tz := fixedOffsets)
                  "Europe/Moscow" (fun _ => 3 * msPerHour) (juneReminder + 250)
                  eq_refl june_valid june_local_range eq_refl)).
Defined.

Lemma moscow_constant (t : Z) :
  forall u, Z.abs (u - t) <= 3 * msPerDay -> (fun _ : Z => 3 * msPerHour) u = 3 * msPerHour.
Proof. intros u _. reflexivity. Defined.

Lemma moscow_within_a_day : Z.abs (3 * msPerHour) <= msPerDay.
Proof. vm_compute. discriminate. Defined.

Lemma june_promptable (ms : Z) :
  0 <= ms < 60000 ->
  year100 + 5 * msPerDay <= juneReminder + ms <= maxTime - 5 * msPerDay.
Proof. unfold year100, msPerDay, juneReminder, maxTime. lia. Defined.

Lemma twelve_seconds : 0 <= 12345 < 60000.
Proof. lia. Defined.

Lemma prompt_reads_back_to_the_minute_witness :
  utcOffset (TimeZones := fixedOffsets) "Europe/Moscow" = Some (fun _ => 3 * msPerHour) /\
  Z.abs (3 * msPerHour) <= msPerDay /\ (3 * msPerHour) mod 1000 = 0 /\
  year100 + 5 * msPerDay <= juneReminder + 12345 <= maxTime - 5 * msPerDay /\
  exists back,
    bind (formatForReminderPrompt (tz := fixedOffsets) "Europe/Moscow" (juneReminder + 12345))
         (parseReminderPromptValue (tz := fixedOffsets) "Europe/Moscow")
    = Return (Ok (Some back)) /\
    back = juneReminder + 12345 - (juneReminder + 12345 + 3 * msPerHour) mod 60000.
Proof.
  split; [reflexivity|]. split; [exact moscow_within_a_day|]. split; [reflexivity|].
  split; [exact (june_promptable 12345 twelve_seconds)|].
  destruct (PromptFacts.prompt_reads_back_to_the_minute (tz := fixedOffsets)
              "Europe/Moscow" (fun _ => 3 * msPerHour) (3 * msPerHour) (juneReminder + 12345)
              eq_refl (moscow_constant _) moscow_within_a_day eq_refl
              (june_promptable 12345 twelve_seconds)) as [back [H1 [H2 _]]].
  exists back. split; [exact H1|exact H2].
Defined.

Lemma june_overdue_range : 60000 <= juneReminder <= maxTime - 5 * msPerDay.
Proof. vm_compute. split; discriminate. Defined.

Lemma june_before_july : juneReminder < 1751000000000.
Proof. reflexivity. Defined.

Lemma overdue_reminder_blocks_edit_witness :
  let task := sampleTask (Some juneReminder) (Some juneReminder) in
  let st := sampleState 0 [task] in
  let confirm := fun proposed : string => Some proposed in
  find (hasId "7f9c") (tasks st) = Some task /\
  isEmpty (trim "call the bank today") = false /\
  60000 <= juneReminder <= maxTime - 5 * msPerDay /\ juneReminder < 1751000000000 /\
  utcOffset (TimeZones := fixedOffsets) (timezone (settings st))
  = Some (fun _ => 3 * msPerHour) /\
  editTask (tz := fixedOffsets) "7f9c" (fun _ => Some "call the bank today") confirm
           1751000000000 st
  = Return (st, [ShowToast MsgReminderInPast true]).
Proof.
  split; [reflexivity|]. split; [reflexivity|]. split; [exact june_overdue_range|].
  split; [exact june_before_july|]. split; [reflexivity|].
  exact (PromptFacts.overdue_reminder_blocks_edit (tz := fixedOffsets)
           "7f9c" (fun _ => Some "call the bank today") (fun proposed => Some proposed)
           1751000000000 (sampleState 0 [sampleTask (Some juneReminder) (Some juneReminder)])
           (sampleTask (Some juneReminder) (Some juneReminder)) "call the bank today"
           (fun _ => 3 * msPerHour) (3 * msPerHour) juneReminder
           eq_refl eq_refl eq_refl eq_refl june_overdue_range june_before_july eq_refl
           (moscow_constant _) moscow_within_a_day eq_refl (fun proposed => eq_refl)).
Defined.

Lemma june_due_at_once : computeTrigger juneReminder 0 <= 1751000000000.
Proof. vm_compute. discriminate. Defined.

Lemma edited_task_notifies_again_witness :
  let task := sampleTask (Some juneReminder) (Some juneReminder) in
  let st := sampleState 0 [task] in
  notificationsEnabled (settings st) = true /\
  find (hasId "7f9c") (tasks st) = Some task /\
  isEmpty (trim "call the bank today") = false /\
  formatForReminderPrompt (tz := fixedOffsets) (timezone (settings st)) juneReminder
  = Return "2025-06-01 09:30" /\
  computeTrigger juneReminder (notifyBeforeMinutes (settings st)) <= 1751000000000 /\
  exists st' task',
    editTask (tz := fixedOffsets) "7f9c" (fun _ => Some "call the bank today")
             (fun _ => None) 1751000000000 st
    = Return (st', [SaveTasks; Render]) /\
    find (hasId "7f9c") (tasks st') = Some task' /\
    In (EmitReminder task') (snd (checkReminders 1751000000000 st')).
Proof.
  split; [reflexivity|]. split; [reflexivity|]. split; [reflexivity|].
  split; [reflexivity|]. split; [exact june_due_at_once|].
  destruct (PromptFacts.edited_task_notifies_again (tz := fixedOffsets)
              "7f9c" (fun _ => Some "call the bank today") (fun _ => None)
              1751000000000 1751000000000
              (sampleState 0 [sampleTask (Some juneReminder) (Some juneReminder)])
              (sampleTask (Some juneReminder) (Some juneReminder)) "call the bank today"
              "2025-06-01 09:30" juneReminder
              eq_refl eq_refl eq_refl eq_refl eq_refl eq_refl OnSamples.june_nonzero eq_refl
              eq_refl june_due_at_once) as (st' & task' & H1 & H2 & _ & _ & _ & _ & H3).
  exists st', task'. split; [exact H1|]. split; [exact H2|exact H3].
Defined.

Lemma fresh_in_sample (task : Task) :
  In task (tasks (sampleState 0 [sampleTask None None])) -> id task <> "a1b2".
Proof. intros [<-|[]]. discriminate. Defined.

Lemma pay_rent_added :
  addTask (tz := fixedOffsets) "pay rent" "2025-06-01T09:30" 1748000000000 1748000000000
          "a1b2" (sampleState 0 [sampleTask None None])
  = Return (setTasks ({| id := "a1b2"; text := "pay rent"; done := false;
                         createdAt := 1748000000000; reminderAt := Some juneReminder;
                         notifiedFor := None |}
                      :: tasks (sampleState 0 [sampleTask None None]))
                     (sampleState 0 [sampleTask None None]),
            [SaveTasks; ClearInputs; Render]).
Proof. reflexivity. Defined.

Lemma add_then_delete_witness :
  let st := sampleState 0 [sampleTask None None] in
  let added := {| id := "a1b2"; text := "pay rent"; done := false;
                  createdAt := 1748000000000; reminderAt := Some juneReminder;
                  notifiedFor := None |} in
  addTask (tz := fixedOffsets) "pay rent" "2025-06-01T09:30" 1748000000000 1748000000000
          "a1b2" st
  = Return (setTasks (added :: tasks st) st, [SaveTasks; ClearInputs; Render]) /\
  fst (deleteTask "a1b2" (setTasks (added :: tasks st) st)) = st.
Proof.
  split; [exact pay_rent_added|].
  exact (StateFacts.add_then_delete (tz := fixedOffsets)
           "pay rent" "2025-06-01T09:30" 1748000000000 1748000000000 "a1b2"
           (sampleState 0 [sampleTask None None])
           (setTasks ({| id := "a1b2"; text := "pay rent"; done := false;
                         createdAt := 1748000000000; reminderAt := Some juneReminder;
                         notifiedFor := None |}
                      :: tasks (sampleState 0 [sampleTask None None]))
                     (sampleState 0 [sampleTask None None]))
           pay_rent_added fresh_in_sample).
Defined.

Lemma forty_five_minutes : 0 <= 45 <= 120.
Proof. lia. Defined.

Lemma saved_settings_load_back_witness :
  let s := {| timezone := "Asia/Omsk"; notificationsEnabled := true;
              notifyBeforeMinutes := 45 |} in
  timezoneMap_has (timezone s) = true /\ 0 <= notifyBeforeMinutes s <= 120 /\
  loadSettings (Some (settingsValue s)) initialState = s.
Proof.
  split; [reflexivity|]. split; [exact forty_five_minutes|].
  exact (StateFacts.saved_settings_load_back
           {| timezone := "Asia/Omsk"; notificationsEnabled := true;
              notifyBeforeMinutes := 45 |} initialState eq_refl forty_five_minutes).
Defined.

Lemma date_part_not_empty : "2025-06-01" <> "".
Proof. discriminate. Defined.

Lemma time_part_not_empty : "09:30" <> "".
Proof. discriminate. Defined.

Lemma prompt_takes_both_spellings_witness :
  "2025-06-01" <> "" /\ "09:30" <> "" /\
  startsNonWs "2025-06-01" = true /\ endsNonWs "09:30" = true /\
  includes " " "2025-06-01" = false /\ includes "T" "2025-06-01" = false /\
  includes "T" "09:30" = false /\
  parseReminderPromptValue (tz := fixedOffsets) "Europe/Moscow" "2025-06-01 09:30"
  = parseReminderPromptValue (tz := fixedOffsets) "Europe/Moscow" "2025-06-01T09:30".
Proof.
  split; [exact date_part_not_empty|]. split; [exact time_part_not_empty|].
  repeat (split; [reflexivity|]).
  exact (proj1 (ParserFacts.prompt_takes_both_spellings (tz := fixedOffsets)
                  "Europe/Moscow" "2025-06-01" "09:30"
                  date_part_not_empty time_part_not_empty
                  eq_refl eq_refl eq_refl eq_refl eq_refl)).
Defined.

Lemma moscow_constant_near (t : Z) :
  forall u, Z.abs (u - t) <= 2 * msPerDay -> (fun _ : Z => 3 * msPerHour) u = 3 * msPerHour.
Proof. intros u _. reflexivity. Defined.

Lemma june_components : components "2025-06-01T09:30" = Some (2025, 6, 1, 9, 30).
Proof. reflexivity. Defined.

Lemma june_naive : naiveUTC (2025, 6, 1, 9, 30) = Fin 1748770200000.
Proof. reflexivity. Defined.

End MoreSamples.

(** * Local times before the year 100 *)

Module RangeFacts.
Import Js Date App.

Lemma YearFromTime_below_100 (local : Z) : local < year100 -> YearFromTime local <= 99.
Proof.
  intros H. unfold YearFromTime.
  assert (Hd : Day local < DayFromYear 100).
  { unfold Day. apply Z.div_lt_upper_bound; [reflexivity|].
    rewrite Z.mul_comm, ConversionFacts.year100_day. exact H. }
  pose proof (DateFacts.YearFromDay_spec (Day local)) as [Hlo _].
  destruct (Z_le_gt_dec (YearFromDay (Day local)) 99) as [Hle|Hgt]; [exact Hle|].
  pose proof (DateFacts.DayFromYear_grows 100 (YearFromDay (Day local)) ltac:(lia)). lia.
Qed.

Lemma YearFromTime_lower (local : Z) : - maxTime <= local -> -271821 <= YearFromTime local.
Proof.
  intros H. unfold YearFromTime.
  assert (Hd : Day (- maxTime) <= Day local).
  { unfold Day. apply Z.div_le_mono; [reflexivity|exact H]. }
  apply DateFacts.YearFromDay_mono in Hd.
  replace (YearFromDay (Day (- maxTime))) with (-271821) in Hd by (vm_compute; reflexivity).
  exact Hd.
Qed.

Lemma DayFromYear_mirror (y : Z) :
  y <= -99 -> DayFromYear (1 - y) + 401 <= - DayFromYear (y + 1).
Proof. intros H. unfold DayFromYear. Z.div_mod_to_equations. lia. Qed.

Lemma local_before_next_year (local : Z) :
  local < DayFromYear (YearFromTime local + 1) * msPerDay.
Proof.
  unfold YearFromTime.
  pose proof (DateFacts.YearFromDay_spec (Day local)) as [_ Hhi].
  unfold Day, msPerDay in *.
  pose proof (Z.mul_succ_div_gt local 86400000 ltac:(lia)). nia.
Qed.

(** The parts of a local time before the year 100, read by [Date.UTC]: the
    year shown is taken in 1900..1999 when it has one or two digits, and a
    year before the year 1 is taken by its number before the era; the value
    is finite, not before the year 100 and not further from the epoch than
    the local time or 10^12. *)
Lemma UTC_parts_early (local : Z) :
  - maxTime <= local < year100 ->
  let y := YearFromTime local in
  exists a,
    UTC (if y <=? 0 then 1 - y else y) (MonthFromTime local + 1 - 1) (DateFromTime local)
        (HourFromTime local) (MinFromTime local) (SecFromTime local) 0 = Fin a /\
    year100 <= a <= Z.max (10 ^ 12) (- local).
Proof.
  intros [Hlo Hhi] y.
  pose proof (YearFromTime_below_100 local Hhi) as Hy99. fold y in Hy99.
  pose proof (YearFromTime_lower local Hlo) as Hylo. fold y in Hylo.
  pose proof (local_before_next_year local) as Hnext. fold y in Hnext.
  replace (MonthFromTime local + 1 - 1) with (MonthFromTime local) by lia.
  set (shown := if y <=? 0 then 1 - y else y).
  unfold UTC.
  set (yr := if (0 <=? shown) && (shown <=? 99) then 1900 + shown else shown).
  assert (Hyr : 100 <= yr <= 271822 /\ (yr <= 1999 \/ (y <= -99 /\ yr = 1 - y))).
  { subst yr shown. destruct (Z.leb_spec y 0).
    - destruct (Z.leb_spec 0 (1 - y)); [|lia].
      destruct (Z.leb_spec (1 - y) 99); cbn [andb]; lia.
    - destruct (Z.leb_spec 0 y); [|lia].
      destruct (Z.leb_spec y 99); cbn [andb]; lia. }
  clearbody yr. clear shown.
  pose proof (DateFacts.monthOfDay_range (isLeapYear (YearFromTime local))
                (DayWithinYear local)) as Hm.
  fold (MonthFromTime local) in Hm.
  rewrite (DateFacts.MakeDay_in_range yr _ _ Hm).
  pose proof (ZoneFacts.DateFromTime_range local) as Hd.
  pose proof (ConversionFacts.DaysInMonth_le_31 (isLeapYear (YearFromTime local)) _ Hm) as H31.
  pose proof (DateFacts.monthStart_bound (isLeapYear yr) _ Hm) as [Hms0 [Hms1 Hms2]].
  assert (Hms : 0 <= monthStart (isLeapYear yr) (MonthFromTime local) <= 366)
    by (destruct (isLeapYear yr); lia).
  assert (Htime : 0 <= MakeTime (HourFromTime local) (MinFromTime local) (SecFromTime local) 0
                  < msPerDay).
  { apply DateFacts.MakeTime_bound; unfold HourFromTime, MinFromTime, SecFromTime;
      try apply Z.mod_pos_bound; lia. }
  pose proof (DateFacts.DayFromYear_grows 100 yr ltac:(lia)) as Hg100.
  assert (Hupper : DayFromYear yr + 401 <= 10993 \/
                   (DayFromYear yr + 401) * msPerDay <= - local).
  { destruct Hyr as [_ [Hsmall|[Hneg ->]]].
    - left. pose proof (DateFacts.DayFromYear_grows yr 1999 ltac:(lia)).
      let v := eval vm_compute in (DayFromYear 1999) in
      change (DayFromYear 1999) with v in *. lia.
    - right. pose proof (DayFromYear_mirror y Hneg). unfold msPerDay in *. nia. }
  set (ms := monthStart (isLeapYear yr) (MonthFromTime local)) in *.
  set (time := MakeTime _ _ _ _) in *.
  set (date := DateFromTime local) in *.
  clearbody ms time date.
  exists (MakeDate (DayFromYear yr + ms + date - 1) time).
  assert (Hrange : year100 <= MakeDate (DayFromYear yr + ms + date - 1) time
                   <= Z.max (10 ^ 12) (- local)).
  { unfold MakeDate. rewrite <- ConversionFacts.year100_day.
    let v := eval vm_compute in (DayFromYear 100) in change (DayFromYear 100) with v in *.
    change (10 ^ 12) with 1000000000000.
    unfold msPerDay in *. destruct Hupper; nia. }
  split; [|exact Hrange].
  unfold TimeClip, validTime.
  destruct (Z.leb_spec (Z.abs (MakeDate (DayFromYear yr + ms + date - 1) time)) maxTime)
    as [_|Hbad]; [reflexivity|].
  exfalso. change (10 ^ 12) with 1000000000000 in Hrange.
  unfold year100, maxTime in *. lia.
Qed.

(** Whatever the year of a local time within the time values, [Date.UTC] of
    its parts is finite, and not further from the epoch than the local time
    or 6 * 10^13 (the year 100). *)
Lemma UTC_parts_bound (local : Z) :
  Z.abs local <= maxTime ->
  let y := YearFromTime local in
  exists a,
    UTC (if y <=? 0 then 1 - y else y) (MonthFromTime local + 1 - 1) (DateFromTime local)
        (HourFromTime local) (MinFromTime local) (SecFromTime local) 0 = Fin a /\
    Z.abs a <= Z.max (Z.abs local) (6 * 10 ^ 13).
Proof.
  intros Hl y. change (6 * 10 ^ 13) with 60000000000000.
  destruct (Z_lt_le_dec local year100) as [Hearly|Hlate].
  - destruct (UTC_parts_early local) as [a [Ha Hb]]; [lia|].
    exists a. split; [exact Ha|].
    change (10 ^ 12) with 1000000000000 in Hb. unfold year100 in *. lia.
  - exists (local - local mod 1000). split.
    + apply ConversionFacts.UTC_of_fields. lia.
    + pose proof (Z.mod_pos_bound local 1000 ltac:(lia)). unfold year100 in *. lia.
Qed.

Section WithTimeZones.
Context {tz : TimeZones}.

Lemma zoneOffsetMs_finite (zone : string) (off : Z -> Z) (t : Z) :
  utcOffset zone = Some off -> Z.abs t <= maxTime -> Z.abs (t + off t) <= maxTime ->
  exists o, zoneOffsetMs zone (Fin t) = Return (Fin o) /\
            Z.abs (o + t) <= Z.max (Z.abs (t + off t)) (6 * 10 ^ 13).
Proof.
  intros Hz Ht Hl.
  destruct (UTC_parts_bound (t + off t) Hl) as [a [Ha Hb]].
  exists (a - t). split; [|replace (a - t + t) with a by lia; exact Hb].
  unfold zoneOffsetMs, getZoneParts. rewrite Hz.
  assert (Hv : validTime t = true) by (apply Z.leb_le; exact Ht).
  rewrite Hv. cbn [bind year month day hour minute second].
  cbv zeta in Ha. rewrite Ha. reflexivity.
Qed.

(** One refinement from a guess [r] of magnitude at most [R]. *)
Lemma refineLoop_step (zone : string) (off : Z -> Z) (g0 r R : Z) (k : nat) :
  utcOffset zone = Some off -> boundedOffsets off ->
  Z.abs r <= R -> 6 * 10 ^ 13 <= R -> R + msPerDay <= maxTime ->
  exists r', refineLoop (S k) zone (Fin g0) (Fin r) = refineLoop k zone (Fin g0) (Fin r') /\
             Z.abs r' <= Z.abs g0 + 2 * R + msPerDay.
Proof.
  intros Hz Hb Hr HR Hmax. pose proof (Hb r) as Ho.
  destruct (zoneOffsetMs_finite zone off r Hz) as [o [Heq Hbound]]; [lia|lia|].
  exists (g0 - o). cbn [refineLoop]. rewrite Heq. cbn [bind sub].
  split; [reflexivity|]. change (6 * 10 ^ 13) with 60000000000000 in *. lia.
Qed.

(** The conversion returns a number for every naive time within 5 * 10^14
    milliseconds of the epoch, also when the local times it meets lie before
    the year 100, where the parts are not read back as they were written. *)
Lemma zonedLocalToUtcMs_finite_early (s zone : string) (c : Z * Z * Z * Z * Z)
    (off : Z -> Z) (g0 : Z) :
  components s = Some c -> utcOffset zone = Some off -> boundedOffsets off ->
  naiveUTC c = Fin g0 -> Z.abs g0 <= 5 * 10 ^ 14 ->
  exists r, zonedLocalToUtcMs s zone = Return (Some (Fin r)).
Proof.
  intros Hc Hz Hb Hn Hg.
  rewrite ConversionFacts.zonedLocalToUtcMs_components, Hc, Hn.
  change (5 * 10 ^ 14) with 500000000000000 in Hg.
  destruct (refineLoop_step zone off g0 g0 500000000000000 2 Hz Hb Hg)
    as [r1 [E1 B1]]; [vm_compute; discriminate|vm_compute; discriminate|].
  destruct (refineLoop_step zone off g0 r1 (3 * 500000000000000 + msPerDay) 1 Hz Hb)
    as [r2 [E2 B2]]; [lia|vm_compute; discriminate|vm_compute; discriminate|].
  destruct (refineLoop_step zone off g0 r2 (7 * 500000000000000 + 3 * msPerDay) 0 Hz Hb)
    as [r3 [E3 _]]; [lia|vm_compute; discriminate|vm_compute; discriminate|].
  exists r3. rewrite E1, E2, E3. reflexivity.
Qed.

End WithTimeZones.

End RangeFacts.

(** * The conversion against its specification *)

Module RefinementFacts.
Import Js Date App.

Lemma asUtc_wallClock (off : Z -> Z) (t : Z) :
  asUtc (wallClock off t) = (t + off t) - (t + off t) mod 1000.
Proof.
  unfold asUtc, wallClock. cbn [year month day hour minute second].
  replace (MonthFromTime (t + off t) + 1 - 1) with (MonthFromTime (t + off t)) by lia.
  apply DateFacts.MakeDate_of_fields.
Qed.

Lemma offsetMs_seen (off : Z -> Z) (t : Z) : offsetMs off t = seenOffset off t.
Proof. unfold offsetMs, seenOffset. rewrite asUtc_wallClock. reflexivity. Qed.

Lemma refined_iter (off : Z -> Z) (g0 : Z) (n : nat) : forall r : Z,
  refined off g0 n r = Nat.iter n (fun guess => g0 - offsetMs off guess) r.
Proof.
  induction n as [|k IH]; intros r; [reflexivity|].
  rewrite Nat.iter_succ_r, <- IH, offsetMs_seen. reflexivity.
Qed.

Lemma naiveUTC_spec (y m d h mi : Z) :
  100 <= y -> validTime (naiveUTCSpec (y, m, d, h, mi)) = true ->
  naiveUTC (y, m, d, h, mi) = Fin (naiveUTCSpec (y, m, d, h, mi)).
Proof.
  intros Hy Hv. unfold naiveUTC, UTC.
  destruct (Z.leb_spec y 99); [lia|]. rewrite andb_false_r.
  unfold naiveUTCSpec, asUtc in *. cbn [year month day hour minute second] in *.
  unfold TimeClip. now rewrite Hv.
Qed.

Lemma refinable_valid (g0 : Z) : refinable g0 -> validTime g0 = true.
Proof.
  intros [Hlo Hhi]. apply Z.leb_le. unfold year100, maxTime, msPerDay in *. lia.
Qed.

Section WithTimeZones.
Context {tz : TimeZones}.

(** C3, as amended.  For a string that decomposes into five components with
    a year from 100 on (plain ones: year at most 275000, month at most 1200,
    day at most 10^6, hour and minute at most 10^9 in magnitude), in a zone
    that the platform knows, whose offsets near the date stay within a day,
    and with a naive time from the year 100 on, three days off either end of
    the time values: [zonedLocalToUtcMs] returns what the specification
    computes, the guess [naiveUTC(components)] refined exactly three times by
    [guess = naiveUTC(components) - offsetMs(zoneId, guess)].  The three
    functions of the code are those of the specification: [Date.UTC] of the
    components is their naive time, and [zoneOffsetMs] is the wall-clock
    components of the instant in the zone read as UTC, minus the instant,
    which is the offset of the zone less the milliseconds of the local
    time. *)
Theorem zonedLocalToUtcMs_refines (s zone : string) (y m d h mi : Z) (off : Z -> Z) :
  components s = Some (y, m, d, h, mi) -> plainComponents (y, m, d, h, mi) -> 100 <= y ->
  utcOffset zone = Some off ->
  locallyBounded off (naiveUTCSpec (y, m, d, h, mi)) ->
  refinable (naiveUTCSpec (y, m, d, h, mi)) ->
  zonedLocalToUtcMs s zone = Return (Some (Fin (toUtcSpec off (y, m, d, h, mi)))) /\
  naiveUTC (y, m, d, h, mi) = Fin (naiveUTCSpec (y, m, d, h, mi)) /\
  (forall t, validTime t = true -> year100 <= t + off t <= maxTime ->
             zoneOffsetMs zone (Fin t) = Return (Fin (offsetMs off t))) /\
  (forall t, offsetMs off t = off t - (t + off t) mod 1000).
Proof.
  intros Hc _ Hy Hz Hb Hr.
  pose proof (naiveUTC_spec y m d h mi Hy (refinable_valid _ Hr)) as Hn.
  split; [|split; [exact Hn|split]].
  - destruct (ConversionFacts.zonedLocalToUtcMs_value s zone _ off _ Hc Hz Hb Hn Hr)
      as [Hval _].
    rewrite Hval. unfold toUtcSpec. now rewrite refined_iter.
  - intros t Hv Hl. rewrite offsetMs_seen.
    now apply ConversionFacts.zoneOffsetMs_value.
  - intros t. rewrite offsetMs_seen. unfold seenOffset. cbv zeta. lia.
Qed.




(** C10, as amended.  A string that decomposes into five plain integers is
    converted to an instant, not rejected, whatever the calendar ranges of
    the components, in a known zone with offsets within a day, when their
    naive time lies between 5 * 10^14 milliseconds before the epoch and
    three days before the last time value; from the year 100 on the instant
    is within a day and a second of the naive time.  The naive time carries
    plain components over arithmetically: twelve months are a year, the days
    past the end of a month count into the next month, twenty-four hours are
    a day, sixty minutes an hour. *)
Theorem out_of_range_components_roll_over (s zone : string) (c : Z * Z * Z * Z * Z)
    (off : Z -> Z) (g0 : Z) :
  components s = Some c -> plainComponents c ->
  utcOffset zone = Some off -> boundedOffsets off ->
  naiveUTC c = Fin g0 -> - (5 * 10 ^ 14) <= g0 <= maxTime - 3 * msPerDay ->
  (exists r, zonedLocalToUtcMs s zone = Return (Some (Fin r)) /\
             (refinable g0 -> Z.abs (r - g0) <= msPerDay + 999)) /\
  (forall y m d h mi,
     (plainComponents (y, m + 12, d, h, mi) -> plainComponents (y + 1, m, d, h, mi) ->
      100 <= y -> naiveUTC (y, m + 12, d, h, mi) = naiveUTC (y + 1, m, d, h, mi)) /\
     (plainComponents (y, m, DaysInMonth (isLeapYear y) (m - 1) + d, h, mi) ->
      plainComponents (y, m + 1, d, h, mi) -> 100 <= y -> 1 <= m <= 12 ->
      naiveUTC (y, m, DaysInMonth (isLeapYear y) (m - 1) + d, h, mi)
      = naiveUTC (y, m + 1, d, h, mi)) /\
     (plainComponents (y, m, d, h + 24, mi) -> plainComponents (y, m, d + 1, h, mi) ->
      naiveUTC (y, m, d, h + 24, mi) = naiveUTC (y, m, d + 1, h, mi)) /\
     (plainComponents (y, m, d, h, mi + 60) -> plainComponents (y, m, d, h + 1, mi) ->
      naiveUTC (y, m, d, h, mi + 60) = naiveUTC (y, m, d, h + 1, mi))).
Proof.
  intros Hc _ Hz Hb Hn [Hlo Hhi]. split.
  - destruct (Z_lt_le_dec g0 (year100 + 3 * msPerDay)) as [Hearly|Hlate].
    + destruct (RangeFacts.zonedLocalToUtcMs_finite_early s zone c off g0 Hc Hz Hb Hn)
        as [r Hr].
      { change (5 * 10 ^ 14) with 500000000000000 in *.
        unfold year100, msPerDay in *. lia. }
      exists r. split; [exact Hr|]. intros [Hge _]. lia.
    + assert (Hg : refinable g0) by (split; assumption).
      exists (refined off g0 3 g0). split; [|intros _].
      * apply (ConversionFacts.zonedLocalToUtcMs_value s zone c off g0 Hc Hz); auto.
        now apply ConversionFacts.bounded_locally.
      * apply (ConversionFacts.zonedLocalToUtcMs_value s zone c off g0 Hc Hz); auto.
        now apply ConversionFacts.bounded_locally.
  - intros y m d h mi. split; [|split; [|split]].
    + intros _ _ Hy. now apply ConversionFacts.naiveUTC_month_carry.
    + intros _ _ Hy Hm. now apply ConversionFacts.naiveUTC_day_carry.
    + intros _ _. apply ConversionFacts.naiveUTC_hour_carry.
    + intros _ _. apply ConversionFacts.naiveUTC_minute_carry.
Qed.

(** X28.  In a zone whose offset does not change near the date, the
    conversion is exact: when five plain components read as UTC give the
    time value g0 (from the year 100 to the end of the range, three days off
    either end) and the zone keeps the offset o (whole seconds, at most a
    day) within two days of g0, [zonedLocalToUtcMs] returns g0 - o, the
    instant at which the clock of the zone shows the components, and
    [zoneOffsetMs] at that instant is o. *)
Theorem conversion_exact_at_constant_offset (s zone : string) (c : Z * Z * Z * Z * Z)
    (off : Z -> Z) (o g0 : Z) :
  components s = Some c -> plainComponents c -> naiveUTC c = Fin g0 -> refinable g0 ->
  utcOffset zone = Some off ->
  (forall u, Z.abs (u - g0) <= 2 * Date.msPerDay -> off u = o) ->
  Z.abs o <= Date.msPerDay -> o mod 1000 = 0 ->
  zonedLocalToUtcMs s zone = Return (Some (Fin (g0 - o))) /\
  zoneOffsetMs zone (Fin (g0 - o)) = Return (Fin o) /\
  g0 - o + off (g0 - o) = g0.
Proof.
  intros Hc _ Hn Hr Hz Hconst Ho Hom.
  destruct (ParserFacts.constant_offset_value s zone c off o g0 Hc Hn Hr Hz Hconst Ho Hom)
    as [Hval Hseen].
  assert (Hoff : off (g0 - o) = o) by (apply Hconst; unfold Date.msPerDay in *; lia).
  split; [exact Hval|]. split; [|lia].
  rewrite (ConversionFacts.zoneOffsetMs_value zone off (g0 - o) Hz).
  - now rewrite Hseen.
  - unfold Date.validTime. apply Z.leb_le.
    unfold refinable, year100, Date.maxTime, Date.msPerDay in *. lia.
  - rewrite Hoff. unfold refinable, year100, Date.maxTime, Date.msPerDay in *. lia.
Qed.

End WithTimeZones.

End RefinementFacts.

(** * The de-duplication key over the visits of the page *)

Module SessionFacts.
Import Js App.

Lemma keyOrZero_unset (task : Task) : notifiedFor task = None -> keyOrZero task.
Proof. intros H. unfold keyOrZero. now rewrite H. Qed.

Lemma keyOk_keyOrZero (task : Task) : keyOk task -> keyOrZero task.
Proof.
  unfold keyOk, keyOrZero. destruct (notifiedFor task); [|trivial].
  intros H. now right.
Qed.

Lemma keyOrZero_checkTask (now lead : Z) (task : Task) :
  0 <= lead <= 120 -> keyOrZero task -> keyOrZero (fst (checkTask now (lead * 60000) task)).
Proof.
  intros Hl Hk.
  destruct (snd (checkTask now (lead * 60000) task)) eqn:E.
  - destruct (AppFacts.checkTask_fired _ _ _ E) as (r & Hr & ->).
    unfold keyOrZero. cbn. right. exists r, lead. auto.
  - now rewrite (AppFacts.checkTask_quiet _ _ _ E).
Qed.

Lemma ordered_checkReminders (now : Z) (st : State) :
  ordered st -> ordered (fst (checkReminders now st)).
Proof.
  intros [Hk Hl].
  destruct (notificationsEnabled (settings st)) eqn:Hen.
  - destruct (AppFacts.checkReminders_enabled now st Hen) as (Ht & Hs & _).
    split; [|now rewrite Hs]. rewrite Ht. apply Forall_map.
    eapply Forall_impl; [|exact Hk]. intros t. now apply keyOrZero_checkTask.
  - rewrite (AppFacts.checkReminders_disabled now st Hen). now split.
Qed.

(** What a reload does to a task that the application saved. *)
Lemma normalizeSaved_fields (task task' : Task) (uuid : string) (now : Z) :
  Storage.normalizeSaved task uuid now = Some task' ->
  done task' = done task /\
  reminderAt task' = Some (match reminderAt task with Some z => z | None => 0 end) /\
  notifiedFor task' = Some (match notifiedFor task with Some z => z | None => 0 end).
Proof.
  unfold Storage.normalizeSaved.
  destruct (isEmpty (slice0 MAX_TEXT_LENGTH (trim (text task)))); [discriminate|].
  intros H. inversion H; subst task'. cbn. auto.
Qed.

Lemma keyOrZero_normalizeSaved (task task' : Task) (uuid : string) (now : Z) :
  Storage.normalizeSaved task uuid now = Some task' -> keyOrZero task -> keyOrZero task'.
Proof.
  intros H Hk. destruct (normalizeSaved_fields _ _ _ _ H) as (_ & Hr & Hn).
  unfold keyOrZero in *. rewrite Hn.
  destruct (notifiedFor task) as [n|]; [|now left].
  destruct Hk as [Hz|(r & lead & Hre & Hl & Hv)]; [now left|].
  right. exists r, lead. rewrite Hr, Hre. auto.
Qed.

Lemma keyOrZero_loadSaved (uuid : nat -> string) (clock : nat -> Z) (l : list Task) :
  Forall keyOrZero l -> forall i, Forall keyOrZero (Storage.loadSaved uuid clock i l).
Proof.
  intros Hl. induction Hl as [|saved rest Hs _ IH]; intros i; cbn [Storage.loadSaved];
    [constructor|].
  destruct (Storage.normalizeSaved saved (uuid i) (clock i)) as [task|] eqn:E; [|apply IH].
  constructor; [|apply IH]. exact (keyOrZero_normalizeSaved _ _ _ _ E Hs).
Qed.

Section WithStringToNumber.
Variable stringToNumber : string -> number.

(** [normalizeSaved] is [normalizeTask] on what [saveTasks] wrote. *)
Lemma normalizeTask_saved (task : Task) (uuid : string) (now : Z) :
  Storage.normalizeTask stringToNumber (Storage.taskValue task) uuid now
  = option_map Storage.storedOf (Storage.normalizeSaved task uuid now).
Proof.
  unfold Storage.normalizeTask, Storage.normalizeSaved, Storage.taskValue.
  cbn [getProp lookupField String.eqb Ascii.eqb Bool.eqb].
  destruct (isEmpty (slice0 MAX_TEXT_LENGTH (trim (text task)))); [reflexivity|].
  cbn [option_map]. unfold Storage.storedOf. cbn [id text done createdAt reminderAt notifiedFor].
  cbn [toBoolean Storage.toNumber].
  destruct (createdAt task =? 0), (reminderAt task), (notifiedFor task); reflexivity.
Qed.

Lemma normalizeFrom_saved (uuid : nat -> string) (clock : nat -> Z) (l : list Task) :
  forall i, Storage.normalizeFrom stringToNumber uuid clock i (map Storage.taskValue l)
            = map Storage.storedOf (Storage.loadSaved uuid clock i l).
Proof.
  induction l as [|saved rest IH]; intros i; [reflexivity|].
  cbn [map Storage.normalizeFrom Storage.loadSaved].
  rewrite normalizeTask_saved, IH.
  destruct (Storage.normalizeSaved saved (uuid i) (clock i)); reflexivity.
Qed.

(** [loadSaved] is [loadTasks] on what [saveTasks] wrote. *)
Lemma loadTasks_saved (uuid : nat -> string) (clock : nat -> Z) (l : list Task) :
  Storage.loadTasks stringToNumber (Some (Storage.tasksValue l)) uuid clock
  = map Storage.storedOf (Storage.loadSaved uuid clock 0 l).
Proof.
  unfold Storage.loadTasks, Storage.tasksValue. cbn [loadJson]. apply normalizeFrom_saved.
Qed.

End WithStringToNumber.

Section WithTimeZones.
Context {tz : TimeZones}.

Lemma ordered_handle (a : Action) (st : State) :
  ordered st -> ordered (fst (Session.handle a st)).
Proof.
  intros Hw. pose proof Hw as [Hk Hl]. destruct a; cbn [Session.handle].
  - cbn [fst perform]. split; [exact Hk|]. cbn. apply SettingsFacts.clampInt_range; lia.
  - pose proof (HandlerFacts.addTask_outcomes taskInput reminderInput now created uuid st) as H.
    destruct (addTask taskInput reminderInput now created uuid st) as [[st' ev]|e];
      [|assumption].
    destruct H as [[-> _]|(task & -> & Hn & _)]; [assumption|].
    split; [|exact Hl]. constructor; [now apply keyOrZero_unset|exact Hk].
  - unfold toggleTask. destruct (find (hasId taskId) (tasks st)) as [found|]; [|assumption].
    split; [|exact Hl]. cbn. apply HandlerFacts.Forall_updateFound; [|exact Hk].
    intros t Ht. destruct d; [now apply keyOrZero_unset|exact Ht].
  - split; [|exact Hl]. cbn. now apply HandlerFacts.Forall_filter.
  - pose proof (HandlerFacts.editTask_outcomes taskId promptText promptReminder now st) as H.
    destruct (editTask taskId promptText promptReminder now st) as [[st' ev]|e];
      [|assumption].
    destruct H as [[-> _]|(f & -> & Hf & _)]; [assumption|].
    split; [|exact Hl]. cbn. apply HandlerFacts.Forall_updateFound; [|exact Hk].
    intros t _. apply keyOrZero_unset. apply Hf.
  - split; [|exact Hl]. cbn. now apply HandlerFacts.Forall_filter.
  - now apply ordered_checkReminders.
  - unfold onNotifyBeforeChange.
    set (st1 := {| tasks := tasks st; settings := _ |}).
    assert (H1 : ordered st1).
    { split; [exact Hk|]. cbn. apply SettingsFacts.clampInt_range; lia. }
    pose proof (ordered_checkReminders now st1 H1) as H2.
    destruct (checkReminders now st1) as [st2 events]. exact H2.
  - unfold onTimezoneChange. destruct (timezoneMap_has selected); cbn; [|assumption].
    now split.
  - now split.
Qed.

Lemma ordered_reopen (uuid : nat -> string) (clock : nat -> Z) (now : Z) (s : Session.Store) :
  match Session.savedTasks s with
  | Some l => Forall keyOrZero l
  | None => True
  end ->
  ordered (fst (Session.reopen uuid clock now s)).
Proof.
  intros Hs. unfold Session.reopen.
  set (st0 := {| tasks := _; settings := _ |}).
  assert (H0 : ordered st0).
  { split.
    - cbn. destruct (Session.savedTasks s) as [l|]; [|constructor].
      now apply keyOrZero_loadSaved.
    - cbn. apply SettingsFacts.clampInt_range; lia. }
  pose proof (ordered_checkReminders now st0 H0) as H1.
  destruct (checkReminders now st0) as [st1 events]. exact H1.
Qed.

Lemma keysInOrder_step (x : Session.Step) (w : Session.World) :
  Session.keysInOrder w -> Session.keysInOrder (Session.step x w).
Proof.
  intros (Hk & Hl & Hs). unfold Session.step.
  assert (Ho : ordered (fst match x with
                            | Session.Act a => Session.handle a (Session.state w)
                            | Session.Reopen uuid clock now =>
                                Session.reopen uuid clock now (Session.store w)
                            end)).
  { destruct x as [a|uuid clock now].
    - apply ordered_handle. now split.
    - now apply ordered_reopen. }
  destruct (match x with
            | Session.Act a => Session.handle a (Session.state w)
            | Session.Reopen uuid clock now => Session.reopen uuid clock now (Session.store w)
            end) as [st events].
  destruct Ho as [Hk' Hl']. cbn [fst] in *.
  split; [exact Hk'|]. split; [exact Hl'|].
  cbn [Session.store Session.saveAll Session.savedTasks].
  destruct (existsb Session.isSaveTasks events); assumption.
Qed.

Lemma keysInOrder_run (steps : list Session.Step) :
  forall w, Session.keysInOrder w -> Session.keysInOrder (Session.run steps w).
Proof.
  induction steps as [|x rest IH]; intros w Hw; [exact Hw|].
  cbn. apply IH. now apply keysInOrder_step.
Qed.

Lemma checkReminders_key (st : State) (now : Z) (i : nat) (task : Task) :
  nth_error (tasks st) i = Some task ->
  exists task',
    nth_error (tasks (fst (checkReminders now st))) i = Some task' /\
    (notifiedFor task' = notifiedFor task \/
     exists r, reminderAt task = Some r /\
               notifiedFor task'
               = Some (computeTrigger r (notifyBeforeMinutes (settings st)))).
Proof.
  intros Hi.
  destruct (notificationsEnabled (settings st)) eqn:Hen.
  - destruct (AppFacts.checkReminders_enabled now st Hen) as (Ht & _ & _).
    rewrite Ht, nth_error_map, Hi. cbn [option_map]. eexists. split; [reflexivity|].
    destruct (snd (checkTask now (notifyBeforeMinutes (settings st) * 60000) task)) eqn:E.
    + destruct (AppFacts.checkTask_fired _ _ _ E) as (r & Hr & ->). right. exists r. auto.
    + rewrite (AppFacts.checkTask_quiet _ _ _ E). now left.
  - rewrite (AppFacts.checkReminders_disabled now st Hen). exists task. auto.
Qed.

(** C7, as amended.  Over the visits of the page, from the first one with an
    empty storage, whatever the operations and the reloads in between (the
    storage being written by the application only), [notifiedFor], when set,
    is 0 or the trigger instant [reminderAt - lead * 60000] of the task's
    current reminder for a lead time of 0..120 minutes, in the state and in
    the stored tasks, and every step keeps it so.  A reload turns a [null]
    key into 0 and keeps any other; a pass of the reminder check leaves
    [notifiedFor] as it is or sets it to the trigger it computed; every
    committed edit and every completion reset it to [null]; a change of the
    lead time does not reset it: the stored key stays, or is replaced by the
    new trigger when the check that follows fires. *)
Theorem notifiedFor_is_a_trigger_key :
  (forall steps : list Session.Step, Session.keysInOrder (Session.run steps Session.start)) /\
  (forall (x : Session.Step) (w : Session.World),
     Session.keysInOrder w -> Session.keysInOrder (Session.step x w)) /\
  (forall (stringToNumber : string -> number) (task : Task) (uuid : string) (now : Z),
     Storage.normalizeTask stringToNumber (Storage.taskValue task) uuid now
     = option_map Storage.storedOf (Storage.normalizeSaved task uuid now) /\
     forall task', Storage.normalizeSaved task uuid now = Some task' ->
                   notifiedFor task'
                   = Some (match notifiedFor task with Some n => n | None => 0 end)) /\
  (forall (st : State) (now : Z) (i : nat) (task : Task),
     nth_error (tasks st) i = Some task ->
     exists task',
       nth_error (tasks (fst (checkReminders now st))) i = Some task' /\
       (notifiedFor task' = notifiedFor task \/
        exists r, reminderAt task = Some r /\
                  notifiedFor task'
                  = Some (computeTrigger r (notifyBeforeMinutes (settings st))))) /\
  (forall (st st' : State) (taskId : string)
          (promptText promptReminder : string -> option string) (now : Z) (task : Task),
     find (hasId taskId) (tasks st) = Some task ->
     editTask taskId promptText promptReminder now st = Return (st', [SaveTasks; Render]) ->
     exists i task',
       nth_error (tasks st) i = Some task /\ nth_error (tasks st') i = Some task' /\
       notifiedFor task' = None) /\
  (forall (st : State) (taskId : string) (task : Task),
     find (hasId taskId) (tasks st) = Some task ->
     exists i task',
       nth_error (tasks st) i = Some task /\
       nth_error (tasks (fst (toggleTask taskId true st))) i = Some task' /\
       notifiedFor task' = None) /\
  (forall (st : State) (inputValue : string) (now : Z) (i : nat) (task : Task) (n : Z),
     nth_error (tasks st) i = Some task -> notifiedFor task = Some n ->
     exists task',
       nth_error (tasks (fst (onNotifyBeforeChange inputValue now st))) i = Some task' /\
       (notifiedFor task' = Some n \/
        exists r, reminderAt task = Some r /\
                  notifiedFor task'
                  = Some (computeTrigger r (clampInt (Str inputValue) 0 120 0)))).
Proof.
  split; [|split; [|split; [|split; [|split; [|split]]]]].
  - intros steps. apply keysInOrder_run.
    split; [constructor|]. split; [cbn; lia|exact I].
  - apply keysInOrder_step.
  - intros stn task uuid now. split; [apply normalizeTask_saved|].
    intros task' H. apply (normalizeSaved_fields _ _ _ _ H).
  - apply checkReminders_key.
  - intros st st' taskId promptText promptReminder now task Hf He.
    pose proof (HandlerFacts.editTask_outcomes taskId promptText promptReminder now st) as H.
    rewrite He in H. destruct H as [[_ [H|[m H]]]|(f & -> & Hprop & _)]; try discriminate.
    destruct (AppFacts.updateFound_spec taskId f (tasks st) task Hf) as (i & H1 & H2 & _).
    exists i, (f task). repeat split; try assumption. apply Hprop.
  - intros st taskId task Hf. unfold toggleTask. rewrite Hf. cbn [fst tasks setTasks].
    destruct (AppFacts.updateFound_spec taskId
                (fun t => setNotifiedFor None (setDone true t)) (tasks st) task Hf)
      as (i & H1 & H2 & _).
    exists i, (setNotifiedFor None (setDone true task)). auto.
  - intros st inputValue now i task n Hi Hn. unfold onNotifyBeforeChange.
    set (st1 := {| tasks := tasks st; settings := _ |}).
    destruct (checkReminders_key st1 now i task Hi) as (task' & Hi' & Hk).
    destruct (checkReminders now st1) as [st2 events]. cbn [fst] in *.
    exists task'. split; [assumption|]. rewrite Hn in Hk. exact Hk.
Qed.

End WithTimeZones.

End SessionFacts.

(** * Loading the settings, with the exception of the conversion *)

Module StrictFacts.
Import Js App.

Lemma strict_clampInt_range (v : value) (min max fallback result : Z) :
  min <= max -> min <= fallback <= max ->
  Strict.clampInt v min max fallback = Return result -> min <= result <= max.
Proof.
  intros Hmm Hf. unfold Strict.clampInt.
  destruct (Strict.ToString v) as [text|e]; cbn [bind]; [|discriminate].
  destruct (parseInt text) as [num| |]; try (intros [= <-]; assumption).
  destruct (Z.ltb_spec num min); [intros [= <-]; lia|].
  destruct (Z.ltb_spec max num); intros [= <-]; lia.
Qed.

(** Induction on a value through the elements of its arrays. *)
Lemma value_elements_ind (P : value -> Prop) :
  P Undefined -> P Null -> (forall b, P (Bool b)) -> (forall n, P (Num n)) ->
  (forall s, P (Str s)) -> (forall items, Forall P items -> P (Arr items)) ->
  (forall fields, P (Obj fields)) -> forall v, P v.
Proof.
  intros HU HN HB HNum HS HA HO.
  fix IH 1.
  intros [| |b|n|s|items|fields];
    [exact HU|exact HN|apply HB|apply HNum|apply HS| |apply HO].
  apply HA. induction items as [|item rest IHl]; constructor; [apply IH|exact IHl].
Qed.

Lemma pieces_sound (items : list value) :
  Forall (fun v => forall s, Strict.ToString v = Return s -> s = toString v) items ->
  forall strings,
    (fix pieces (l : list value) : outcome (list string) :=
       match l with
       | [] => Return []
       | item :: rest =>
           bind (match item with
                 | Undefined | Null => Return ""
                 | _ => Strict.ToString item
                 end) (fun piece =>
           bind (pieces rest) (fun others => Return (piece :: others)))
       end) items = Return strings ->
    strings = map (fun item => match item with
                               | Undefined | Null => ""
                               | _ => toString item
                               end) items.
Proof.
  intros Hall. induction Hall as [|item rest Hitem _ IHl]; intros strings.
  - intros [= <-]. reflexivity.
  - cbn [map].
    destruct (match item with
              | Undefined | Null => Return ""
              | _ => Strict.ToString item
              end) as [piece|e] eqn:Ei; cbn [bind]; [|discriminate].
    match goal with
    | |- bind ?p _ = _ -> _ => destruct p as [others|e] eqn:Er
    end; cbn [bind]; [|discriminate].
    intros [= <-]. f_equal.
    + destruct item; try (inversion Ei; reflexivity); apply Hitem; exact Ei.
    + apply IHl. reflexivity.
Qed.

(** [Strict.ToString] returns what [toString] gives. *)
Lemma ToString_sound (v : value) :
  forall s : string, Strict.ToString v = Return s -> s = toString v.
Proof.
  induction v as [| |b|n|str|items Hall|fields] using value_elements_ind; intros s;
    cbn [Strict.ToString toString]; try (intros [= <-]; reflexivity).
  - match goal with
    | |- bind ?p _ = _ -> _ => destruct p as [strings|e] eqn:Es
    end; cbn [bind]; [|discriminate].
    intros [= <-]. f_equal. now apply pieces_sound.
  - destruct (Strict.hasOwn "toString" fields); [discriminate|].
    intros [= <-]. reflexivity.
Qed.

Lemma clampInt_sound (v : value) (min max fallback result : Z) :
  Strict.clampInt v min max fallback = Return result -> result = clampInt v min max fallback.
Proof.
  unfold Strict.clampInt, clampInt.
  destruct (Strict.ToString v) as [text|e] eqn:Et; cbn [bind]; [|discriminate].
  rewrite <- (ToString_sound v text Et).
  destruct (parseInt text) as [num| |]; try (intros [= <-]; reflexivity).
  destruct (num <? min); [intros [= <-]; reflexivity|].
  destruct (max <? num); intros [= <-]; reflexivity.
Qed.

Lemma clampInt_integer (n min max fallback : Z) :
  Z.abs n < 10 ^ 21 -> min <= max ->
  Strict.clampInt (Num n) min max fallback = Return (Z.max min (Z.min max n)).
Proof.
  intros Hn Hmm. unfold Strict.clampInt. cbn [Strict.ToString toString bind].
  rewrite JsFacts.parseInt_numberToString.
  - destruct (Z.ltb_spec n min); [f_equal; lia|].
    destruct (Z.ltb_spec max n); f_equal; lia.
  - exact Hn.
Qed.

Lemma clampInt_throws (v : value) (min max fallback : Z) (e : exn) :
  Strict.clampInt v min max fallback = Throw e <-> Strict.ToString v = Throw e.
Proof.
  unfold Strict.clampInt. destruct (Strict.ToString v) as [text|e']; cbn [bind].
  - split; [|discriminate].
    destruct (parseInt text) as [num| |]; try discriminate.
    destruct (num <? min); [discriminate|]. destruct (max <? num); discriminate.
  - split; intros [= ->]; reflexivity.
Qed.

Lemma loadSettings_throws (parsed : option value) (st : State) (e : exn) :
  Strict.loadSettings parsed st = Throw e <->
  Strict.ToString (getProp (loadJson parsed (settingsValue (settings st)))
                           "notifyBeforeMinutes") = Throw e.
Proof.
  unfold Strict.loadSettings. rewrite <- (clampInt_throws _ 0 120 0 e).
  destruct (Strict.clampInt _ 0 120 0) as [lead|e']; cbn [bind].
  - split; discriminate.
  - split; intros [= ->]; reflexivity.
Qed.

Lemma loadSettings_sound (parsed : option value) (st : State) (loaded : Settings) :
  Strict.loadSettings parsed st = Return loaded -> loaded = loadSettings parsed st.
Proof.
  unfold Strict.loadSettings, loadSettings.
  destruct (Strict.clampInt _ 0 120 0) as [minutes|e] eqn:Ec; cbn [bind]; [|discriminate].
  intros [= <-]. now rewrite (clampInt_sound _ _ _ _ _ Ec).
Qed.

(** C9, as amended.  [loadSettings] returns, or throws the TypeError of
    [String] on the stored lead time: it throws when the stored lead time is
    an object with a property [toString] of its own, and returns when it is
    absent, null, a boolean, a number, a string or an object without such a
    property.  When it returns, its result is that of [App.loadSettings],
    the same function without the exception; the loaded time zone is one of
    the eleven supported identifiers, the stored one when it is a supported
    string and Europe/Moscow otherwise, and the loaded lead time is an
    integer of [0, 120]: a stored integer of magnitude below 10^21 is clamped
    to the nearest bound, and a stored lead time that is absent, null, a
    boolean or an object gives 0. *)
Theorem loadSettings_normalizes (parsed : option value) (st : State) :
  let raw := loadJson parsed (settingsValue (settings st)) in
  let lead := getProp raw "notifyBeforeMinutes" in
  (forall loaded, Strict.loadSettings parsed st = Return loaded ->
     loaded = loadSettings parsed st /\
     In (timezone loaded) (map zoneId RU_TIMEZONES) /\
     (forall z, getProp raw "timezone" = Str z -> timezoneMap_has z = true ->
                timezone loaded = z) /\
     ((forall z, getProp raw "timezone" = Str z -> timezoneMap_has z = false) ->
      timezone loaded = "Europe/Moscow") /\
     0 <= notifyBeforeMinutes loaded <= 120 /\
     (forall n, lead = Num n -> Z.abs n < 10 ^ 21 ->
                notifyBeforeMinutes loaded = Z.max 0 (Z.min 120 n)) /\
     (lead = Undefined \/ lead = Null \/ (exists b, lead = Bool b) \/ (exists fs, lead = Obj fs) ->
      notifyBeforeMinutes loaded = 0)) /\
  (forall e, Strict.loadSettings parsed st = Throw e <-> Strict.ToString lead = Throw e) /\
  (forall fs, lead = Obj fs -> Strict.hasOwn "toString" fs = true ->
              Strict.loadSettings parsed st = Throw TypeError) /\
  (lead = Undefined \/ lead = Null \/ (exists b, lead = Bool b) \/ (exists n, lead = Num n) \/
   (exists s, lead = Str s) \/ (exists fs, lead = Obj fs /\ Strict.hasOwn "toString" fs = false) ->
   exists loaded, Strict.loadSettings parsed st = Return loaded) /\
  List.length RU_TIMEZONES = 11%nat.
Proof.
  intros raw lead. split; [|split; [|split; [|split]]].
  - intros loaded Hret. split; [now apply loadSettings_sound|]. revert Hret.
    unfold Strict.loadSettings. fold raw. fold lead.
    destruct (Strict.clampInt lead 0 120 0) as [minutes|e] eqn:Ec; cbn [bind]; [|discriminate].
    intros [= <-]. cbn [timezone notifyBeforeMinutes].
    split; [|split; [|split; [|split; [|split]]]].
    + destruct (getProp raw "timezone") as [| | | |z| |];
        try (apply SettingsFacts.timezoneMap_has_In; reflexivity).
      destruct (timezoneMap_has z) eqn:E; apply SettingsFacts.timezoneMap_has_In;
        [assumption|reflexivity].
    + intros z Hz Hs. now rewrite Hz, Hs.
    + intros Hno. destruct (getProp raw "timezone") as [| | | |z| |]; try reflexivity.
      now rewrite (Hno z eq_refl).
    + apply (strict_clampInt_range lead 0 120 0 minutes); [lia|lia|exact Ec].
    + intros n Hn Hsafe. rewrite Hn, (clampInt_integer n 0 120 0 Hsafe) in Ec by lia.
      now inversion Ec.
    + intros Hcases. unfold Strict.clampInt in Ec.
      destruct Hcases as [Hv|[Hv|[[b Hv]|[fs Hv]]]]; rewrite Hv in Ec.
      * cbn in Ec. now inversion Ec.
      * cbn in Ec. now inversion Ec.
      * destruct b; cbn in Ec; now inversion Ec.
      * cbn [Strict.ToString] in Ec. destruct (Strict.hasOwn "toString" fs);
          cbn in Ec; [discriminate|now inversion Ec].
  - intros e. apply loadSettings_throws.
  - intros fs Hv Hown. apply loadSettings_throws. fold raw. fold lead.
    rewrite Hv. cbn [Strict.ToString]. now rewrite Hown.
  - intros Hcases.
    destruct (Strict.loadSettings parsed st) as [loaded|e] eqn:E; [now exists loaded|].
    exfalso. apply loadSettings_throws in E. fold raw in E. fold lead in E.
    destruct Hcases as [Hv|[Hv|[[b Hv]|[[n Hv]|[[s Hv]|(fs & Hv & Hown)]]]]];
      rewrite Hv in E; cbn [Strict.ToString] in E; try discriminate.
    now rewrite Hown in E.
  - reflexivity.
Qed.

End StrictFacts.

(** * The conversion, the settings and the visits on concrete inputs *)

Module FurtherSamples.
Import Js Date App.

Lemma june_plain : plainComponents (2025, 6, 1, 9, 30).
Proof. cbv [plainComponents]. lia. Defined.

Lemma june_naive_refinable : refinable (naiveUTCSpec (2025, 6, 1, 9, 30)).
Proof.
  change (naiveUTCSpec (2025, 6, 1, 9, 30)) with 1748770200000.
  exact OnSamples.refinable_june.
Defined.

Lemma three_hours_locally_bounded (g0 : Z) : locallyBounded (fun _ => 3 * msPerHour) g0.
Proof. intros t _. unfold msPerHour, msPerDay. lia. Defined.

Lemma hundred_to_2025 : 100 <= 2025.
Proof. lia. Defined.

Lemma zonedLocalToUtcMs_refines_witness :
  components "2025-06-01T09:30" = Some (2025, 6, 1, 9, 30) /\
  toUtcSpec (fun _ => 3 * msPerHour) (2025, 6, 1, 9, 30) = juneReminder /\
  zonedLocalToUtcMs (tz := fixedOffsets) "2025-06-01T09:30" "Europe/Moscow"
  = Return (Some (Fin (toUtcSpec (fun _ => 3 * msPerHour) (2025, 6, 1, 9, 30)))).
Proof.
  split; [reflexivity|]. split; [reflexivity|].
  exact (proj1 (RefinementFacts.zonedLocalToUtcMs_refines (tz := fixedOffsets)
                  "2025-06-01T09:30" "Europe/Moscow" 2025 6 1 9 30 (fun _ => 3 * msPerHour)
                  MoreSamples.june_components june_plain hundred_to_2025 eq_refl
                  (three_hours_locally_bounded (naiveUTCSpec (2025, 6, 1, 9, 30)))
                  june_naive_refinable)).
Defined.

(** C3 as stated fails, on the zone and on the string.  The components of
    2025-06-01T09:30 are five finite integers and Mars/Olympus is a zone
    identifier that the platform does not know: no guess is returned, the
    formatter throws a RangeError in the first refinement.  The components of
    0050-06-01T09:30 are five finite integers: their naive time is in the
    year 50 and the specification refines it to 06:30 UTC of that day;
    [Date.UTC] reads the year as 1950 and the conversion returns 06:30 UTC
    of 1950-06-01. *)
Lemma unknown_zone_and_early_year_not_refined :
  components "2025-06-01T09:30" = Some (2025, 6, 1, 9, 30) /\
  utcOffset (TimeZones := fixedOffsets) "Mars/Olympus" = None /\
  zonedLocalToUtcMs (tz := fixedOffsets) "2025-06-01T09:30" "Mars/Olympus"
  = Throw RangeError /\
  components "0050-06-01T09:30" = Some (50, 6, 1, 9, 30) /\
  naiveUTCSpec (50, 6, 1, 9, 30) = -60576215400000 /\
  toUtcSpec (fun _ => 3 * msPerHour) (50, 6, 1, 9, 30) = -60576226200000 /\
  zonedLocalToUtcMs (tz := fixedOffsets) "0050-06-01T09:30" "Europe/Moscow"
  = Return (Some (Fin (-618082200000))) /\
  zonedLocalToUtcMs (tz := fixedOffsets) "0050-06-01T09:30" "Europe/Moscow"
  <> Return (Some (Fin (toUtcSpec (fun _ => 3 * msPerHour) (50, 6, 1, 9, 30)))).
Proof.
  split; [reflexivity|]. split; [reflexivity|]. split; [vm_compute; reflexivity|].
  split; [reflexivity|]. split; [vm_compute; reflexivity|].
  split; [vm_compute; reflexivity|]. split; [vm_compute; reflexivity|].
  vm_compute. discriminate.
Qed.



(** Before the year 100 too: the month 0 takes 0100-00-01 back to the
    December of the year 99, and the conversion goes through its three
    refinements and returns a number. *)
Lemma early_date_is_converted :
  components "0100-00-01T00:00" = Some (100, 0, 1, 0, 0) /\
  naiveUTC (100, 0, 1, 0, 0) = Fin (-59014137600000) /\
  -59014137600000 < year100 /\
  zonedLocalToUtcMs (tz := fixedOffsets) "0100-00-01T00:00" "Europe/Moscow"
  = Return (Some (Fin (-280196679600000))).
Proof. repeat split; vm_compute; reflexivity. Qed.

Lemma rolled_plain : plainComponents (2025, 13, 32, 25, 99).
Proof. cbv [plainComponents]. lia. Defined.

Lemma rolled_components : components "2025-13-32T25:99" = Some (2025, 13, 32, 25, 99).
Proof. reflexivity. Defined.

Lemma rolled_naive : naiveUTC (2025, 13, 32, 25, 99) = Fin 1769999940000.
Proof. reflexivity. Defined.

Lemma rolled_in_range : - (5 * 10 ^ 14) <= 1769999940000 <= maxTime - 3 * msPerDay.
Proof. unfold maxTime, msPerDay. lia. Defined.

Lemma out_of_range_components_roll_over_witness :
  components "2025-13-32T25:99" = Some (2025, 13, 32, 25, 99) /\
  plainComponents (2025, 13, 32, 25, 99) /\
  utcOffset (TimeZones := fixedOffsets) "Europe/Moscow" = Some (fun _ => 3 * msPerHour) /\
  boundedOffsets (fun _ => 3 * msPerHour) /\
  naiveUTC (2025, 13, 32, 25, 99) = Fin 1769999940000 /\
  naiveUTC (2026, 2, 2, 2, 39) = Fin 1769999940000 /\
  - (5 * 10 ^ 14) <= 1769999940000 <= maxTime - 3 * msPerDay /\
  exists r, zonedLocalToUtcMs (tz := fixedOffsets) "2025-13-32T25:99" "Europe/Moscow"
            = Return (Some (Fin r)) /\
            (refinable 1769999940000 -> Z.abs (r - 1769999940000) <= msPerDay + 999).
Proof.
  split; [exact rolled_components|]. split; [exact rolled_plain|]. split; [reflexivity|].
  split; [exact OnSamples.three_hours_bounded|].
  split; [exact rolled_naive|]. split; [reflexivity|]. split; [exact rolled_in_range|].
  exact (proj1 (RefinementFacts.out_of_range_components_roll_over (tz := fixedOffsets)
                  "2025-13-32T25:99" "Europe/Moscow" (2025, 13, 32, 25, 99)
                  (fun _ => 3 * msPerHour) 1769999940000
                  rolled_components rolled_plain eq_refl OnSamples.three_hours_bounded
                  rolled_naive rolled_in_range)).
Defined.

Lemma conversion_exact_at_constant_offset_witness :
  components "2025-06-01T09:30" = Some (2025, 6, 1, 9, 30) /\
  plainComponents (2025, 6, 1, 9, 30) /\
  naiveUTC (2025, 6, 1, 9, 30) = Fin 1748770200000 /\
  refinable 1748770200000 /\
  utcOffset (TimeZones := fixedOffsets) "Europe/Moscow" = Some (fun _ => 3 * msPerHour) /\
  Z.abs (3 * msPerHour) <= msPerDay /\ (3 * msPerHour) mod 1000 = 0 /\
  zonedLocalToUtcMs (tz := fixedOffsets) "2025-06-01T09:30" "Europe/Moscow"
  = Return (Some (Fin (1748770200000 - 3 * msPerHour))).
Proof.
  split; [exact MoreSamples.june_components|]. split; [exact june_plain|].
  split; [exact MoreSamples.june_naive|].
  split; [exact OnSamples.refinable_june|]. split; [reflexivity|].
  split; [exact MoreSamples.moscow_within_a_day|]. split; [reflexivity|].
  exact (proj1 (RefinementFacts.conversion_exact_at_constant_offset (tz := fixedOffsets)
                  "2025-06-01T09:30" "Europe/Moscow" (2025, 6, 1, 9, 30)
                  (fun _ => 3 * msPerHour) (3 * msPerHour) 1748770200000
                  MoreSamples.june_components june_plain MoreSamples.june_naive
                  OnSamples.refinable_june eq_refl
                  (MoreSamples.moscow_constant_near _) MoreSamples.moscow_within_a_day
                  eq_refl)).
Defined.

Lemma omsk_settings_loaded :
  Strict.loadSettings
    (Some (Obj [("timezone", Str "Asia/Omsk"); ("notifyBeforeMinutes", Num 500)]))
    initialState
  = Return {| timezone := "Asia/Omsk"; notificationsEnabled := false;
              notifyBeforeMinutes := 120 |}.
Proof. vm_compute. reflexivity. Defined.

Lemma five_hundred_is_plain : Z.abs 500 < 10 ^ 21.
Proof. reflexivity. Defined.

Lemma loadSettings_normalizes_witness :
  let parsed := Some (Obj [("timezone", Str "Asia/Omsk"); ("notifyBeforeMinutes", Num 500)]) in
  let loaded := {| timezone := "Asia/Omsk"; notificationsEnabled := false;
                   notifyBeforeMinutes := 120 |} in
  Strict.loadSettings parsed initialState = Return loaded /\
  timezoneMap_has "Asia/Omsk" = true /\ Z.abs 500 < 10 ^ 21 /\
  timezone loaded = "Asia/Omsk" /\ notifyBeforeMinutes loaded = Z.max 0 (Z.min 120 500).
Proof.
  split; [exact omsk_settings_loaded|]. split; [reflexivity|].
  split; [exact five_hundred_is_plain|]. split.
  - exact (proj1 (proj2 (proj2 (proj1 (StrictFacts.loadSettings_normalizes
             (Some (Obj [("timezone", Str "Asia/Omsk"); ("notifyBeforeMinutes", Num 500)]))
             initialState)
             {| timezone := "Asia/Omsk"; notificationsEnabled := false;
                notifyBeforeMinutes := 120 |} omsk_settings_loaded)))
             "Asia/Omsk" eq_refl eq_refl).
  - exact (proj1 (proj2 (proj2 (proj2 (proj2 (proj2 (proj1 (StrictFacts.loadSettings_normalizes
             (Some (Obj [("timezone", Str "Asia/Omsk"); ("notifyBeforeMinutes", Num 500)]))
             initialState)
             {| timezone := "Asia/Omsk"; notificationsEnabled := false;
                notifyBeforeMinutes := 120 |} omsk_settings_loaded))))))
             500 eq_refl five_hundred_is_plain).
Defined.

(** C9 as stated fails, in two ways.  A stored lead time of 10^21 minutes is
    numeric and above the range, and is not clamped to 120: its text is 1e+21
    and the loaded lead time is 1.  A stored lead time that is an object with
    a property [toString] is not replaced by 0: [String] throws a TypeError
    on it and [loadSettings] yields no settings. *)
Lemma stored_lead_time_not_normalized :
  let huge := Some (Obj [("notifyBeforeMinutes", Num (10 ^ 21))]) in
  let object := Some (Obj [("notifyBeforeMinutes", Obj [("toString", Null)])]) in
  getProp (loadJson huge (settingsValue (settings initialState))) "notifyBeforeMinutes"
    = Num (10 ^ 21) /\
  120 < 10 ^ 21 /\
  Strict.ToString (Num (10 ^ 21)) = Return "1e+21" /\
  Strict.loadSettings huge initialState
  = Return {| timezone := "Europe/Moscow"; notificationsEnabled := false;
              notifyBeforeMinutes := 1 |} /\
  getProp (loadJson object (settingsValue (settings initialState))) "notifyBeforeMinutes"
    = Obj [("toString", Null)] /\
  Strict.loadSettings object initialState = Throw TypeError.
Proof.
  cbv zeta. split; [reflexivity|]. split; [reflexivity|].
  split; [vm_compute; reflexivity|]. split; [vm_compute; reflexivity|].
  split; [reflexivity|]. vm_compute. reflexivity.
Qed.

Lemma saved_world_in_order :
  Session.keysInOrder
    {| Session.state := sampleState 10 [];
       Session.store :=
         {| Session.savedTasks := Some [sampleTask (Some juneReminder) None];
            Session.savedSettings := Some (settings (sampleState 10 [])) |} |}.
Proof.
  split; [constructor|]. split; [cbn; lia|].
  cbn. constructor; [exact I|constructor].
Defined.

Lemma notifiedFor_is_a_trigger_key_witness :
  let w := {| Session.state := sampleState 10 [];
              Session.store :=
                {| Session.savedTasks := Some [sampleTask (Some juneReminder) None];
                   Session.savedSettings := Some (settings (sampleState 10 [])) |} |} in
  Session.keysInOrder w /\
  Session.keysInOrder
    (Session.step (tz := fixedOffsets)
       (Session.Reopen (fun _ => "a1b2") (fun _ => 1748000000000) 1748000000000) w).
Proof.
  split; [exact saved_world_in_order|].
  exact (proj1 (proj2 (SessionFacts.notifiedFor_is_a_trigger_key (tz := fixedOffsets)))
           (Session.Reopen (fun _ => "a1b2") (fun _ => 1748000000000) 1748000000000)
           {| Session.state := sampleState 10 [];
              Session.store :=
                {| Session.savedTasks := Some [sampleTask (Some juneReminder) None];
                   Session.savedSettings := Some (settings (sampleState 10 [])) |} |}
           saved_world_in_order).
Defined.

(** A visit after a task was saved with no key: the task comes back with the
    key 0, which is no trigger instant of its reminder for a lead time of
    0..120 minutes. *)
Lemma reopened_task_has_key_zero :
  let saved := sampleTask (Some juneReminder) None in
  let w := {| Session.state := sampleState 10 [];
              Session.store :=
                {| Session.savedTasks := Some [saved];
                   Session.savedSettings := Some (settings (sampleState 10 [])) |} |} in
  let w' := Session.step (tz := fixedOffsets)
              (Session.Reopen (fun _ => "a1b2") (fun _ => 1748000000000) 1748000000000) w in
  map notifiedFor (tasks (Session.state w')) = [Some 0] /\
  map reminderAt (tasks (Session.state w')) = [Some juneReminder] /\
  forall lead, 0 <= lead <= 120 -> computeTrigger juneReminder lead <> 0.
Proof.
  cbv zeta. split; [vm_compute; reflexivity|]. split; [vm_compute; reflexivity|].
  intros lead Hl. unfold computeTrigger, juneReminder. lia.
Qed.

End FurtherSamples.
